(** * Laosfactos: the contract lifecycle and its scheduled settlement jobs

    A shallow embedding of the contract/streak logic of the application:
    the client handlers of the component [Laosfactos] of [App.jsx], in its
    latest revision ([handleCreateContract], [handleCheckIn],
    [handleCompleteContract], [handleDeleteContract], [handleViolation], the
    dashboard and the action area of [ContractCard]), and the cloud
    functions of [functions/index.js] ([weeklyRollover], [dailyAutoKeep],
    [coachTemptation], [markTemptationOutcome]).

    Conventions of the model.
    - A calendar date string [YYYY-MM-DD] is represented by its day number
      (days since the epoch, in UTC).  On such strings equality and the
      JavaScript comparison [>] agree with equality and [>] on day numbers,
      [new Date(s)] is midnight UTC of that day, and
      [new Date(t).toISOString().split('T')[0]] is the day that contains the
      instant [t].  An empty or missing date string is [None].
    - Instants ([Date] values, Firestore timestamps) are milliseconds since
      the epoch.
    - Numeric document fields are integers; a missing field is [None].
    - Collections whose documents get an automatically generated id and are
      never addressed by id (logs, violations, journal entries) are lists in
      write order; the collections addressed by id are finite maps.
    - A document id is a string without [/]; a string with a [/] given to
      [.doc(...)] names another path, or none, and the callables are left
      undefined there.
    - The scheduled jobs visit the users that have a user document
      [users/{uid}]; the client writes below [users/{uid}] without creating
      that document. *)

From Stdlib Require Import ZArith Lia.
From stdpp Require Import gmap strings list fin_maps.

Local Open Scope Z_scope.
Local Open Scope string_scope.
Local Open Scope list_scope.

(** ** JavaScript idioms *)

(** [x || d] on a numeric field: a missing field and [0] are falsy. *)
Definition orNum (x : option Z) (d : Z) : Z :=
  match x with
  | Some n => if decide (n = 0) then d else n
  | None => d
  end.

(** [x || d] on strings: the empty string is falsy. *)
Definition orStr (x d : string) : string :=
  if decide (x = "") then d else x.

(** [!x] on a string that may be missing from the request data. *)
Definition falsyStr (x : option string) : bool :=
  match x with
  | Some s => bool_decide (s = "")
  | None => true
  end.

(** A field of an update object: when present it replaces the stored one. *)
Definition orElse {A} (new old : option A) : option A :=
  match new with
  | Some v => Some v
  | None => old
  end.

(** [1000 * 60 * 60 * 24] *)
Definition MS_PER_DAY : Z := 1000 * 60 * 60 * 24.

(** [new Date(t).toISOString().split('T')[0]] *)
Definition isoDate (t : Z) : Z := t / MS_PER_DAY.

(** [new Date(dateStr)] for a calendar date string. *)
Definition dateOf (d : Z) : Z := d * MS_PER_DAY.

(** [Math.ceil(a / b)] for [b > 0]. *)
Definition ceilDiv (a b : Z) : Z := - ((- a) / b).

(** ** Documents *)

(** [frequency] of a contract: [{ type, timesPerWeek }]. *)
Record Frequency := {
  f_type : string;
  timesPerWeek : option Z
}.

(** [weeklyProgress] of a contract. *)
Record WeeklyProgress := {
  weekStart : option Z;
  completedCount : option Z;
  lastCheckInDate : option Z
}.

(** The object a contract is created from ([formData] of [CreateContract]);
    [frequency] and [autoKeep] are the two fields the cloud functions query. *)
Record ContractData := {
  title : string;
  pillar : string;
  type : string;
  behavior : string;
  startDate : option Z;
  endDate : option Z;
  importance : Z;
  exceptions : list string;
  penalty : string;
  witnessLinked : bool;
  frequency : option Frequency;
  autoKeep : option bool
}.

(** A document of [users/{uid}/contracts]; [cdata] holds the fields spread
    from the creation data. *)
Record Contract := {
  cdata : ContractData;
  userId : string;
  status : string;
  streak : option Z;
  createdAt : option Z;
  lastCheckIn : option Z;
  weeklyProgress : option WeeklyProgress;
  outcome : option string;
  failureReason : option string;
  archivedAt : option Z;
  resistedCount : option Z;
  lastTemptation : option Z
}.

(** A document of [users/{uid}/logs]. *)
Record DailyLog := {
  l_contractId : string;
  l_date : Z;
  l_status : string;
  l_notes : option string;
  l_source : option string;
  l_timestamp : Z
}.

(** A document of [users/{uid}/violations]. *)
Record ViolationRecord := {
  v_reason : string;
  v_story : string;
  v_decision : string;
  v_contractId : string;
  v_contractTitle : string;
  v_timestamp : Z
}.

(** A document of [contracts/{contractId}/journal]. *)
Record JournalEntry := {
  j_text : string;
  j_createdAt : Z;
  j_type : string
}.

(** A document of [contracts/{contractId}/temptations]. *)
Record Temptation := {
  t_createdAt : Z;
  t_context : option string;
  t_aiResponse : string;
  t_outcome : string;
  t_resolvedAt : option Z
}.

(** The subtree [users/{uid}] of one user. *)
Record Store := {
  contractsCol : gmap string Contract;
  logsCol : list DailyLog;
  violationsCol : list ViolationRecord;
  journalCol : list (string * JournalEntry);
  temptationsCol : gmap (string * string) Temptation
}.

(** A user without any document. *)
Definition emptyStore : Store :=
  {| contractsCol := ∅; logsCol := []; violationsCol := [];
     journalCol := []; temptationsCol := ∅ |}.

(** ** Updates and write batches *)

(** The object passed to [update]: the fields to overwrite.
    [u_resistedCountInc] is [FieldValue.increment]. *)
Record ContractUpdate := {
  u_status : option string;
  u_streak : option Z;
  u_lastCheckIn : option Z;
  u_weeklyProgress : option WeeklyProgress;
  u_outcome : option string;
  u_failureReason : option string;
  u_archivedAt : option Z;
  u_resistedCountInc : option Z;
  u_lastTemptation : option Z
}.

(** The contract document after [update(u)]. *)
Definition applyUpdate (u : ContractUpdate) (c : Contract) : Contract :=
  {| cdata := cdata c;
     userId := userId c;
     status := default (status c) (u_status u);
     streak := orElse (u_streak u) (streak c);
     createdAt := createdAt c;
     lastCheckIn := orElse (u_lastCheckIn u) (lastCheckIn c);
     weeklyProgress := orElse (u_weeklyProgress u) (weeklyProgress c);
     outcome := orElse (u_outcome u) (outcome c);
     failureReason := orElse (u_failureReason u) (failureReason c);
     archivedAt := orElse (u_archivedAt u) (archivedAt c);
     resistedCount :=
       match u_resistedCountInc u with
       | Some k => Some (default 0 (resistedCount c) + k)
       | None => resistedCount c
       end;
     lastTemptation := orElse (u_lastTemptation u) (lastTemptation c) |}.

(** One operation of a write batch. *)
Inductive Write :=
  | SetLog (l : DailyLog)
  | SetViolation (v : ViolationRecord)
  | SetJournal (contractId : string) (e : JournalEntry)
  | UpdateContract (contractId : string) (u : ContractUpdate).

(** The store with the contracts collection replaced. *)
Definition withContracts (m : gmap string Contract) (σ : Store) : Store :=
  {| contractsCol := m; logsCol := logsCol σ;
     violationsCol := violationsCol σ; journalCol := journalCol σ;
     temptationsCol := temptationsCol σ |}.

(** A [set] on a fresh document reference always applies; an [update] needs
    the document to exist. *)
Definition applyWrite (w : Write) (σ : Store) : option Store :=
  match w with
  | SetLog l =>
      Some {| contractsCol := contractsCol σ; logsCol := logsCol σ ++ [l];
              violationsCol := violationsCol σ; journalCol := journalCol σ;
              temptationsCol := temptationsCol σ |}
  | SetViolation v =>
      Some {| contractsCol := contractsCol σ; logsCol := logsCol σ;
              violationsCol := violationsCol σ ++ [v];
              journalCol := journalCol σ;
              temptationsCol := temptationsCol σ |}
  | SetJournal cid e =>
      Some {| contractsCol := contractsCol σ; logsCol := logsCol σ;
              violationsCol := violationsCol σ;
              journalCol := journalCol σ ++ [(cid, e)];
              temptationsCol := temptationsCol σ |}
  | UpdateContract cid u =>
      match contractsCol σ !! cid with
      | Some c => Some (withContracts (<[cid := applyUpdate u c]> (contractsCol σ)) σ)
      | None => None
      end
  end.

(** [batch.commit()]: the store applies the writes of a batch in order, all
    of them or none; the batch is refused as a whole when it updates a
    document that does not exist. *)
Fixpoint commit (batch : list Write) (σ : Store) : option Store :=
  match batch with
  | [] => Some σ
  | w :: rest =>
      match applyWrite w σ with
      | Some σ' => commit rest σ'
      | None => None
      end
  end.

(** ** The client ([App.jsx]) *)

(** The state of the component [Laosfactos] that the handlers read.
    [contracts] is the last snapshot of the contracts collection, [todayLogs]
    the last snapshot of today's logs keyed by contract id. *)
Record Client := {
  user : option string;
  contracts : list (string * Contract);
  todayLogs : gmap string DailyLog;
  activeViolationContract : option (string * Contract);
  view : string
}.

(** The state setters of the component. *)
Definition setView (v : string) (cl : Client) : Client :=
  {| user := user cl; contracts := contracts cl; todayLogs := todayLogs cl;
     activeViolationContract := activeViolationContract cl; view := v |}.

Definition setActiveViolationContract (a : option (string * Contract))
    (cl : Client) : Client :=
  {| user := user cl; contracts := contracts cl; todayLogs := todayLogs cl;
     activeViolationContract := a; view := view cl |}.

(** [contracts.find(c => c.id === contractId)] *)
Definition findContract (contractId : string) (cs : list (string * Contract))
    : option (string * Contract) :=
  List.find (fun d => bool_decide (d.1 = contractId)) cs.

(** [handleCreateContract]; [newId] is the id [addDoc] generates, [ts] the
    server timestamp. *)
Definition handleCreateContract (cl : Client) (contractData : ContractData)
    (newId : string) (ts : Z) (σ : Store) : Client * Store :=
  match user cl with
  | None => (cl, σ)
  | Some uid =>
      (setView "dashboard" cl,
       withContracts
         (<[newId := {| cdata := contractData; userId := uid;
                        status := "active"; streak := Some 0;
                        createdAt := Some ts; lastCheckIn := None;
                        weeklyProgress := None; outcome := None;
                        failureReason := None; archivedAt := None;
                        resistedCount := None; lastTemptation := None |}]>
            (contractsCol σ)) σ)
  end.

(** [handleCheckIn]; [clock] is the client's [new Date()], [ts] the server
    timestamp.  A refused batch is caught and logged. *)
Definition handleCheckIn (cl : Client) (contractId status notes : string)
    (clock ts : Z) (σ : Store) : Store :=
  match user cl with
  | None => σ
  | Some uid =>
      let today := isoDate clock in
      match findContract contractId (contracts cl) with
      | None => σ
      | Some (_, contract) =>
          let newStreak := orNum (streak contract) 0 in
          let newStreak :=
            if decide (status = "kept") then newStreak + 1 else newStreak in
          let batch :=
            [ SetLog {| l_contractId := contractId; l_date := today;
                        l_status := status; l_notes := Some notes;
                        l_source := None; l_timestamp := ts |};
              UpdateContract contractId
                {| u_status := None; u_streak := Some newStreak;
                   u_lastCheckIn := Some ts; u_weeklyProgress := None;
                   u_outcome := None; u_failureReason := None;
                   u_archivedAt := None; u_resistedCountInc := None;
                   u_lastTemptation := None |} ] in
          match commit batch σ with
          | Some σ' => σ'
          | None => σ
          end
      end
  end.

(** The update of [handleCompleteContract]. *)
Definition archiveCompleted (ts : Z) : ContractUpdate :=
  {| u_status := Some "archived"; u_streak := None; u_lastCheckIn := None;
     u_weeklyProgress := None; u_outcome := Some "completed";
     u_failureReason := None; u_archivedAt := Some ts;
     u_resistedCountInc := None; u_lastTemptation := None |}.

(** [updateDoc] fails on a missing document; the handler catches the error
    and alerts. *)
Definition handleCompleteContract (cl : Client) (contract : string * Contract)
    (ts : Z) (σ : Store) : Store :=
  match user cl with
  | None => σ
  | Some uid =>
      match commit [UpdateContract contract.1 (archiveCompleted ts)] σ with
      | Some σ' => σ'
      | None => σ
      end
  end.

(** [confirmed] is the answer to [window.confirm]; [deleteDoc] removes the
    contract document only. *)
Definition handleDeleteContract (cl : Client) (contractId : string)
    (confirmed : bool) (σ : Store) : Store :=
  match user cl with
  | None => σ
  | Some uid =>
      if confirmed
      then withContracts (delete contractId (contractsCol σ)) σ
      else σ
  end.

(** The object [ViolationFlow] submits. *)
Record ViolationData := {
  reason : string;
  story : string;
  decision : string
}.

(** [updates] of [handleViolation], after its two [if]s. *)
Definition violationUpdates (violationData : ViolationData) (ts : Z)
    : ContractUpdate :=
  let updates :=
    {| u_status := None; u_streak := Some 0; u_lastCheckIn := Some ts;
       u_weeklyProgress := None; u_outcome := None; u_failureReason := None;
       u_archivedAt := None; u_resistedCountInc := None;
       u_lastTemptation := None |} in
  let updates :=
    if decide (decision violationData = "pause")
    then {| u_status := Some "paused"; u_streak := u_streak updates;
            u_lastCheckIn := u_lastCheckIn updates;
            u_weeklyProgress := u_weeklyProgress updates;
            u_outcome := u_outcome updates;
            u_failureReason := u_failureReason updates;
            u_archivedAt := u_archivedAt updates;
            u_resistedCountInc := u_resistedCountInc updates;
            u_lastTemptation := u_lastTemptation updates |}
    else updates in
  if decide (decision violationData = "retire")
  then {| u_status := Some "archived"; u_streak := u_streak updates;
          u_lastCheckIn := u_lastCheckIn updates;
          u_weeklyProgress := u_weeklyProgress updates;
          u_outcome := Some "breached";
          u_failureReason :=
            Some (orStr (story violationData) (reason violationData));
          u_archivedAt := Some ts;
          u_resistedCountInc := u_resistedCountInc updates;
          u_lastTemptation := u_lastTemptation updates |}
  else updates.

(** The three writes of [handleViolation] for the contract of the form. *)
Definition violationBatch (contract : string * Contract)
    (violationData : ViolationData) (today ts : Z) : list Write :=
  [ SetViolation {| v_reason := reason violationData;
                    v_story := story violationData;
                    v_decision := decision violationData;
                    v_contractId := contract.1;
                    v_contractTitle := title (cdata contract.2);
                    v_timestamp := ts |};
    SetLog {| l_contractId := contract.1; l_date := today;
              l_status := "broken";
              l_notes := Some (story violationData);
              l_source := None; l_timestamp := ts |};
    UpdateContract contract.1 (violationUpdates violationData ts) ].

(** [handleViolation]; on success the form is closed. *)
Definition handleViolation (cl : Client) (violationData : ViolationData)
    (clock ts : Z) (σ : Store) : Client * Store :=
  match user cl, activeViolationContract cl with
  | Some uid, Some avc =>
      let today := isoDate clock in
      match commit (violationBatch avc violationData today ts) σ with
      | Some σ' =>
          (setView "dashboard" (setActiveViolationContract None cl), σ')
      | None => (cl, σ)
      end
  | _, _ => (cl, σ)
  end.

(** *** The dashboard *)

(** [getDaysRemaining(endDateStr)] at the instant [clock]. *)
Definition getDaysRemaining (endDateStr : option Z) (clock : Z) : option Z :=
  match endDateStr with
  | None => None
  | Some d => Some (ceilDiv (dateOf d - clock) MS_PER_DAY)
  end.

(** [daysLeft !== null && daysLeft < 0] *)
Definition isExpired (contract : Contract) (clock : Z) : bool :=
  match getDaysRemaining (endDate (cdata contract)) clock with
  | None => false
  | Some daysLeft => bool_decide (daysLeft < 0)
  end.

(** [contract.startDate && contract.startDate > todayStr] *)
Definition isFuture (contract : Contract) (clock : Z) : bool :=
  match startDate (cdata contract) with
  | None => false
  | Some s => bool_decide (s > isoDate clock)
  end.

(** What a button of a contract card does when clicked. *)
Inductive Action :=
  | ActComplete
  | ActCheckIn (status : string)
  | ActReportViolation
  | ActDelete.

(** The lifecycle buttons [ContractCard] renders for [contract], given
    today's log of the contract. *)
Definition cardActions (contract : Contract) (todayLog : option DailyLog)
    (clock : Z) : list Action :=
  let isDone := bool_decide (is_Some todayLog) in
  (if isFuture contract clock then []
   else if isExpired contract clock then [ActComplete]
   else if isDone then []
   else [ActCheckIn "kept"; ActReportViolation])
  ++ (if negb isDone && negb (isFuture contract clock)
         && negb (isExpired contract clock)
      then [ActCheckIn "exception"] else [])
  ++ [ActDelete].

(** [sortedActive] of [Dashboard]: the active contracts of the snapshot, the
    ones not yet logged today first (the sort is stable). *)
Definition sortedActive (cl : Client) : list (string * Contract) :=
  let activeContracts :=
    filter (λ d, status d.2 = "active") (contracts cl) in
  filter (λ d, ¬ is_Some (todayLogs cl !! d.1)) activeContracts
  ++ filter (λ d, is_Some (todayLogs cl !! d.1)) activeContracts.

(** The buttons on the dashboard: one card per active contract. *)
Definition dashboardActions (cl : Client) (clock : Z)
    : list (string * Action) :=
  flat_map
    (fun d => map (fun a => (d.1, a))
                (cardActions d.2 (todayLogs cl !! d.1) clock))
    (sortedActive cl).

(** ** The cloud functions ([functions/index.js]) *)

(** The query of [weeklyRollover]: [status == 'active'] and
    [frequency.type == 'weekly']. *)
Definition isActiveWeekly (c : Contract) : bool :=
  bool_decide (status c = "active")
  && match frequency (cdata c) with
     | Some f => bool_decide (f_type f = "weekly")
     | None => false
     end.

(** [contract.frequency?.timesPerWeek || 3] *)
Definition goalOf (contract : Contract) : Z :=
  orNum (frequency (cdata contract) ≫= timesPerWeek) 3.

(** [contract.weeklyProgress?.completedCount || 0] *)
Definition completedOf (contract : Contract) : Z :=
  orNum (weeklyProgress contract ≫= completedCount) 0.

(** The [weeklyProgress] the rollover writes. *)
Definition freshWeek (newWeekStart : Z) : WeeklyProgress :=
  {| weekStart := Some newWeekStart; completedCount := Some 0;
     lastCheckInDate := None |}.

(** The update the rollover loop issues for one contract. *)
Definition rolloverUpdate (newWeekStart : Z) (contract : Contract)
    : ContractUpdate :=
  let goal := goalOf contract in
  let completed := completedOf contract in
  let currentStreak := orNum (streak contract) 0 in
  let metGoal := bool_decide (completed >= goal) in
  let newStreak := if metGoal then currentStreak + 1 else 0 in
  {| u_status := None; u_streak := Some newStreak; u_lastCheckIn := None;
     u_weeklyProgress := Some (freshWeek newWeekStart);
     u_outcome := None; u_failureReason := None; u_archivedAt := None;
     u_resistedCountInc := None; u_lastTemptation := None |}.

(** The body of the loop over the users, on the subtree of one user. *)
Definition weeklyRolloverUser (now : Z) (σ : Store) : Store :=
  let contractsSnap :=
    filter (λ d, isActiveWeekly d.2) (map_to_list (contractsCol σ)) in
  match contractsSnap with
  | [] => σ
  | _ =>
      let newWeekStart := isoDate now in
      let batch :=
        map (fun d => UpdateContract d.1 (rolloverUpdate newWeekStart d.2))
          contractsSnap in
      match commit batch σ with
      | Some σ' => σ'
      | None => σ
      end
  end.

(** One run of the job; [db] maps the ids of the user documents (the
    documents of the collection [users], which the job queries) to their
    subtrees.  A user without a user document is not in [db]. *)
Definition weeklyRollover (now : Z) (db : gmap string Store)
    : gmap string Store :=
  weeklyRolloverUser now <$> db.

(** The query of [dailyAutoKeep]: [status == 'active'], [type == 'AVOID'],
    [autoKeep == true]. *)
Definition isAutoKeep (c : Contract) : bool :=
  bool_decide (status c = "active")
  && bool_decide (type (cdata c) = "AVOID")
  && bool_decide (autoKeep (cdata c) = Some true).

(** The day before the one of [now] (the functions run in UTC). *)
Definition yesterdayOf (now : Z) : Z := isoDate (now - MS_PER_DAY).

(** The log the job writes for a contract. *)
Definition autoLog (yesterdayStr ts : Z) (contractId : string) : DailyLog :=
  {| l_contractId := contractId; l_date := yesterdayStr;
     l_status := "kept"; l_notes := None;
     l_source := Some "auto"; l_timestamp := ts |}.

(** The journal entry of an automatic completion. *)
Definition autoEntry (ts : Z) : JournalEntry :=
  {| j_text := "Auto-completed (No violation reported)";
     j_createdAt := ts; j_type := "auto" |}.

(** The update of the streak of an automatic completion. *)
Definition autoKeepUpdate (ts : Z) (contract : Contract) : ContractUpdate :=
  {| u_status := None; u_streak := Some (orNum (streak contract) 0 + 1);
     u_lastCheckIn := Some ts; u_weeklyProgress := None;
     u_outcome := None; u_failureReason := None; u_archivedAt := None;
     u_resistedCountInc := None; u_lastTemptation := None |}.

(** The three writes of the loop body for one contract document. *)
Definition autoKeepWrites (yesterdayStr ts : Z) (d : string * Contract)
    : list Write :=
  [ SetLog (autoLog yesterdayStr ts d.1);
    UpdateContract d.1 (autoKeepUpdate ts d.2);
    SetJournal d.1 (autoEntry ts) ].

(** [loggedContractIds]: the contracts with a log dated [yesterdayStr]. *)
Definition loggedContractIds (yesterdayStr : Z) (σ : Store) : gset string :=
  list_to_set
    (l_contractId <$>
       filter (λ l, l_date l = yesterdayStr) (logsCol σ)).

(** The loop body for one contract document: nothing when the contract is
    already logged, else the three writes. *)
Definition autoKeepBody (logged : gset string) (yesterdayStr ts : Z)
    (d : string * Contract) : list Write :=
  if decide (d.1 ∈ logged) then [] else autoKeepWrites yesterdayStr ts d.

(** The body of the loop over the users, on the subtree of one user; the
    batch is committed when it has a write ([userUpdates > 0]). *)
Definition dailyAutoKeepUser (now ts : Z) (σ : Store) : Store :=
  let yesterdayStr := yesterdayOf now in
  let contractsSnap :=
    filter (λ d, isAutoKeep d.2) (map_to_list (contractsCol σ)) in
  match contractsSnap with
  | [] => σ
  | _ =>
      let logged := loggedContractIds yesterdayStr σ in
      let batch := flat_map (autoKeepBody logged yesterdayStr ts) contractsSnap in
      match batch with
      | [] => σ
      | _ =>
          match commit batch σ with
          | Some σ' => σ'
          | None => σ
          end
      end
  end.

(** One run of the job over the user documents; [db] is as for
    [weeklyRollover]. *)
Definition dailyAutoKeep (now ts : Z) (db : gmap string Store)
    : gmap string Store :=
  dailyAutoKeepUser now ts <$> db.

(** *** The jobs on the whole database *)





(** *** Callable functions *)

(** The codes of the [HttpsError]s the callables throw. *)
Inductive HttpsError :=
  | failed_precondition
  | invalid_argument
  | not_found
  | internal.

(** The store with the temptations collection replaced. *)
Definition withTemptations (m : gmap (string * string) Temptation)
    (σ : Store) : Store :=
  {| contractsCol := contractsCol σ; logsCol := logsCol σ;
     violationsCol := violationsCol σ; journalCol := journalCol σ;
     temptationsCol := m |}.

(** [collection.doc(id)] addresses the document [id] of the collection
    when [id] is a document id, a string without [/].  A string with a [/]
    is taken as a path: it addresses a document further down, among
    documents that a [Store] does not hold, or no document at all. *)
Definition isDocId (id : string) : bool :=
  bool_decide (String.index 0 "/" id = None).

(** [request.data] of [coachTemptation]. *)
Record CoachData := {
  cd_contractId : option string;
  cd_context : option string
}.

(** What [coachTemptation] returns. *)
Record CoachReply := {
  r_temptationId : string;
  r_coaching : string;
  r_resistedCount : Z
}.

(** [auth] is the uid of [request.auth], [σ] the subtree of that user,
    [ai] the trimmed text the model generates ([None] when the call throws),
    [newId] the id [Firestore] generates for the fresh temptation reference.
    An error thrown inside the [try] block, the [not-found] included, is
    caught and thrown again with the code [internal].  The result is [None]
    where the store cannot tell what the call does: past the two checks of
    the request, when [contractId] is a path and not a document id. *)
Definition coachTemptation (auth : option string) (data : CoachData)
    (ai : option string) (newId : string) (ts : Z) (σ : Store)
    : option ((HttpsError + CoachReply) * Store) :=
  match auth with
  | None => Some (inl failed_precondition, σ)
  | Some uid =>
      match cd_contractId data with
      | None => Some (inl invalid_argument, σ)
      | Some contractId =>
          if decide (contractId = "") then Some (inl invalid_argument, σ)
          else if negb (isDocId contractId) then None
          else
            match contractsCol σ !! contractId with
            | None => Some (inl internal, σ)
            | Some contract =>
                let resisted := orNum (resistedCount contract) 0 in
                match ai with
                | None => Some (inl internal, σ)
                | Some coachingText =>
                    let σ1 :=
                      withTemptations
                        (<[(contractId, newId) :=
                             {| t_createdAt := ts;
                                t_context :=
                                  if falsyStr (cd_context data) then None
                                  else cd_context data;
                                t_aiResponse := coachingText;
                                t_outcome := "pending";
                                t_resolvedAt := None |}]>
                           (temptationsCol σ)) σ in
                    let σ2 :=
                      withContracts
                        (<[contractId :=
                             applyUpdate
                               {| u_status := None; u_streak := None;
                                  u_lastCheckIn := None;
                                  u_weeklyProgress := None;
                                  u_outcome := None;
                                  u_failureReason := None;
                                  u_archivedAt := None;
                                  u_resistedCountInc := None;
                                  u_lastTemptation := Some ts |}
                               contract]>
                           (contractsCol σ1)) σ1 in
                    Some (inr {| r_temptationId := newId;
                                 r_coaching := coachingText;
                                 r_resistedCount := resisted |}, σ2)
                end
            end
      end
  end.

(** [request.data] of [markTemptationOutcome]. *)
Record OutcomeData := {
  od_contractId : option string;
  od_temptationId : option string;
  od_outcome : option string
}.

(** The two updates are separate writes: when the second one fails the first
    one stays.  The result is [None] where the store cannot tell what the
    call does: past the checks of the request, when [contractId] or
    [temptationId] is a path and not a document id. *)
Definition markTemptationOutcome (auth : option string) (data : OutcomeData)
    (ts : Z) (σ : Store) : option ((HttpsError + bool) * Store) :=
  match auth with
  | None => Some (inl failed_precondition, σ)
  | Some uid =>
      match od_contractId data, od_temptationId data, od_outcome data with
      | Some contractId, Some temptationId, Some out =>
          if falsyStr (od_contractId data) || falsyStr (od_temptationId data)
             || falsyStr (od_outcome data)
          then Some (inl invalid_argument, σ)
          else if negb (bool_decide (out ∈ ["resisted"; "relapsed"]))
          then Some (inl invalid_argument, σ)
          else if negb (isDocId contractId && isDocId temptationId) then None
          else
            match temptationsCol σ !! (contractId, temptationId) with
            | None => Some (inl internal, σ)
            | Some t =>
                let σ1 :=
                  withTemptations
                    (<[(contractId, temptationId) :=
                         {| t_createdAt := t_createdAt t;
                            t_context := t_context t;
                            t_aiResponse := t_aiResponse t;
                            t_outcome := out;
                            t_resolvedAt := Some ts |}]>
                       (temptationsCol σ)) σ in
                if decide (out = "resisted")
                then
                  match contractsCol σ1 !! contractId with
                  | None => Some (inl internal, σ1)
                  | Some contract =>
                      Some
                        (inr true,
                         withContracts
                           (<[contractId :=
                                applyUpdate
                                  {| u_status := None; u_streak := None;
                                     u_lastCheckIn := None;
                                     u_weeklyProgress := None;
                                     u_outcome := None;
                                     u_failureReason := None;
                                     u_archivedAt := None;
                                     u_resistedCountInc := Some 1;
                                     u_lastTemptation := None |}
                                  contract]>
                              (contractsCol σ1)) σ1)
                  end
                else Some (inr true, σ1)
            end
      | _, _, _ => Some (inl invalid_argument, σ)
      end
  end.

(** ** Sequences of lifecycle operations on the subtree of one user *)

(** [logs[data.contractId] = data] over the snapshot of the logs dated
    [today]. *)
Definition todayLogsOf (today : Z) (logs : list DailyLog)
    : gmap string DailyLog :=
  foldl (fun m l => <[l_contractId l := l]> m) ∅
    (filter (λ l, l_date l = today) logs).

(** The client of user [uid] whose session opened at the instant [opened],
    once its snapshot listeners have delivered the state [σ] of the store.
    The listener of the logs computes [today] once, when it subscribes, and
    from then on delivers the logs of that date: in a session left open
    over midnight [todayLogs] still holds the logs of the day before. *)
Definition syncedClient (uid : string) (opened : Z) (σ : Store) : Client :=
  {| user := Some uid;
     contracts := map_to_list (contractsCol σ);
     todayLogs := todayLogsOf (isoDate opened) (logsCol σ);
     activeViolationContract := None;
     view := "dashboard" |}.

(** [onReportViolation] of the dashboard. *)
Definition onReportViolation (contract : string * Contract) (cl : Client)
    : Client :=
  setView "violation" (setActiveViolationContract (Some contract) cl).

(** The lifecycle operations. *)
Inductive Op :=
  | OpCreate (contractData : ContractData) (newId : string)
  | OpCheckIn (contractId status notes : string)
  | OpViolation (contractId : string) (violationData : ViolationData)
  | OpComplete (contractId : string)
  | OpDelete (contractId : string)
  | OpWeeklyRollover
  | OpDailyAutoKeep.

(** An operation with the client clock and the server time of its writes. *)
Record Step := {
  s_op : Op;
  s_clock : Z;
  s_ts : Z
}.

(** The handler an operation runs, on a client in sync with the store.  The
    handlers read the user, the snapshot of the contracts and the contract
    of the violation form, and not [todayLogs]: the day the session opened
    makes no difference to what they write. *)
Definition exec (uid : string) (s : Step) (σ : Store) : Store :=
  let cl := syncedClient uid (s_clock s) σ in
  match s_op s with
  | OpCreate contractData newId =>
      (handleCreateContract cl contractData newId (s_ts s) σ).2
  | OpCheckIn contractId st notes =>
      handleCheckIn cl contractId st notes (s_clock s) (s_ts s) σ
  | OpViolation contractId violationData =>
      match findContract contractId (contracts cl) with
      | Some d =>
          (handleViolation (onReportViolation d cl) violationData
             (s_clock s) (s_ts s) σ).2
      | None => σ
      end
  | OpComplete contractId =>
      match findContract contractId (contracts cl) with
      | Some d => handleCompleteContract cl d (s_ts s) σ
      | None => σ
      end
  | OpDelete contractId => handleDeleteContract cl contractId true σ
  | OpWeeklyRollover => weeklyRolloverUser (s_clock s) σ
  | OpDailyAutoKeep => dailyAutoKeepUser (s_clock s) (s_ts s) σ
  end.

(** The button of the operation is on the dashboard of a session that
    opened at [opened] and is in sync with [σ], when the operation runs: the
    cards are rendered with the clock of the step and with the [todayLogs]
    of the session.  The scheduled jobs and the creation form need no
    button. *)
Definition offeredIn (uid : string) (opened : Z) (s : Step) (σ : Store)
    : Prop :=
  let acts := dashboardActions (syncedClient uid opened σ) (s_clock s) in
  match s_op s with
  | OpCheckIn contractId st _ => (contractId, ActCheckIn st) ∈ acts
  | OpViolation contractId _ => (contractId, ActReportViolation) ∈ acts
  | OpComplete contractId => (contractId, ActComplete) ∈ acts
  | OpDelete contractId => (contractId, ActDelete) ∈ acts
  | OpCreate _ _ | OpWeeklyRollover | OpDailyAutoKeep => True
  end.

(** The same for a session that opened on the day of the step. *)
Definition offered (uid : string) (s : Step) (σ : Store) : Prop :=
  let acts := dashboardActions (syncedClient uid (s_clock s) σ) (s_clock s) in
  match s_op s with
  | OpCheckIn contractId st _ => (contractId, ActCheckIn st) ∈ acts
  | OpViolation contractId _ => (contractId, ActReportViolation) ∈ acts
  | OpComplete contractId => (contractId, ActComplete) ∈ acts
  | OpDelete contractId => (contractId, ActDelete) ∈ acts
  | OpCreate _ _ | OpWeeklyRollover | OpDailyAutoKeep => True
  end.

(** A violation report or a completion meets an active contract. *)
Definition onActive (s : Step) (σ : Store) : Prop :=
  match s_op s with
  | OpViolation contractId _ | OpComplete contractId =>
      ∀ c, contractsCol σ !! contractId = Some c → status c = "active"
  | _ => True
  end.

(** [steps uid σ l σ']: the operations [l] lead from [σ] to [σ'], and every
    violation report and completion among them meets an active contract. *)
Inductive steps (uid : string) : Store → list Step → Store → Prop :=
  | steps_nil σ : steps uid σ [] σ
  | steps_cons σ s l σ' :
      onActive s σ →
      steps uid (exec uid s σ) l σ' →
      steps uid σ (s :: l) σ'.

(** Any operations on any contracts. *)
Definition run (uid : string) (l : list Step) (σ : Store) : Store :=
  foldl (fun σ s => exec uid s σ) σ l.

(** The two consistency rules of a contract document. *)
Definition contractInv (c : Contract) : Prop :=
  (is_Some (outcome c) ↔ status c = "archived")
  ∧ (outcome c = Some "breached" ↔ is_Some (failureReason c)).

(** Every contract of the user obeys them. *)
Definition storeInv (σ : Store) : Prop :=
  ∀ cid c, contractsCol σ !! cid = Some c → contractInv c.

(** ** What a batch does, collection by collection *)

(** The logs, violation records and journal entries a batch adds. *)
Definition logsOf (batch : list Write) : list DailyLog :=
  flat_map (fun w => match w with SetLog l => [l] | _ => [] end) batch.

Definition violationsOf (batch : list Write) : list ViolationRecord :=
  flat_map (fun w => match w with SetViolation v => [v] | _ => [] end) batch.

Definition journalOf (batch : list Write) : list (string * JournalEntry) :=
  flat_map (fun w => match w with SetJournal i e => [(i, e)] | _ => [] end)
    batch.

(** The updates of the batch that address contract [cid], in order. *)
Definition updatesFor (cid : string) (batch : list Write)
    : list ContractUpdate :=
  flat_map
    (fun w => match w with
              | UpdateContract i u => if decide (i = cid) then [u] else []
              | _ => []
              end) batch.

(** The contracts a batch updates. *)
Definition targetsOf (batch : list Write) : list string :=
  flat_map (fun w => match w with UpdateContract i _ => [i] | _ => [] end)
    batch.

(** Several updates of one document, in order. *)
Definition applyUpdates (us : list ContractUpdate) (c : Contract) : Contract :=
  foldl (fun c u => applyUpdate u c) c us.

(** The document [users/{uid}/contracts/{cid}], when the job's query of the
    [users] collection returns [uid]. *)
Definition contractAt (uid cid : string) (db : gmap string Store)
    : option Contract :=
  db !! uid ≫= λ σ, contractsCol σ !! cid.

(** An update that names neither status, outcome nor failure reason. *)
Definition neutral (u : ContractUpdate) : Prop :=
  u_status u = None ∧ u_outcome u = None ∧ u_failureReason u = None.

(** ** More of the client: the views, the creation form, the journal *)

Definition MAX_ACTIVE_CONTRACTS : nat := 10.
Definition MAX_EXCEPTIONS : nat := 5.

(** [slotsUsed] and [isFull] of [Dashboard]; when the dashboard is full the
    button that opens the creation form is replaced by a lock. *)
Definition slotsUsed (cl : Client) : nat :=
  length (filter (λ d, status d.2 = "active") (contracts cl)).

Definition isFull (cl : Client) : bool :=
  bool_decide (MAX_ACTIVE_CONTRACTS ≤ slotsUsed cl)%nat.

(** [pausedContracts] of [Dashboard], listed without any button. *)
Definition pausedContracts (cl : Client) : list (string * Contract) :=
  filter (λ d, status d.2 = "paused") (contracts cl).

(** [archived] of [HistoryView], the ledger. *)
Definition ledger (cs : list (string * Contract)) : list (string * Contract) :=
  filter (λ d, status d.2 = "archived") cs.

(** The three figures of [ReviewView]. *)
Definition reviewActive (cs : list (string * Contract))
    : list (string * Contract) :=
  filter (λ d, status d.2 = "active") cs.

Definition totalBreached (cs : list (string * Contract)) : nat :=
  length (filter (λ d, outcome d.2 = Some "breached") cs).

(** [Math.max(...contracts.map(c => c.streak || 0), 0)] *)
Definition bestStreak (cs : list (string * Contract)) : Z :=
  foldr Z.max 0 ((λ d, orNum (streak d.2) 0) <$> cs).

(** The part of the state of [CreateContract] that the exception list
    uses. *)
Record FormState := {
  formData : ContractData;
  exceptionInput : string
}.

(** [update('exceptions', val)] *)
Definition updateExceptions (val : list string) (p : ContractData)
    : ContractData :=
  {| title := title p; pillar := pillar p; type := type p;
     behavior := behavior p; startDate := startDate p; endDate := endDate p;
     importance := importance p; exceptions := val; penalty := penalty p;
     witnessLinked := witnessLinked p; frequency := frequency p;
     autoKeep := autoKeep p |}.

Section trimmed_input.
(** [String.prototype.trim] *)
Variable trim : string → string.

(** [addException] of [CreateContract]. *)
Definition addException (f : FormState) : FormState :=
  if decide (trim (exceptionInput f) = "") then f
  else if decide (MAX_EXCEPTIONS ≤ length (exceptions (formData f)))%nat
  then f
  else {| formData :=
            updateExceptions
              (exceptions (formData f) ++ [trim (exceptionInput f)])
              (formData f);
          exceptionInput := "" |}.

(** [removeException]: [splice(index, 1)] on a copy of the list. *)
Definition removeException (index : nat) (f : FormState) : FormState :=
  {| formData :=
       updateExceptions (delete index (exceptions (formData f))) (formData f);
     exceptionInput := exceptionInput f |}.

(** [handleAddLog] of [JournalModal], for the signed-in [user] and the
    contract the modal was opened on; it returns the store and the text left
    in the input.  A refused write (or a missing user) is caught and
    logged. *)
Definition handleAddLog (user : option string) (contract : string * Contract)
    (newLog : string) (ts : Z) (σ : Store) : Store * string :=
  if decide (trim newLog = "") then (σ, newLog)
  else
    match user with
    | None => (σ, newLog)
    | Some uid =>
        match commit
                [SetJournal contract.1
                   {| j_text := trim newLog; j_createdAt := ts;
                      j_type := "manual" |}] σ with
        | Some σ' => (σ', "")
        | None => (σ, newLog)
        end
    end.
End trimmed_input.

(** ** More of the cloud functions *)

(** *** Replies to journal entries *)

(** [aiReply] of a journal document. *)
Record AiReply := {
  ar_text : string;
  ar_createdAt : Z
}.

(** [snapshot.data()] of the trigger: the journal document as it was
    created. *)
Record EntryData := {
  e_entry : JournalEntry;
  e_aiReply : option AiReply
}.

(** [contextEntries]: from the documents the query of the six most recent
    entries returns, the texts of the manual ones other than the new entry,
    at most five, oldest first. *)
Definition contextEntries (entryId : string)
    (recentEntriesSnap : list (string * JournalEntry)) : list string :=
  let recentEntries :=
    (λ d, j_text d.2)
    <$> filter (λ d, d.1 ≠ entryId ∧ j_type d.2 = "manual") recentEntriesSnap in
  reverse (take 5 recentEntries).

(** What the prompt of a reply is built from. *)
Record ReplyPrompt := {
  p_title : string;
  p_behavior : string;
  p_streak : Z;
  p_recent : list string;
  p_entry : string
}.

(** [onJournalEntryCreated]: [snapshot] is [event.data], [ai] the model
    (the trimmed text it generates for a prompt, [None] when it throws),
    [recentEntriesSnap] what the query of the recent entries returns.  The
    result is the [aiReply] written back to the new document, if any; every
    error is caught and logged. *)
Definition onJournalEntryCreated (snapshot : option EntryData)
    (contractId entryId : string)
    (recentEntriesSnap : list (string * JournalEntry))
    (ai : ReplyPrompt → option string) (ts : Z) (σ : Store)
    : option AiReply :=
  match snapshot with
  | None => None
  | Some entryData =>
      if decide (j_type (e_entry entryData) ≠ "manual") then None
      else if decide (is_Some (e_aiReply entryData)) then None
      else
        match contractsCol σ !! contractId with
        | None => None
        | Some contract =>
            let prompt :=
              {| p_title := title (cdata contract);
                 p_behavior := behavior (cdata contract);
                 p_streak := orNum (streak contract) 0;
                 p_recent := contextEntries entryId recentEntriesSnap;
                 p_entry := j_text (e_entry entryData) |} in
            match ai prompt with
            | None => None
            | Some replyText =>
                Some {| ar_text := replyText; ar_createdAt := ts |}
            end
        end
  end.

(** *** Briefings *)

(** One slot of [dailyBriefing]. *)
Record Briefing := {
  b_text : string;
  b_notificationText : string;
  b_timestamp : option Z;
  b_archived : bool
}.

(** The document [users/{uid}]; [dailyBriefing] maps a time of day to its
    slot. *)
Record UserDoc := {
  fcmToken : option string;
  dailyBriefing : option (gmap string Briefing)
}.

(** The message handed to [admin.messaging().send]. *)
Record Notification := {
  n_token : string;
  n_title : string;
  n_body : string
}.

(** The idempotency check of [processUserBriefing]: the slot has a
    timestamp whose [toDateString()] is the one of [now] (the functions run
    in UTC). *)
Definition alreadySent (userData : UserDoc) (timeOfDay : string) (now : Z)
    : bool :=
  match dailyBriefing userData ≫= (λ m, m !! timeOfDay) with
  | Some existingBriefing =>
      match b_timestamp existingBriefing with
      | Some t => bool_decide (isoDate t = isoDate now)
      | None => false
      end
  | None => false
  end.

(** [set({dailyBriefing: {[timeOfDay]: briefing}}, {merge: true})] *)
Definition saveBriefing (timeOfDay : string) (briefing : Briefing)
    (userData : UserDoc) : UserDoc :=
  {| fcmToken := fcmToken userData;
     dailyBriefing :=
       Some (<[timeOfDay := briefing]> (default ∅ (dailyBriefing userData))) |}.

(** [processUserBriefing] on the document and the subtree of one user.
    [notificationText] and [inAppText] are the trimmed texts the model
    generates for the two prompts ([None] when the call throws), [sendOk]
    tells whether the messaging service accepts the message; a message
    without token is refused.  The result is the user document and the
    notification sent, if any; every error after the idempotency check is
    caught and logged. *)
Definition processUserBriefing (userData : UserDoc) (timeOfDay : string)
    (now ts : Z) (notificationText inAppText : option string)
    (sendOk : bool) (σ : Store) : UserDoc * option Notification :=
  if alreadySent userData timeOfDay now then (userData, None)
  else
    match filter (λ d, status d.2 = "active") (map_to_list (contractsCol σ)) with
    | [] => (userData, None)
    | _ =>
        match notificationText, inAppText with
        | Some notificationText, Some inAppText =>
            let userData' :=
              saveBriefing timeOfDay
                {| b_text := inAppText;
                   b_notificationText := notificationText;
                   b_timestamp := Some ts; b_archived := false |}
                userData in
            match fcmToken userData with
            | Some token =>
                if sendOk
                then (userData',
                      Some {| n_token := token;
                              n_title :=
                                if decide (timeOfDay = "morning")
                                then "Morning Protocol"
                                else "Evening Reflection";
                              n_body := notificationText |})
                else (userData', None)
            | None => (userData', None)
            end
        | _, _ => (userData, None)
        end
    end.

(** [triggerBriefing]: the status of the response, the document the call
    leaves and the notification it sends.  [uid] and [time] are the two
    query parameters; [readOk] tells whether [db.collection('users')
    .doc(uid).get()] returns: it throws for a [uid] that is not the path of
    a document, and when the read fails; [userDoc] is the document at that
    path if there is one, and [σ] what the contracts query of
    [processUserBriefing] reads below it.  Whatever is thrown in the [try]
    block is answered with 500; [processUserBriefing] itself catches what
    it throws after its idempotency check. *)
Definition triggerBriefing (uid time : option string) (readOk : bool)
    (userDoc : option UserDoc) (now ts : Z)
    (notificationText inAppText : option string) (sendOk : bool) (σ : Store)
    : Z * option UserDoc * option Notification :=
  if falsyStr uid then (400, userDoc, None)
  else
    let timeOfDay :=
      match time with
      | Some t => orStr t "morning"
      | None => "morning"
      end in
    if negb readOk then (500, userDoc, None)
    else
      match userDoc with
      | None => (404, None, None)
      | Some userData =>
          let r :=
            processUserBriefing userData timeOfDay now ts notificationText
              inAppText sendOk σ in
          (200, Some r.1, r.2)
      end.

(** ** What sessions keep *)

(** The number of active contracts of a user. *)
Definition activeCount (σ : Store) : nat :=
  length (filter (λ d, status d.2 = "active") (map_to_list (contractsCol σ))).

(** No streak of the user is negative. *)
Definition streaksNonneg (σ : Store) : Prop :=
  ∀ cid c n, contractsCol σ !! cid = Some c → streak c = Some n → (0 ≤ n)%Z.

(** The update an operation issues for the contract [i] with the stored
    data [c], when it issues one. *)
Inductive stepUpdate (s : Step) (i : string) (c : Contract)
    : ContractUpdate → Prop :=
  | su_checkIn st notes :
      s_op s = OpCheckIn i st notes →
      stepUpdate s i c
        {| u_status := None;
           u_streak :=
             Some (default 0 (streak c)
                   + (if decide (st = "kept") then 1 else 0));
           u_lastCheckIn := Some (s_ts s); u_weeklyProgress := None;
           u_outcome := None; u_failureReason := None; u_archivedAt := None;
           u_resistedCountInc := None; u_lastTemptation := None |}
  | su_violation violationData :
      s_op s = OpViolation i violationData →
      stepUpdate s i c (violationUpdates violationData (s_ts s))
  | su_complete :
      s_op s = OpComplete i →
      stepUpdate s i c (archiveCompleted (s_ts s))
  | su_weekly :
      s_op s = OpWeeklyRollover → isActiveWeekly c = true →
      stepUpdate s i c (rolloverUpdate (isoDate (s_clock s)) c)
  | su_daily :
      s_op s = OpDailyAutoKeep → isAutoKeep c = true →
      stepUpdate s i c (autoKeepUpdate (s_ts s) c).

(** The key of a daily log: the contract and the day it is for. *)
Definition logKey (l : DailyLog) : string * Z := (l_contractId l, l_date l).


(** ** The events of the exception list of the creation form *)

(** Typing in the input, the [Add] button (or the Enter key), and the
    removal button of the entry at [index]. *)
Inductive FormEvent :=
  | EvType (text : string)
  | EvAdd
  | EvRemove (index : nat).

Definition formStep (trim : string → string) (f : FormState) (e : FormEvent)
    : FormState :=
  match e with
  | EvType text => {| formData := formData f; exceptionInput := text |}
  | EvAdd => addException trim f
  | EvRemove index => removeException index f
  end.

Definition formRun (trim : string → string) (es : list FormEvent)
    (f : FormState) : FormState :=
  foldl (formStep trim) f es.

(** The broken days of the logs and the violation records, each with its
    contract and the time of the write. *)
Definition brokenLogs (σ : Store) : list (string * Z) :=
  (λ l, (l_contractId l, l_timestamp l))
  <$> filter (λ l, l_status l = "broken") (logsCol σ).

Definition violationKeys (σ : Store) : list (string * Z) :=
  (λ v, (v_contractId v, v_timestamp v)) <$> violationsCol σ.

(** ** Sessions *)

(** A move: the instant at which the session that makes it was opened, and
    the operation.  For the scheduled jobs the first component means
    nothing. *)
Definition Move : Type := Z * Step.

(** The move is offered: its button is on the dashboard of its session
    (which may have been opened on an earlier day and left open), and the
    creation form was opened from the [NEW] button, which the dashboard
    shows only while it is not full; [addDoc] generates an id that no
    contract has, and the form is submitted with the dashboard still in
    sync with the store. *)
Definition offeredMove (uid : string) (m : Move) (σ : Store) : Prop :=
  offeredIn uid m.1 m.2 σ
  ∧ match s_op m.2 with
    | OpCreate _ newId =>
        isFull (syncedClient uid m.1 σ) = false
        ∧ contractsCol σ !! newId = None
    | _ => True
    end.

(** [sessionSteps uid σ l σ']: the moves [l], each one offered when it is
    made, lead from [σ] to [σ']. *)
Inductive sessionSteps (uid : string) : Store → list Move → Store → Prop :=
  | sessionSteps_nil σ : sessionSteps uid σ [] σ
  | sessionSteps_cons σ m l σ' :
      offeredMove uid m σ →
      sessionSteps uid (exec uid m.2 σ) l σ' →
      sessionSteps uid σ (m :: l) σ'.

(** A check-in or a violation report is made in a session that was opened
    the same day: the session was not left open over midnight. *)
Definition reportedSameDay (m : Move) : Prop :=
  match s_op m.2 with
  | OpCheckIn _ _ _ | OpViolation _ _ => isoDate m.1 = isoDate (s_clock m.2)
  | _ => True
  end.

(** ** Sample documents and states *)

(** 2024-01-01 as a day number, and an instant of that day. *)
Definition day0 : Z := 19723.
Definition noon (d : Z) : Z := dateOf d + 12 * 60 * 60 * 1000.

Definition sampleData (endD : option Z) : ContractData :=
  {| title := "No sugar"; pillar := "health"; type := "AVOID";
     behavior := "No added sugar"; startDate := Some (day0 - 30);
     endDate := endD; importance := 3; exceptions := []; penalty := "";
     witnessLinked := true; frequency := None; autoKeep := None |}.

(** An active contract with the given end date and streak. *)
Definition sampleContract (endD : option Z) (n : Z) : Contract :=
  {| cdata := sampleData endD; userId := "u1"; status := "active";
     streak := Some n; createdAt := Some (noon (day0 - 30));
     lastCheckIn := None; weeklyProgress := None; outcome := None;
     failureReason := None; archivedAt := None; resistedCount := None;
     lastTemptation := None |}.

(** The subtree of user [u1]: one contract [c1] and the given logs. *)
Definition sampleStore (c : Contract) (logs : list DailyLog) : Store :=
  {| contractsCol := {[ "c1" := c ]}; logsCol := logs; violationsCol := [];
     journalCol := []; temptationsCol := ∅ |}.

Definition keptLog (d : Z) : DailyLog :=
  {| l_contractId := "c1"; l_date := d; l_status := "kept";
     l_notes := Some ""; l_source := None; l_timestamp := noon d |}.

Definition ateCake (d : string) : ViolationData :=
  {| reason := "Weak Will"; story := "ate cake"; decision := d |}.

(** A weekly contract: goal [goal] times per week, [done] check-ins so far. *)
Definition weeklyContract (goal : option Z) (done : option Z) (n : Z)
    : Contract :=
  {| cdata :=
       {| title := "Gym"; pillar := "health"; type := "DO";
          behavior := "Go to the gym"; startDate := Some (day0 - 30);
          endDate := None; importance := 3; exceptions := []; penalty := "";
          witnessLinked := false;
          frequency := Some {| f_type := "weekly"; timesPerWeek := goal |};
          autoKeep := None |};
     userId := "u1"; status := "active"; streak := Some n;
     createdAt := Some (noon (day0 - 30)); lastCheckIn := None;
     weeklyProgress :=
       Some {| weekStart := Some (day0 - 7); completedCount := done;
               lastCheckInDate := Some (day0 - 1) |};
     outcome := None; failureReason := None; archivedAt := None;
     resistedCount := None; lastTemptation := None |}.

(** An AVOID contract flagged [autoKeep]. *)
Definition autoKeepContract (n : Z) : Contract :=
  {| cdata :=
       {| title := "No sugar"; pillar := "health"; type := "AVOID";
          behavior := "No added sugar"; startDate := Some (day0 - 30);
          endDate := None; importance := 3; exceptions := []; penalty := "";
          witnessLinked := false; frequency := None;
          autoKeep := Some true |};
     userId := "u1"; status := "active"; streak := Some n;
     createdAt := Some (noon (day0 - 30)); lastCheckIn := None;
     weeklyProgress := None; outcome := None; failureReason := None;
     archivedAt := None; resistedCount := None; lastTemptation := None |}.

(** The [users] collection with the one user [u1]. *)
Definition sampleDb (σ : Store) : gmap string Store := {[ "u1" := σ ]}.


(** A temptation of contract [c1] with the given outcome. *)
Definition sampleTemptation (out : string) : Temptation :=
  {| t_createdAt := noon day0; t_context := Some "cake at the office";
     t_aiResponse := "Drink water."; t_outcome := out;
     t_resolvedAt := None |}.

Definition temptationStore (out : string) : Store :=
  {| contractsCol := {[ "c1" := sampleContract None 5 ]}; logsCol := [];
     violationsCol := []; journalCol := [];
     temptationsCol := {[ ("c1", "t1") := sampleTemptation out ]} |}.

Definition outcomeData (out : string) : OutcomeData :=
  {| od_contractId := Some "c1"; od_temptationId := Some "t1";
     od_outcome := Some out |}.

(** A day in the life of user [u1]: a contract is created and kept, the two
    jobs run, the next day a violation is reported and the contract
    retired. *)
Definition sampleSteps : list Step :=
  [ {| s_op := OpCreate (sampleData (Some (day0 + 10))) "c1";
       s_clock := noon day0; s_ts := noon day0 |};
    {| s_op := OpCheckIn "c1" "kept" "";
       s_clock := noon day0 + 1; s_ts := noon day0 + 1 |};
    {| s_op := OpWeeklyRollover;
       s_clock := dateOf (day0 + 1) + 60000; s_ts := dateOf (day0 + 1) + 60000 |};
    {| s_op := OpDailyAutoKeep;
       s_clock := dateOf (day0 + 1) + 60000; s_ts := dateOf (day0 + 1) + 60000 |};
    {| s_op := OpViolation "c1" (ateCake "retire");
       s_clock := noon (day0 + 1); s_ts := noon (day0 + 1) |} ].

(** Two sessions of user [u1] on a contract that ends on [day0].  Session A
    opens the violation form on [day0]; the next day session B claims the
    victory; then session A submits its form with the decision [pause]. *)
Definition endingStore : Store := sampleStore (sampleContract (Some day0) 5) [].

Definition sessionA : Client :=
  onReportViolation ("c1", sampleContract (Some day0) 5)
    (syncedClient "u1" (noon day0) endingStore).

Definition sessionB : Client := syncedClient "u1" (noon (day0 + 1)) endingStore.

Definition afterVictory : Store :=
  handleCompleteContract sessionB ("c1", sampleContract (Some day0) 5)
    (noon (day0 + 1)) endingStore.

Definition afterLateReport : Store :=
  (handleViolation sessionA (ateCake "pause") (noon (day0 + 1))
     (noon (day0 + 1) + 1) afterVictory).2.



(** The store after the one contract of user [u1] was voided from another
    session. *)
Definition voidedStore : Store :=
  handleDeleteContract (syncedClient "u1" (noon day0)
                          (sampleStore (sampleContract None 5) []))
    "c1" true (sampleStore (sampleContract None 5) []).

(** A call that returned the store it was given satisfies a frame
    statement. *)
Ltac frame_unchanged :=
  intros; simplify_eq; simpl; repeat split; try done; intros; by left.


(** Moves through the dashboard: a second contract is created and kept,
    an exception is logged for it the next day from a session left open
    since the day before the first, then the two jobs run. *)
Definition someMoves : list Move :=
  [ (noon day0,
     {| s_op := OpCreate (sampleData None) "c2";
        s_clock := noon day0; s_ts := noon day0 |});
    (noon day0,
     {| s_op := OpCheckIn "c2" "kept" "";
        s_clock := noon day0 + 1; s_ts := noon day0 + 1 |});
    (noon (day0 - 1),
     {| s_op := OpCheckIn "c2" "exception" "";
        s_clock := noon (day0 + 1); s_ts := noon (day0 + 1) |});
    (0,
     {| s_op := OpWeeklyRollover; s_clock := noon (day0 + 1) + 2;
        s_ts := noon (day0 + 1) + 2 |});
    (0,
     {| s_op := OpDailyAutoKeep; s_clock := noon (day0 + 2);
        s_ts := noon (day0 + 2) |}) ].

(** A trimming function for the examples: the blank inputs are the empty
    string and a single space. *)
Definition trimSample (s : string) : string :=
  if decide (s = " ") then "" else s.

(** The form with one exception typed in. *)
Definition sampleForm : FormState :=
  {| formData := sampleData None; exceptionInput := "birthdays" |}.

(** The store after the user retired the contract on a violation. *)
Definition retiredStore : Store :=
  (handleViolation
     (onReportViolation ("c1", sampleContract None 5)
        (syncedClient "u1" (noon day0) (sampleStore (sampleContract None 5) [])))
     (ateCake "retire") (noon day0) (noon day0)
     (sampleStore (sampleContract None 5) [])).2.

(** A user with a token and no briefing yet. *)
Definition sampleUser : UserDoc :=
  {| fcmToken := Some "token-1"; dailyBriefing := None |}.

(** What the query of the recent entries returns after a third entry was
    typed: the new entry, an automatic one and two older manual ones. *)
Definition sampleEntries : list (string * JournalEntry) :=
  [ ("e4", {| j_text := "Said no to dessert"; j_createdAt := noon day0 + 3;
              j_type := "manual" |});
    ("e3", {| j_text := "Auto-completed (No violation reported)";
              j_createdAt := noon day0 + 2; j_type := "auto" |});
    ("e2", {| j_text := "Hard evening"; j_createdAt := noon day0 + 1;
              j_type := "manual" |});
    ("e1", {| j_text := "Day one"; j_createdAt := noon day0;
              j_type := "manual" |}) ].

(** A model that answers every prompt. *)
Definition sampleModel (p : ReplyPrompt) : option string := Some "Well done.".

(** Two days of user [u1]: the contract is kept on the first day, the
    auto-keep job runs in the night, and on the second day, in a session
    opened that day, a violation is reported and recommitted from, a second
    contract is created and kept; then the weekly job runs. *)
Definition twoDays : list Move :=
  [ (noon day0,
     {| s_op := OpCheckIn "c1" "kept" "";
        s_clock := noon day0 + 1; s_ts := noon day0 + 1 |});
    (0,
     {| s_op := OpDailyAutoKeep;
        s_clock := dateOf (day0 + 1) + 60000;
        s_ts := dateOf (day0 + 1) + 60000 |});
    (noon (day0 + 1),
     {| s_op := OpViolation "c1" (ateCake "recommit");
        s_clock := noon (day0 + 1) + 1; s_ts := noon (day0 + 1) + 1 |});
    (noon (day0 + 1),
     {| s_op := OpCreate (sampleData None) "c2";
        s_clock := noon (day0 + 1) + 2; s_ts := noon (day0 + 1) + 2 |});
    (noon (day0 + 1),
     {| s_op := OpCheckIn "c2" "kept" "";
        s_clock := noon (day0 + 1) + 3; s_ts := noon (day0 + 1) + 3 |});
    (0,
     {| s_op := OpWeeklyRollover;
        s_clock := noon (day0 + 1) + 4; s_ts := noon (day0 + 1) + 4 |}) ].

(** A session opened the day before and left open: the same button is
    clicked twice the next day. *)
Definition leftOpen : list Move :=
  [ (noon (day0 - 1),
     {| s_op := OpCheckIn "c1" "kept" "";
        s_clock := noon day0; s_ts := noon day0 |});
    (noon (day0 - 1),
     {| s_op := OpCheckIn "c1" "kept" "";
        s_clock := noon day0 + 1; s_ts := noon day0 + 1 |}) ].

(** Membership in a list that is computed from concrete data. *)
Ltac elem_compute :=
  apply list_elem_of_In; vm_compute;
  repeat (try (left; reflexivity); right).

(** ** Arithmetic of days *)

Lemma MS_PER_DAY_pos : 0 < MS_PER_DAY.
Proof. unfold MS_PER_DAY. lia. Qed.

Lemma orNum_0 (x : option Z) : orNum x 0 = default 0 x.
Proof. destruct x as [n|]; simpl; [case_decide; lia | done]. Qed.

(** The day count of the card is negative exactly from the day after the
    end date on. *)
Lemma daysRemaining_neg (e clock : Z) :
  ceilDiv (dateOf e - clock) MS_PER_DAY < 0 ↔ e < isoDate clock.
Proof.
  unfold ceilDiv, dateOf, isoDate. pose proof MS_PER_DAY_pos as HD.
  replace (- (e * MS_PER_DAY - clock)) with (clock + - e * MS_PER_DAY) by lia.
  rewrite Z.div_add by lia. lia.
Qed.

Lemma isExpired_spec (contract : Contract) (clock : Z) :
  isExpired contract clock = true
  ↔ ∃ e, endDate (cdata contract) = Some e ∧ e < isoDate clock.
Proof.
  unfold isExpired, getDaysRemaining.
  destruct (endDate (cdata contract)) as [e|].
  - rewrite bool_decide_eq_true, daysRemaining_neg. split.
    + intros H. by exists e.
    + by intros (e' & [= <-] & H).
  - split; [done|]. by intros (e & ? & _).
Qed.

Lemma yesterdayOf_spec (now : Z) : yesterdayOf now = isoDate now - 1.
Proof.
  unfold yesterdayOf, isoDate. pose proof MS_PER_DAY_pos.
  replace (now - MS_PER_DAY) with (now + (-1) * MS_PER_DAY) by lia.
  rewrite Z.div_add by lia. lia.
Qed.

(** ** Batches *)

(** A committed batch leaves on every contract the updates addressed to it,
    and touches no other field of the contracts collection. *)
Lemma commit_contracts batch : ∀ σ σ' cid,
  commit batch σ = Some σ' →
  contractsCol σ' !! cid
  = applyUpdates (updatesFor cid batch) <$> contractsCol σ !! cid.
Proof.
  induction batch as [|w batch IH]; intros σ σ' cid Hc; simpl in Hc.
  - simplify_eq. by destruct (contractsCol σ' !! cid).
  - destruct (applyWrite w σ) as [σ1|] eqn:Hw; [|done].
    rewrite (IH _ _ cid Hc). clear IH Hc.
    destruct w as [l|v|i e|i u]; simpl in Hw; simplify_eq; simpl; try done.
    destruct (contractsCol σ !! i) as [c|] eqn:Hi; simplify_eq. simpl.
    case_decide as Heq; simpl.
    + subst i. by rewrite lookup_insert_eq, Hi.
    + by rewrite lookup_insert_ne.
Qed.

Lemma commit_lists batch : ∀ σ σ',
  commit batch σ = Some σ' →
  logsCol σ' = logsCol σ ++ logsOf batch
  ∧ violationsCol σ' = violationsCol σ ++ violationsOf batch
  ∧ journalCol σ' = journalCol σ ++ journalOf batch
  ∧ temptationsCol σ' = temptationsCol σ.
Proof.
  induction batch as [|w batch IH]; intros σ σ' Hc; simpl in Hc.
  - simplify_eq. by rewrite !app_nil_r.
  - destruct (applyWrite w σ) as [σ1|] eqn:Hw; [|done].
    destruct (IH _ _ Hc) as (Hl & Hv & Hj & Ht).
    rewrite Hl, Hv, Hj, Ht. clear IH Hc Hl Hv Hj Ht.
    destruct w as [l|v|i e|i u]; simpl in Hw.
    + simplify_eq. simpl. by rewrite <- app_assoc.
    + simplify_eq. simpl. by rewrite <- app_assoc.
    + simplify_eq. simpl. by rewrite <- app_assoc.
    + destruct (contractsCol σ !! i); by simplify_eq.
Qed.

(** A batch commits as soon as every contract it updates exists. *)
Lemma commit_is_Some batch : ∀ σ,
  (∀ i, i ∈ targetsOf batch → is_Some (contractsCol σ !! i)) →
  is_Some (commit batch σ).
Proof.
  induction batch as [|w batch IH]; intros σ Hall; simpl; [by eexists|].
  destruct w as [l|v|i e|i u]; simpl in *; try (apply IH; simpl; done).
  destruct (Hall i) as [c Hi]; [by left|]. rewrite Hi.
  apply IH. simpl. intros j Hj.
  destruct (decide (i = j)) as [->|Hne].
  - rewrite lookup_insert_eq. by eexists.
  - rewrite lookup_insert_ne by done. apply Hall. by right.
Qed.

(** And fails, as a whole, when one of them is missing. *)
Lemma commit_None batch : ∀ σ i,
  i ∈ targetsOf batch → contractsCol σ !! i = None → commit batch σ = None.
Proof.
  induction batch as [|w batch IH]; intros σ i Hin Hnone; simpl in *.
  - by apply elem_of_nil in Hin.
  - destruct w as [l|v|j e|j u]; simpl in *;
      try (by eapply IH; [exact Hin|done]).
    destruct (contractsCol σ !! j) as [c|] eqn:Hj; [|done].
    apply elem_of_cons in Hin as [->|Hin]; [congruence|].
    eapply IH; [exact Hin|]. simpl.
    rewrite lookup_insert_ne; [done|]. congruence.
Qed.

(** ** Check-in *)

(** The log a check-in writes. *)
Lemma handleCheckIn_commit cl uid contractId c st notes clock ts σ :
  user cl = Some uid →
  findContract contractId (contracts cl) = Some (contractId, c) →
  handleCheckIn cl contractId st notes clock ts σ
  = default σ
      (commit
         [ SetLog {| l_contractId := contractId; l_date := isoDate clock;
                     l_status := st; l_notes := Some notes;
                     l_source := None; l_timestamp := ts |};
           UpdateContract contractId
             {| u_status := None;
                u_streak :=
                  Some (default 0 (streak c)
                        + (if decide (st = "kept") then 1 else 0));
                u_lastCheckIn := Some ts; u_weeklyProgress := None;
                u_outcome := None; u_failureReason := None;
                u_archivedAt := None; u_resistedCountInc := None;
                u_lastTemptation := None |} ] σ).
Proof.
  intros Hu Hf. unfold handleCheckIn. rewrite Hu, Hf. cbv zeta.
  rewrite orNum_0.
  replace (if decide (st = "kept") then default 0 (streak c) + 1
           else default 0 (streak c))
    with (default 0 (streak c) + (if decide (st = "kept") then 1 else 0))
    by (case_decide; lia).
  by destruct (commit _ σ).
Qed.

(** C3, as the code has it.  A check-in on a contract of the caller that
    exists in the store commits one batch: one new Daily Log for today with
    the given status, the last-check-in timestamp refreshed, and the streak
    set to the streak of the caller's snapshot of the contract (a missing
    streak counts as 0), plus one exactly when the status is [kept]; nothing
    else changes.  The stored streak is not read: it goes up by one exactly
    for [kept], and stays otherwise, when the snapshot shows the stored
    streak. *)
Theorem checkIn_effect cl uid contractId snap c st notes clock ts σ :
  user cl = Some uid →
  findContract contractId (contracts cl) = Some (contractId, snap) →
  contractsCol σ !! contractId = Some c →
  st ∈ ["kept"; "broken"; "exception"] →
  ∃ c',
    handleCheckIn cl contractId st notes clock ts σ
    = {| contractsCol := <[contractId := c']> (contractsCol σ);
         logsCol :=
           logsCol σ
           ++ [ {| l_contractId := contractId; l_date := isoDate clock;
                   l_status := st; l_notes := Some notes;
                   l_source := None; l_timestamp := ts |} ];
         violationsCol := violationsCol σ;
         journalCol := journalCol σ;
         temptationsCol := temptationsCol σ |}
    ∧ streak c'
      = Some (default 0 (streak snap)
              + (if decide (st = "kept") then 1 else 0))
    ∧ (streak snap = streak c →
       streak c'
       = Some (default 0 (streak c) + (if decide (st = "kept") then 1 else 0))
       ∧ ∀ n, streak c = Some n →
              streak c' = Some (if decide (st = "kept") then n + 1 else n))
    ∧ lastCheckIn c' = Some ts
    ∧ cdata c' = cdata c ∧ userId c' = userId c ∧ status c' = status c
    ∧ createdAt c' = createdAt c ∧ weeklyProgress c' = weeklyProgress c
    ∧ outcome c' = outcome c ∧ failureReason c' = failureReason c
    ∧ archivedAt c' = archivedAt c ∧ resistedCount c' = resistedCount c
    ∧ lastTemptation c' = lastTemptation c.
Proof.
  intros Hu Hf Hc _.
  rewrite (handleCheckIn_commit _ _ _ _ _ _ _ _ _ Hu Hf).
  simpl. rewrite Hc. simpl. eexists. split; [reflexivity|].
  simpl. split; [done|]. split; [|done]. intros Hsnap. rewrite Hsnap.
  split; [done|]. intros n ->. simpl. case_decide; f_equal; lia.
Qed.

(** The scenario of the specification: streak 5, checked in as kept. *)
Lemma checkIn_effect_witness :
  ∃ c',
    contractsCol
      (handleCheckIn (syncedClient "u1" (noon day0)
                        (sampleStore (sampleContract None 5) []))
         "c1" "kept" "" (noon day0) (noon day0)
         (sampleStore (sampleContract None 5) []))
    !! "c1" = Some c'
    ∧ streak c' = Some 6.
Proof.
  destruct (checkIn_effect
              (syncedClient "u1" (noon day0)
                 (sampleStore (sampleContract None 5) []))
              "u1" "c1" (sampleContract None 5) (sampleContract None 5)
              "kept" "" (noon day0) (noon day0)
              (sampleStore (sampleContract None 5) []))
    as (c' & -> & Hs & _);
    [reflexivity | reflexivity | reflexivity | | ].
  - constructor.
  - exists c'. split; [apply lookup_insert_eq | exact Hs].
Defined.

(** C3 fails as stated: from a client whose snapshot still shows streak 5
    while the stored streak is 7, a check-in as [exception] does not leave
    the streak unchanged, it sets it to 5; and a check-in as [kept] sets it
    to 6, not to 8. *)
Lemma checkIn_from_stale_snapshot :
  let cl := syncedClient "u1" (noon day0)
              (sampleStore (sampleContract None 5) []) in
  let σ := sampleStore (sampleContract None 7) [] in
  (streak <$> contractsCol σ !! "c1") = Some (Some 7)
  ∧ (streak <$>
       contractsCol
         (handleCheckIn cl "c1" "exception" "" (noon day0) (noon day0) σ)
       !! "c1")
    = Some (Some 5)
  ∧ (streak <$>
       contractsCol
         (handleCheckIn cl "c1" "kept" "" (noon day0) (noon day0) σ)
       !! "c1")
    = Some (Some 6)
  ∧ length (logsCol
              (handleCheckIn cl "c1" "exception" "" (noon day0) (noon day0) σ))
    = 1%nat.
Proof. cbv zeta. repeat split; vm_compute; reflexivity. Qed.





(** ** Reporting a violation *)

Lemma violationUpdates_streak violationData ts :
  u_streak (violationUpdates violationData ts) = Some 0
  ∧ u_lastCheckIn (violationUpdates violationData ts) = Some ts
  ∧ u_weeklyProgress (violationUpdates violationData ts) = None
  ∧ u_resistedCountInc (violationUpdates violationData ts) = None
  ∧ u_lastTemptation (violationUpdates violationData ts) = None.
Proof. unfold violationUpdates. by repeat case_decide. Qed.

Lemma violationUpdates_retire violationData ts :
  decision violationData = "retire" →
  violationUpdates violationData ts
  = {| u_status := Some "archived"; u_streak := Some 0;
       u_lastCheckIn := Some ts; u_weeklyProgress := None;
       u_outcome := Some "breached";
       u_failureReason :=
         Some (orStr (story violationData) (reason violationData));
       u_archivedAt := Some ts; u_resistedCountInc := None;
       u_lastTemptation := None |}.
Proof. intros H. unfold violationUpdates. rewrite H. by repeat case_decide. Qed.

Lemma violationUpdates_pause violationData ts :
  decision violationData = "pause" →
  violationUpdates violationData ts
  = {| u_status := Some "paused"; u_streak := Some 0;
       u_lastCheckIn := Some ts; u_weeklyProgress := None;
       u_outcome := None; u_failureReason := None; u_archivedAt := None;
       u_resistedCountInc := None; u_lastTemptation := None |}.
Proof. intros H. unfold violationUpdates. rewrite H. by repeat case_decide. Qed.

Lemma violationUpdates_other violationData ts :
  decision violationData ≠ "pause" → decision violationData ≠ "retire" →
  violationUpdates violationData ts
  = {| u_status := None; u_streak := Some 0;
       u_lastCheckIn := Some ts; u_weeklyProgress := None;
       u_outcome := None; u_failureReason := None; u_archivedAt := None;
       u_resistedCountInc := None; u_lastTemptation := None |}.
Proof. intros H1 H2. unfold violationUpdates. by repeat case_decide. Qed.

(** The three writes of a violation report go through together or not at
    all: the store is either untouched or holds all of them. *)
Lemma handleViolation_all_or_nothing cl violationData clock ts σ :
  (handleViolation cl violationData clock ts σ).2 = σ
  ∨ ∃ avc c,
      activeViolationContract cl = Some avc
      ∧ contractsCol σ !! avc.1 = Some c
      ∧ (handleViolation cl violationData clock ts σ).2
        = {| contractsCol :=
               <[avc.1 := applyUpdate (violationUpdates violationData ts) c]>
                 (contractsCol σ);
             logsCol :=
               logsCol σ
               ++ [ {| l_contractId := avc.1; l_date := isoDate clock;
                       l_status := "broken";
                       l_notes := Some (story violationData);
                       l_source := None; l_timestamp := ts |} ];
             violationsCol :=
               violationsCol σ
               ++ [ {| v_reason := reason violationData;
                       v_story := story violationData;
                       v_decision := decision violationData;
                       v_contractId := avc.1;
                       v_contractTitle := title (cdata avc.2);
                       v_timestamp := ts |} ];
             journalCol := journalCol σ;
             temptationsCol := temptationsCol σ |}.
Proof.
  unfold handleViolation.
  destruct (user cl) as [uid|]; [|by left].
  destruct (activeViolationContract cl) as [avc|]; [|by left].
  simpl. destruct (contractsCol σ !! avc.1) as [c|] eqn:Hc; [|by left].
  right. exists avc, c. by rewrite Hc.
Qed.

(** C2. A violation report on an existing contract commits one batch: one
    Violation Record, one Daily Log for today with status [broken] and the
    story as notes, the streak reset to 0 whatever the decision, the
    last-check-in timestamp refreshed; with the decision [retire] the
    contract becomes archived and breached, its failure reason is the story,
    or the reason code when the story is empty, and it gets an archival
    timestamp.  The batch is all or nothing: on any store the handler leaves
    either no write or all three. *)
Theorem violation_effect cl uid avc c violationData clock ts σ :
  user cl = Some uid →
  activeViolationContract cl = Some avc →
  contractsCol σ !! avc.1 = Some c →
  decision violationData ∈ ["recommit"; "pause"; "retire"] →
  (∃ c',
     (handleViolation cl violationData clock ts σ).2
     = {| contractsCol := <[avc.1 := c']> (contractsCol σ);
          logsCol :=
            logsCol σ
            ++ [ {| l_contractId := avc.1; l_date := isoDate clock;
                    l_status := "broken";
                    l_notes := Some (story violationData);
                    l_source := None; l_timestamp := ts |} ];
          violationsCol :=
            violationsCol σ
            ++ [ {| v_reason := reason violationData;
                    v_story := story violationData;
                    v_decision := decision violationData;
                    v_contractId := avc.1;
                    v_contractTitle := title (cdata avc.2);
                    v_timestamp := ts |} ];
          journalCol := journalCol σ;
          temptationsCol := temptationsCol σ |}
     ∧ streak c' = Some 0
     ∧ lastCheckIn c' = Some ts
     ∧ cdata c' = cdata c
     ∧ (decision violationData = "retire" →
        status c' = "archived" ∧ outcome c' = Some "breached"
        ∧ failureReason c'
          = Some (if decide (story violationData = "")
                  then reason violationData else story violationData)
        ∧ archivedAt c' = Some ts)
     ∧ (decision violationData = "pause" →
        status c' = "paused" ∧ outcome c' = outcome c
        ∧ failureReason c' = failureReason c ∧ archivedAt c' = archivedAt c)
     ∧ (decision violationData = "recommit" →
        status c' = status c ∧ outcome c' = outcome c
        ∧ failureReason c' = failureReason c ∧ archivedAt c' = archivedAt c))
  ∧ ∀ σ0,
      (handleViolation cl violationData clock ts σ0).2 = σ0
      ∨ (length (violationsCol (handleViolation cl violationData clock ts σ0).2)
         = S (length (violationsCol σ0))
         ∧ length (logsCol (handleViolation cl violationData clock ts σ0).2)
           = S (length (logsCol σ0))
         ∧ (streak <$>
              contractsCol (handleViolation cl violationData clock ts σ0).2
              !! avc.1) = Some (Some 0)).
Proof.
  intros Hu Ha Hc _. split.
  - exists (applyUpdate (violationUpdates violationData ts) c).
    split.
    { unfold handleViolation. rewrite Hu, Ha. simpl. by rewrite Hc. }
    destruct (violationUpdates_streak violationData ts)
      as (Hs & Hl & _).
    simpl. rewrite Hs, Hl. repeat split; try done.
    + by rewrite (violationUpdates_retire _ _ H).
    + by rewrite (violationUpdates_retire _ _ H).
    + rewrite (violationUpdates_retire _ _ H). done.
    + by rewrite (violationUpdates_retire _ _ H).
    + by rewrite (violationUpdates_pause _ _ H).
    + by rewrite (violationUpdates_pause _ _ H).
    + by rewrite (violationUpdates_pause _ _ H).
    + by rewrite (violationUpdates_pause _ _ H).
    + rewrite violationUpdates_other; [done| |]; by rewrite H.
    + rewrite violationUpdates_other; [done| |]; by rewrite H.
    + rewrite violationUpdates_other; [done| |]; by rewrite H.
    + rewrite violationUpdates_other; [done| |]; by rewrite H.
  - intros σ0.
    destruct (handleViolation_all_or_nothing cl violationData clock ts σ0)
      as [Hn|(avc' & c0 & Ha' & Hc0 & ->)]; [by left|right].
    rewrite Ha in Ha'. simplify_eq. simpl.
    rewrite !length_app, lookup_insert_eq. simpl.
    destruct (violationUpdates_streak violationData ts) as (-> & _).
    repeat split; lia.
Qed.

(** The scenario of the specification: streak 5, witness linked, decision
    [retire], story "ate cake". *)
Lemma violation_effect_witness :
  let σ := sampleStore (sampleContract None 5) [] in
  let cl :=
    onReportViolation ("c1", sampleContract None 5)
      (syncedClient "u1" (noon day0) σ) in
  let σ' := (handleViolation cl (ateCake "retire") (noon day0) (noon day0) σ).2 in
  ∃ c', contractsCol σ' !! "c1" = Some c'
        ∧ status c' = "archived" ∧ outcome c' = Some "breached"
        ∧ failureReason c' = Some "ate cake" ∧ streak c' = Some 0
        ∧ length (violationsCol σ') = 1%nat
        ∧ (l_status <$> logsCol σ') = ["broken"].
Proof.
  cbv zeta.
  destruct (violation_effect
              (onReportViolation ("c1", sampleContract None 5)
                 (syncedClient "u1" (noon day0)
                    (sampleStore (sampleContract None 5) [])))
              "u1" ("c1", sampleContract None 5) (sampleContract None 5)
              (ateCake "retire") (noon day0) (noon day0)
              (sampleStore (sampleContract None 5) []))
    as [(c' & -> & Hs & _ & _ & Hr & _) _];
    [reflexivity | reflexivity | reflexivity | | ].
  - repeat constructor.
  - destruct (Hr eq_refl) as (H1 & H2 & H3 & _).
    exists c'. simpl. rewrite lookup_insert_eq.
    repeat split; done.
Defined.

(** ** Completing a contract *)





(** ** Snapshots of a query and the batch built from them *)

Lemma snapshot_elem (q : Contract → bool) (m : gmap string Contract) i c :
  (i, c) ∈ filter (λ d, q d.2) (map_to_list m) ↔ m !! i = Some c ∧ q c.
Proof.
  rewrite list_elem_of_filter, elem_of_map_to_list. simpl. tauto.
Qed.

Lemma snapshot_NoDup (q : Contract → bool) (m : gmap string Contract) :
  NoDup (filter (λ d, q d.2) (map_to_list m)).*1.
Proof.
  apply (sublist_NoDup _ (map_to_list m).*1).
  - apply NoDup_fst_map_to_list.
  - apply fmap_sublist, sublist_filter.
Qed.

Lemma snapshot_fst (q : Contract → bool) (m : gmap string Contract) i :
  i ∈ (filter (λ d, q d.2) (map_to_list m)).*1
  ↔ ∃ c, m !! i = Some c ∧ q c.
Proof.
  rewrite list_elem_of_fmap. split.
  - intros ([j c] & -> & Hin). apply snapshot_elem in Hin. eauto.
  - intros (c & Hc). exists (i, c). split; [done|]. by apply snapshot_elem.
Qed.

Lemma updatesFor_app cid b1 b2 :
  updatesFor cid (b1 ++ b2) = updatesFor cid b1 ++ updatesFor cid b2.
Proof. unfold updatesFor. apply flat_map_app. Qed.

Lemma flat_map_singleton {A B} (f : A → B) (l : list A) :
  flat_map (λ x, [f x]) l = f <$> l.
Proof. induction l as [|x l IH]; simpl; by rewrite ?IH. Qed.

Section batch_of_docs.
(** [g d] are the writes of the loop body for the document [d]; they
    update no contract but [d]. *)
Context (g : string * Contract → list Write).
Hypothesis g_local : ∀ d j, j ≠ d.1 → updatesFor j (g d) = [].
Hypothesis g_targets : ∀ d j, j ∈ targetsOf (g d) → j = d.1.

Lemma updatesFor_absent docs cid :
  cid ∉ docs.*1 → updatesFor cid (flat_map g docs) = [].
Proof.
  induction docs as [|d docs IH]; simpl; [done|]. intros Hn.
  apply not_elem_of_cons in Hn as [Hne Hn].
  by rewrite updatesFor_app, IH, g_local.
Qed.

Lemma updatesFor_present docs cid c :
  NoDup docs.*1 → (cid, c) ∈ docs →
  updatesFor cid (flat_map g docs) = updatesFor cid (g (cid, c)).
Proof.
  induction docs as [|d docs IH]; simpl; intros Hnd Hin.
  - by apply elem_of_nil in Hin.
  - apply NoDup_cons in Hnd as [Hd Hnd]. rewrite updatesFor_app.
    apply elem_of_cons in Hin as [<-|Hin].
    + rewrite updatesFor_absent by done. by rewrite app_nil_r.
    + rewrite g_local, IH; [done..|].
      intros ->. apply Hd, list_elem_of_fmap. by exists (d.1, c).
Qed.

Lemma targetsOf_flat_map docs j :
  j ∈ targetsOf (flat_map g docs) → j ∈ docs.*1.
Proof.
  induction docs as [|d docs IH]; simpl; [done|].
  unfold targetsOf in *. rewrite flat_map_app, elem_of_app.
  rewrite elem_of_cons.
  intros [Hj|Hj]; [left; by apply g_targets|right; by apply IH].
Qed.

(** The batch over a snapshot of the store commits. *)
Lemma commit_snapshot (q : Contract → bool) σ :
  is_Some
    (commit (flat_map g (filter (λ d, q d.2) (map_to_list (contractsCol σ))))
       σ).
Proof.
  apply commit_is_Some. intros i Hi.
  apply targetsOf_flat_map, snapshot_fst in Hi as (c & Hc & _). by eexists.
Qed.

(** After the commit every document of the snapshot carries the updates
    of its own loop body, and the other contracts are as before. *)
Lemma commit_snapshot_lookup (q : Contract → bool) σ σ' cid :
  commit (flat_map g (filter (λ d, q d.2) (map_to_list (contractsCol σ)))) σ
  = Some σ' →
  contractsCol σ' !! cid
  = (λ c, if q c then applyUpdates (updatesFor cid (g (cid, c))) c else c)
    <$> contractsCol σ !! cid.
Proof.
  intros Hc. rewrite (commit_contracts _ _ _ cid Hc).
  destruct (contractsCol σ !! cid) as [c|] eqn:Hcid; [simpl|done].
  destruct (q c) eqn:Hq.
  - rewrite (updatesFor_present _ cid c); [done|apply snapshot_NoDup|].
    apply snapshot_elem. by rewrite Hq.
  - rewrite updatesFor_absent; [done|].
    intros (c' & Hc' & Hq')%snapshot_fst. simplify_eq.
    by rewrite Hq in Hq'.
Qed.
End batch_of_docs.

(** ** Weekly rollover *)

(** What one run of the job leaves on each contract of a user. *)
Lemma weeklyRolloverUser_lookup now σ cid :
  contractsCol (weeklyRolloverUser now σ) !! cid
  = (λ c, if isActiveWeekly c
          then applyUpdate (rolloverUpdate (isoDate now) c) c else c)
    <$> contractsCol σ !! cid.
Proof.
  unfold weeklyRolloverUser.
  set (g := λ d : string * Contract,
              [UpdateContract d.1 (rolloverUpdate (isoDate now) d.2)]).
  assert (Hloc : ∀ d j, j ≠ d.1 → updatesFor j (g d) = []).
  { intros d j Hj. simpl. case_decide; [congruence|done]. }
  assert (Htg : ∀ d j, j ∈ targetsOf (g d) → j = d.1).
  { intros d j Hj. simpl in Hj. by apply list_elem_of_singleton in Hj. }
  destruct (filter _ (map_to_list (contractsCol σ))) as [|d0 docs] eqn:Hdocs.
  - destruct (contractsCol σ !! cid) as [c|] eqn:Hcid; [simpl|done].
    destruct (isActiveWeekly c) eqn:Hq; [|done].
    assert ((cid, c) ∈ filter (λ d, isActiveWeekly d.2)
                         (map_to_list (contractsCol σ))) as Hin
      by (apply snapshot_elem; by rewrite Hq).
    rewrite Hdocs in Hin. by apply elem_of_nil in Hin.
  - rewrite <- Hdocs. cbv zeta.
    change (map ?f ?l) with (f <$> l). rewrite <- (flat_map_singleton _ _).
    change (flat_map _ ?l) with (flat_map g l).
    destruct (commit_snapshot g Htg isActiveWeekly σ) as [σ' Hσ'].
    rewrite Hσ'.
    rewrite (commit_snapshot_lookup g Hloc isActiveWeekly _ _ cid Hσ').
    destruct (contractsCol σ !! cid) as [c|]; [simpl|done].
    destruct (isActiveWeekly c); [|done]. by rewrite decide_True by done.
Qed.

Lemma weeklyRolloverUser_lists now σ :
  logsCol (weeklyRolloverUser now σ) = logsCol σ
  ∧ violationsCol (weeklyRolloverUser now σ) = violationsCol σ
  ∧ journalCol (weeklyRolloverUser now σ) = journalCol σ
  ∧ temptationsCol (weeklyRolloverUser now σ) = temptationsCol σ.
Proof.
  unfold weeklyRolloverUser.
  destruct (filter _ (map_to_list (contractsCol σ))) as [|d0 docs];
    [done|].
  cbv zeta. destruct (commit _ σ) as [σ'|] eqn:Hc; [|done].
  destruct (commit_lists _ _ _ Hc) as (-> & -> & -> & ->).
  assert (∀ l : list (string * Contract),
    logsOf (map (λ d, UpdateContract d.1 (rolloverUpdate (isoDate now) d.2)) l)
    = []
    ∧ violationsOf
        (map (λ d, UpdateContract d.1 (rolloverUpdate (isoDate now) d.2)) l)
      = []
    ∧ journalOf
        (map (λ d, UpdateContract d.1 (rolloverUpdate (isoDate now) d.2)) l)
      = []) as Hnil.
  { induction l as [|d l IH]; [done|]. simpl. apply IH. }
  destruct (Hnil (d0 :: docs)) as (-> & -> & ->). by rewrite !app_nil_r.
Qed.


Lemma weeklyRollover_contractAt now db uid cid :
  contractAt uid cid (weeklyRollover now db)
  = (λ c, if isActiveWeekly c
          then applyUpdate (rolloverUpdate (isoDate now) c) c else c)
    <$> contractAt uid cid db.
Proof.
  unfold contractAt, weeklyRollover. rewrite lookup_fmap.
  destruct (db !! uid) as [σ|]; [simpl|done].
  apply weeklyRolloverUser_lookup.
Qed.

Lemma isActiveWeekly_spec c :
  isActiveWeekly c = true
  ↔ status c = "active"
    ∧ ∃ f, frequency (cdata c) = Some f ∧ f_type f = "weekly".
Proof.
  unfold isActiveWeekly. rewrite andb_true_iff, bool_decide_eq_true.
  destruct (frequency (cdata c)) as [f|].
  - rewrite bool_decide_eq_true. split.
    + intros [Hs Hf]. split; [done|]. by exists f.
    + by intros (Hs & f' & [= <-] & Hf).
  - split; [by intros [_ ?]|]. by intros (_ & f & ? & _).
Qed.











(** ** The rollover is not idempotent *)

Lemma rollover_keeps_query now c :
  isActiveWeekly (applyUpdate (rolloverUpdate (isoDate now) c) c)
  = isActiveWeekly c.
Proof. reflexivity. Qed.

(** C6. The job compares no date before it settles a week: for an active
    weekly contract that met a positive goal, with a streak that is not
    negative, a second run, whenever it happens, settles the fresh and still
    empty week as a failure, so that two runs leave streak 0 where one run
    leaves the streak plus one. *)
Theorem weeklyRollover_not_idempotent db uid cid c now now' :
  contractAt uid cid db = Some c →
  isActiveWeekly c = true →
  completedOf c >= goalOf c →
  0 < goalOf c →
  (0 ≤ default 0 (streak c))%Z →
  weeklyRollover now' (weeklyRollover now db) ≠ weeklyRollover now db
  ∧ (streak <$> contractAt uid cid (weeklyRollover now db))
    = Some (Some (default 0 (streak c) + 1))
  ∧ (streak <$> contractAt uid cid (weeklyRollover now' (weeklyRollover now db)))
    = Some (Some 0).
Proof.
  intros Hc Hq Hmet Hgoal Hs.
  assert (Honce : (streak <$> contractAt uid cid (weeklyRollover now db))
                  = Some (Some (default 0 (streak c) + 1))).
  { rewrite weeklyRollover_contractAt, Hc. simpl. rewrite Hq. simpl.
    rewrite bool_decide_eq_true_2 by done. by rewrite orNum_0. }
  assert (Htwice :
    (streak <$> contractAt uid cid (weeklyRollover now' (weeklyRollover now db)))
    = Some (Some 0)).
  { rewrite !weeklyRollover_contractAt, Hc. simpl. rewrite Hq.
    rewrite rollover_keeps_query, Hq. simpl.
    rewrite bool_decide_eq_false_2; [done|].
    unfold completedOf at 1. simpl.
    assert (goalOf (applyUpdate (rolloverUpdate (isoDate now) c) c) = goalOf c)
      as -> by reflexivity.
    lia. }
  split; [|done].
  intros Heq. rewrite Heq, Honce in Htwice. simplify_eq. lia.
Qed.

Lemma weeklyRollover_not_idempotent_witness :
  let db := sampleDb (sampleStore (weeklyContract (Some 3) (Some 3) 2) []) in
  weeklyRollover (noon day0) (weeklyRollover (noon day0) db)
  ≠ weeklyRollover (noon day0) db.
Proof.
  cbv zeta.
  apply (weeklyRollover_not_idempotent
           (sampleDb (sampleStore (weeklyContract (Some 3) (Some 3) 2) []))
           "u1" "c1" (weeklyContract (Some 3) (Some 3) 2)
           (noon day0) (noon day0));
    [reflexivity | reflexivity | vm_compute; discriminate
    | reflexivity | vm_compute; discriminate].
Defined.

(** ** Daily auto-keep *)

Lemma loggedContractIds_spec y σ cid :
  cid ∈ loggedContractIds y σ
  ↔ ∃ l, l ∈ logsCol σ ∧ l_contractId l = cid ∧ l_date l = y.
Proof.
  unfold loggedContractIds.
  rewrite elem_of_list_to_set, list_elem_of_fmap. split.
  - intros (l & -> & Hl). apply list_elem_of_filter in Hl as [Hd Hl]. eauto.
  - intros (l & Hl & <- & Hd). exists l. split; [done|].
    by apply list_elem_of_filter.
Qed.

Lemma autoKeepBody_local logged y ts d j :
  j ≠ d.1 → updatesFor j (autoKeepBody logged y ts d) = [].
Proof.
  intros Hj. unfold autoKeepBody. case_decide; [done|]. simpl.
  case_decide; [congruence|done].
Qed.

Lemma autoKeepBody_targets logged y ts d j :
  j ∈ targetsOf (autoKeepBody logged y ts d) → j = d.1.
Proof.
  unfold autoKeepBody. case_decide; simpl.
  - by intros ?%elem_of_nil.
  - by intros ?%list_elem_of_singleton.
Qed.

(** The run is the commit of the batch of the loop; an empty batch is not
    sent, which changes nothing. *)
Lemma dailyAutoKeepUser_commit now ts σ :
  ∃ σ',
    commit
      (flat_map (autoKeepBody (loggedContractIds (yesterdayOf now) σ)
                   (yesterdayOf now) ts)
         (filter (λ d, isAutoKeep d.2) (map_to_list (contractsCol σ)))) σ
    = Some σ'
    ∧ dailyAutoKeepUser now ts σ = σ'.
Proof.
  unfold dailyAutoKeepUser.
  destruct (commit_snapshot
              (autoKeepBody (loggedContractIds (yesterdayOf now) σ)
                 (yesterdayOf now) ts)
              (autoKeepBody_targets _ _ _) isAutoKeep σ) as [σ' Hσ'].
  exists σ'. split; [done|]. cbv zeta.
  destruct (filter _ (map_to_list (contractsCol σ))) as [|d0 docs] eqn:Hdocs.
  - simpl in Hσ'. congruence.
  - destruct (flat_map _ (d0 :: docs)) as [|w batch] eqn:Hb.
    + simpl in Hσ'. congruence.
    + by rewrite Hσ'.
Qed.

Lemma logsOf_app b1 b2 : logsOf (b1 ++ b2) = logsOf b1 ++ logsOf b2.
Proof. unfold logsOf. apply flat_map_app. Qed.

Lemma journalOf_app b1 b2 : journalOf (b1 ++ b2) = journalOf b1 ++ journalOf b2.
Proof. unfold journalOf. apply flat_map_app. Qed.

Lemma violationsOf_autoKeep logged y ts docs :
  violationsOf (flat_map (autoKeepBody logged y ts) docs) = [].
Proof.
  induction docs as [|d docs IH]; [done|]. simpl.
  unfold violationsOf in *. rewrite flat_map_app, IH, app_nil_r.
  unfold autoKeepBody. by case_decide.
Qed.



(** The state of one user after a run, collection by collection. *)
Lemma dailyAutoKeepUser_result now ts σ :
  let y := yesterdayOf now in
  let logged := loggedContractIds y σ in
  let docs := filter (λ d, isAutoKeep d.2) (map_to_list (contractsCol σ)) in
  let σ' := dailyAutoKeepUser now ts σ in
  (∀ cid,
     contractsCol σ' !! cid
     = (λ c, if isAutoKeep c
             then (if decide (cid ∈ logged) then c
                   else applyUpdate (autoKeepUpdate ts c) c)
             else c) <$> contractsCol σ !! cid)
  ∧ logsCol σ' = logsCol σ ++ logsOf (flat_map (autoKeepBody logged y ts) docs)
  ∧ journalCol σ'
    = journalCol σ ++ journalOf (flat_map (autoKeepBody logged y ts) docs)
  ∧ violationsCol σ' = violationsCol σ
  ∧ temptationsCol σ' = temptationsCol σ.
Proof.
  intros y logged docs σ'. subst σ'.
  destruct (dailyAutoKeepUser_commit now ts σ) as (σ' & Hc & ->).
  fold y logged docs in Hc.
  destruct (commit_lists _ _ _ Hc) as (Hl & Hv & Hj & Ht).
  rewrite violationsOf_autoKeep, app_nil_r in Hv.
  split; [|done]. intros cid.
  rewrite (commit_snapshot_lookup _ (autoKeepBody_local logged y ts)
             isAutoKeep _ _ cid Hc).
  destruct (contractsCol σ !! cid) as [c|]; [simpl|done].
  destruct (isAutoKeep c); [|done]. unfold autoKeepBody. simpl.
  case_decide; [done|]. simpl. by rewrite decide_True by done.
Qed.






Lemma dailyAutoKeep_contractAt now ts db uid σ :
  db !! uid = Some σ →
  dailyAutoKeep now ts db !! uid = Some (dailyAutoKeepUser now ts σ).
Proof. intros H. unfold dailyAutoKeep. by rewrite lookup_fmap, H. Qed.





(** ** Temptations *)

(** C9, as the code has it.  A temptation is created with outcome
    [pending].  [markTemptationOutcome] refuses every outcome other than
    [resisted] and [relapsed] with [invalid-argument] and writes nothing;
    with one of the two it sets the outcome of an existing temptation
    whatever its current outcome: there is no check that it is still
    pending, and a later call on the same record succeeds as well and
    overwrites the outcome. *)
Theorem temptation_outcome_not_guarded uid contractId temptationId c t
    context coachingText newId out out2 ts ts2 σ :
  contractId ≠ "" → temptationId ≠ "" →
  isDocId contractId = true → isDocId temptationId = true →
  contractsCol σ !! contractId = Some c →
  temptationsCol σ !! (contractId, temptationId) = Some t →
  out ∈ ["resisted"; "relapsed"] → out2 ∈ ["resisted"; "relapsed"] →
  (∃ σ0 t0,
     coachTemptation (Some uid)
       {| cd_contractId := Some contractId; cd_context := context |}
       (Some coachingText) newId ts σ
     = Some (inr {| r_temptationId := newId; r_coaching := coachingText;
                    r_resistedCount := default 0 (resistedCount c) |}, σ0)
     ∧ temptationsCol σ0 !! (contractId, newId) = Some t0
     ∧ t_outcome t0 = "pending")
  ∧ (∃ σ1 σ2,
       markTemptationOutcome (Some uid)
         {| od_contractId := Some contractId;
            od_temptationId := Some temptationId; od_outcome := Some out |}
         ts σ
       = Some (inr true, σ1)
       ∧ temptationsCol σ1 !! (contractId, temptationId)
         = Some {| t_createdAt := t_createdAt t; t_context := t_context t;
                   t_aiResponse := t_aiResponse t; t_outcome := out;
                   t_resolvedAt := Some ts |}
       ∧ markTemptationOutcome (Some uid)
           {| od_contractId := Some contractId;
              od_temptationId := Some temptationId;
              od_outcome := Some out2 |}
           ts2 σ1
         = Some (inr true, σ2)
       ∧ temptationsCol σ2 !! (contractId, temptationId)
         = Some {| t_createdAt := t_createdAt t; t_context := t_context t;
                   t_aiResponse := t_aiResponse t; t_outcome := out2;
                   t_resolvedAt := Some ts2 |})
  ∧ ∀ auth data τ s,
      od_outcome data ∉ [Some "resisted"; Some "relapsed"] →
      markTemptationOutcome auth data τ s
      = Some (inl (match auth with
                   | Some _ => invalid_argument
                   | None => failed_precondition
                   end), s).
Proof.
  intros Hcid Htid Hdc Hdt Hc Ht Hout Hout2.
  assert (∀ o, o ∈ ["resisted"; "relapsed"] → o ≠ "") as Hne.
  { intros o Ho ->. apply elem_of_cons in Ho as [?|Ho]; [done|].
    by apply list_elem_of_singleton in Ho. }
  assert (Hmark : ∀ o τ (s : Store) t1 c1,
    o ∈ ["resisted"; "relapsed"] →
    contractsCol s !! contractId = Some c1 →
    temptationsCol s !! (contractId, temptationId) = Some t1 →
    ∃ s',
      markTemptationOutcome (Some uid)
        {| od_contractId := Some contractId;
           od_temptationId := Some temptationId; od_outcome := Some o |} τ s
      = Some (inr true, s')
      ∧ temptationsCol s' !! (contractId, temptationId)
        = Some {| t_createdAt := t_createdAt t1; t_context := t_context t1;
                  t_aiResponse := t_aiResponse t1; t_outcome := o;
                  t_resolvedAt := Some τ |}
      ∧ is_Some (contractsCol s' !! contractId)).
  { intros o τ s t1 c1 Ho Hc1 Ht1. unfold markTemptationOutcome. simpl.
    rewrite !bool_decide_eq_false_2 by (done || by apply Hne). simpl.
    rewrite bool_decide_eq_true_2 by done. simpl.
    rewrite Hdc, Hdt. simpl. rewrite Ht1.
    case_decide.
    - rewrite Hc1. eexists. split; [reflexivity|]. simpl.
      rewrite !lookup_insert_eq. split; [done|by eexists].
    - eexists. split; [reflexivity|]. simpl.
      rewrite lookup_insert_eq, Hc1. split; [done|by eexists]. }
  split; [|split].
  - unfold coachTemptation. cbn [cd_contractId cd_context].
    rewrite decide_False by done. rewrite Hdc. simpl. rewrite Hc.
    rewrite orNum_0. eexists _, _. split; [reflexivity|]. simpl.
    rewrite lookup_insert_eq. done.
  - destruct (Hmark out ts σ t c Hout Hc Ht) as (σ1 & H1 & Ht1 & [c1 Hc1]).
    destruct (Hmark out2 ts2 σ1 _ c1 Hout2 Hc1 Ht1) as (σ2 & H2 & Ht2 & _).
    exists σ1, σ2. done.
  - intros auth data τ s Hbad. unfold markTemptationOutcome.
    destruct auth as [uid'|]; [|done].
    destruct (od_contractId data) as [i|]; [|done].
    destruct (od_temptationId data) as [j|]; [|done].
    destruct (od_outcome data) as [o|]; [|done].
    destruct (_ || _ || _); [done|].
    rewrite bool_decide_eq_false_2; [done|].
    intros Ho. apply Hbad.
    apply elem_of_cons in Ho as [->|Ho]; [by left|].
    apply list_elem_of_singleton in Ho as ->. right. by left.
Qed.

Lemma temptation_outcome_not_guarded_witness :
  ∃ σ1 σ2,
    markTemptationOutcome (Some "u1") (outcomeData "resisted") (noon day0)
      (temptationStore "pending") = Some (inr true, σ1)
    ∧ markTemptationOutcome (Some "u1") (outcomeData "relapsed")
        (noon day0 + 1) σ1 = Some (inr true, σ2)
    ∧ (t_outcome <$> temptationsCol σ2 !! ("c1", "t1")) = Some "relapsed".
Proof.
  destruct (temptation_outcome_not_guarded "u1" "c1" "t1"
              (sampleContract None 5) (sampleTemptation "pending") None
              "Drink water." "t2" "resisted" "relapsed" (noon day0)
              (noon day0 + 1) (temptationStore "pending"))
    as (_ & (σ1 & σ2 & H1 & _ & H2 & Ht) & _);
    [discriminate | discriminate | reflexivity | reflexivity
    | reflexivity | reflexivity | repeat constructor | repeat constructor |].
  exists σ1, σ2. split; [exact H1|]. split; [exact H2|]. by rewrite Ht.
Defined.

(** C9 fails as stated: the outcome of a temptation that was already marked
    [resisted] is changed again by a second call, which succeeds. *)
Lemma temptation_marked_twice :
  let σ := temptationStore "pending" in
  ∃ σ1 σ2,
    markTemptationOutcome (Some "u1") (outcomeData "resisted") (noon day0) σ
    = Some (inr true, σ1)
    ∧ (t_outcome <$> temptationsCol σ1 !! ("c1", "t1")) = Some "resisted"
    ∧ markTemptationOutcome (Some "u1") (outcomeData "relapsed")
        (noon day0 + 1) σ1
      = Some (inr true, σ2)
    ∧ (t_outcome <$> temptationsCol σ2 !! ("c1", "t1")) = Some "relapsed"
    ∧ (resistedCount <$> contractsCol σ2 !! "c1") = Some (Some 1).
Proof.
  cbv zeta. eexists _, _.
  split; [vm_compute; reflexivity|].
  repeat split; vm_compute; reflexivity.
Qed.

(** ** The consistency rules along the lifecycle *)

Lemma storeInv_empty : storeInv emptyStore.
Proof. intros cid c H. simpl in H. by rewrite lookup_empty in H. Qed.

Lemma applyUpdate_neutral u c :
  neutral u → contractInv c → contractInv (applyUpdate u c).
Proof.
  intros (Hs & Ho & Hf) Hinv. unfold contractInv. simpl.
  by rewrite Hs, Ho, Hf.
Qed.

Lemma findContract_spec contractId cs d :
  findContract contractId cs = Some d → d.1 = contractId ∧ d ∈ cs.
Proof.
  unfold findContract. intros [Hin Hb]%find_some.
  apply bool_decide_eq_true in Hb. by rewrite list_elem_of_In.
Qed.

Lemma findContract_synced uid clock σ contractId d :
  findContract contractId (contracts (syncedClient uid clock σ)) = Some d →
  d.1 = contractId ∧ contractsCol σ !! contractId = Some d.2.
Proof.
  intros [<- Hin]%findContract_spec. split; [done|].
  simpl in Hin. destruct d as [i c]. by apply elem_of_map_to_list in Hin.
Qed.

(** A button on the dashboard belongs to the card of an active contract of
    the snapshot. *)
Lemma dashboardActions_elem cl clock contractId a :
  (contractId, a) ∈ dashboardActions cl clock →
  ∃ c, (contractId, c) ∈ contracts cl ∧ status c = "active"
       ∧ a ∈ cardActions c (todayLogs cl !! contractId) clock.
Proof.
  unfold dashboardActions. rewrite list_elem_of_In, in_flat_map.
  intros ([i c] & Hd & Ha). apply in_map_iff in Ha as (a' & Heq & Ha').
  simpl in Heq. simplify_eq. exists c.
  apply list_elem_of_In in Hd, Ha'. split; [|split; [|done]].
  - unfold sortedActive in Hd.
    apply elem_of_app in Hd as [Hd|Hd];
      apply list_elem_of_filter in Hd as [_ Hd];
      by apply list_elem_of_filter in Hd as [_ Hd].
  - unfold sortedActive in Hd.
    apply elem_of_app in Hd as [Hd|Hd];
      apply list_elem_of_filter in Hd as [_ Hd];
      by apply list_elem_of_filter in Hd as [Hs _].
Qed.

Lemma offered_active uid clock σ contractId a :
  (contractId, a) ∈ dashboardActions (syncedClient uid clock σ) clock →
  ∃ c, contractsCol σ !! contractId = Some c ∧ status c = "active".
Proof.
  intros (c & Hin & Hs & _)%dashboardActions_elem. exists c.
  split; [|done]. by apply elem_of_map_to_list in Hin.
Qed.

(** An active contract that obeys the rules has neither outcome nor failure
    reason. *)
Lemma active_no_outcome c :
  contractInv c → status c = "active" →
  outcome c = None ∧ failureReason c = None.
Proof.
  intros [H1 H2] Hs.
  assert (outcome c = None) as Ho.
  { destruct (outcome c) as [o|] eqn:E; [|done].
    assert (status c = "archived") by (apply H1; by eexists). congruence. }
  split; [done|].
  destruct (failureReason c) as [r|] eqn:E; [|done].
  assert (outcome c = Some "breached") by (apply H2; by eexists). congruence.
Qed.

Lemma storeInv_insert σ σ' cid c :
  storeInv σ → contractInv c →
  contractsCol σ' = <[cid := c]> (contractsCol σ) →
  storeInv σ'.
Proof.
  intros Hinv Hc Heq i c' Hi. rewrite Heq in Hi.
  destruct (decide (cid = i)) as [->|Hne].
  - rewrite lookup_insert_eq in Hi. by simplify_eq.
  - rewrite lookup_insert_ne in Hi by done. by eapply Hinv.
Qed.

(** A committed batch keeps the rules when the updates it leaves on each
    contract do. *)
Lemma commit_inv batch σ σ' :
  commit batch σ = Some σ' →
  (∀ cid c, contractsCol σ !! cid = Some c →
            contractInv (applyUpdates (updatesFor cid batch) c)) →
  storeInv σ'.
Proof.
  intros Hc Hall cid c' Hi. rewrite (commit_contracts _ _ _ cid Hc) in Hi.
  destruct (contractsCol σ !! cid) as [c|] eqn:E; simplify_eq/=.
  by apply Hall.
Qed.

Lemma violation_keeps_rules violationData ts c :
  contractInv c → status c = "active" →
  contractInv (applyUpdate (violationUpdates violationData ts) c).
Proof.
  intros Hinv Hs. destruct (active_no_outcome c Hinv Hs) as [Ho Hf].
  destruct (decide (decision violationData = "retire")) as [Hr|Hr].
  { rewrite (violationUpdates_retire _ _ Hr). unfold contractInv. simpl.
    split; split; intros _; (done || by eexists). }
  destruct (decide (decision violationData = "pause")) as [Hp|Hp].
  { rewrite (violationUpdates_pause _ _ Hp). unfold contractInv. simpl.
    rewrite Ho, Hf. split; split; (by intros [? ?] || done). }
  rewrite (violationUpdates_other _ _ Hp Hr).
  by apply applyUpdate_neutral.
Qed.

Lemma complete_keeps_rules ts c :
  contractInv c → status c = "active" →
  contractInv (applyUpdate (archiveCompleted ts) c).
Proof.
  intros Hinv Hs. destruct (active_no_outcome c Hinv Hs) as [Ho Hf].
  unfold contractInv. simpl. rewrite Hf.
  split; split; (by intros [? ?] || done || by eexists).
Qed.

(** The dashboard offers violation reports and completions for active
    contracts only. *)
Lemma offered_onActive uid s σ : offered uid s σ → onActive s σ.
Proof.
  unfold offered, onActive.
  destruct (s_op s) as [data newId|cid st notes|cid vd|cid|cid| |];
    try done; intros Hoff c Hc;
    destruct (offered_active _ _ _ _ _ Hoff) as (c' & Hc' & Hs); congruence.
Qed.

(** Every operation on an active contract, and every job, keeps the rules. *)
Lemma exec_inv uid s σ :
  storeInv σ → onActive s σ → storeInv (exec uid s σ).
Proof.
  intros Hinv Hact. unfold exec, onActive in *.
  destruct (s_op s) as [data newId|cid st notes|cid vd|cid|cid| |].
  - (* create *)
    simpl. eapply storeInv_insert; [exact Hinv| |reflexivity].
    unfold contractInv. simpl. split; split; (by intros [? ?] || done).
  - (* check-in *)
    destruct (findContract cid (contracts (syncedClient uid (s_clock s) σ)))
      as [d|] eqn:Hf.
    + destruct (findContract_spec _ _ _ Hf) as [Hd _]. destruct d as [i c].
      simpl in Hd. subst i.
      rewrite (handleCheckIn_commit _ uid _ c) by done.
      destruct (commit _ σ) as [σ'|] eqn:Hc; [simpl|done].
      apply (commit_inv _ _ _ Hc). intros i ci Hi. simpl.
      destruct (decide (cid = i)); simpl; [|by eapply Hinv].
      apply applyUpdate_neutral; [done|by eapply Hinv].
    + unfold handleCheckIn. by rewrite Hf.
  - (* violation *)
    destruct (findContract cid (contracts (syncedClient uid (s_clock s) σ)))
      as [d|] eqn:Hf; [|done].
    destruct (findContract_synced _ _ _ _ _ Hf) as [Hd Hc].
    destruct d as [i c]. simpl in Hd, Hc. subst i.
    unfold handleViolation. simpl.
    rewrite Hc. simpl. eapply storeInv_insert; [exact Hinv| |reflexivity].
    apply violation_keeps_rules; [by eapply Hinv|by apply Hact].
  - (* complete *)
    destruct (findContract cid (contracts (syncedClient uid (s_clock s) σ)))
      as [d|] eqn:Hf; [|done].
    destruct (findContract_synced _ _ _ _ _ Hf) as [Hd Hc].
    destruct d as [i c]. simpl in Hd, Hc. subst i.
    unfold handleCompleteContract. simpl. rewrite Hc.
    eapply storeInv_insert; [exact Hinv| |reflexivity].
    apply complete_keeps_rules; [by eapply Hinv|by apply Hact].
  - (* delete *)
    simpl. intros i c Hi. simpl in Hi.
    apply lookup_delete_Some in Hi as [_ Hi]. by eapply Hinv.
  - (* weekly rollover *)
    intros i c' Hi. rewrite weeklyRolloverUser_lookup in Hi.
    destruct (contractsCol σ !! i) as [c|] eqn:E; simplify_eq/=.
    destruct (isActiveWeekly c); [|by eapply Hinv].
    apply applyUpdate_neutral; [done|by eapply Hinv].
  - (* daily auto-keep *)
    intros i c' Hi.
    destruct (dailyAutoKeepUser_result (s_clock s) (s_ts s) σ) as (Hlk & _).
    rewrite Hlk in Hi.
    destruct (contractsCol σ !! i) as [c|] eqn:E; simplify_eq/=.
    destruct (isAutoKeep c); [|by eapply Hinv].
    case_decide; [by eapply Hinv|].
    apply applyUpdate_neutral; [done|by eapply Hinv].
Qed.

(** C7, as the code has it.  The two rules, outcome set exactly on archived
    contracts and failure reason set exactly on breached ones, hold after
    every sequence of creations, check-ins, violation reports, completions,
    deletions and runs of the two jobs in which every violation report and
    every completion meets a contract that is active at that moment, which
    are the only ones the dashboard offers.  The handlers themselves never
    look at the status of the contract. *)
Theorem lifecycle_keeps_rules uid σ l σ' :
  storeInv σ → steps uid σ l σ' → storeInv σ'.
Proof.
  intros Hinv Hsteps. induction Hsteps as [σ|σ s l σ' Hact _ IH]; [done|].
  apply IH. by apply exec_inv.
Qed.

Lemma lifecycle_keeps_rules_witness :
  storeInv (run "u1" sampleSteps emptyStore)
  ∧ (status <$> contractsCol (run "u1" sampleSteps emptyStore) !! "c1")
    = Some "archived".
Proof.
  split; [|reflexivity].
  apply (lifecycle_keeps_rules "u1" emptyStore sampleSteps);
    [apply storeInv_empty|].
  unfold sampleSteps, run. cbn [foldl].
  apply steps_cons; [exact I|].
  apply steps_cons; [exact I|].
  apply steps_cons; [exact I|].
  apply steps_cons; [exact I|].
  apply steps_cons;
    [apply (offered_onActive "u1"); unfold offered; cbn [s_op s_clock];
     elem_compute|].
  apply steps_nil.
Defined.

(** C7 fails as stated: completion followed by a violation report with the
    decision [pause], submitted from a form that was opened while the
    contract was still running, leaves a paused contract whose outcome is
    set. *)
Lemma late_report_breaks_rules :
  storeInv endingStore
  ∧ ("c1", ActReportViolation)
    ∈ dashboardActions (syncedClient "u1" (noon day0) endingStore) (noon day0)
  ∧ ("c1", ActComplete) ∈ dashboardActions sessionB (noon (day0 + 1))
  ∧ (status <$> contractsCol afterLateReport !! "c1") = Some "paused"
  ∧ (outcome <$> contractsCol afterLateReport !! "c1")
    = Some (Some "completed")
  ∧ ¬ storeInv afterLateReport.
Proof.
  split; [|split; [|split; [|split; [|split]]]].
  - intros cid c H. unfold endingStore, sampleStore in H. simpl in H.
    apply lookup_singleton_Some in H as [_ <-].
    split; split; simpl; (by intros [? ?] || done).
  - elem_compute.
  - elem_compute.
  - reflexivity.
  - reflexivity.
  - intros Hinv.
    assert (∃ c, contractsCol afterLateReport !! "c1" = Some c
                 ∧ status c = "paused" ∧ is_Some (outcome c))
      as (c & Hc & Hs & Ho).
    { eexists. split; [reflexivity|]. split; [reflexivity|].
      by eexists. }
    destruct (Hinv _ _ Hc) as [H1 _]. apply H1 in Ho. congruence.
Qed.

(** * Further properties of the client and of the cloud functions *)

(** ** Check-in: refused writes and what the dashboard shows afterwards *)

(** X1. A check-in writes nothing at all, not even the log, when the caller
    is signed out, when the contract is not in the client's snapshot, or
    when the contract of the snapshot is no longer in the store: the batch
    is refused as a whole. *)
Theorem checkIn_refused cl contractId st notes clock ts σ :
  user cl = None
  ∨ findContract contractId (contracts cl) = None
  ∨ contractsCol σ !! contractId = None →
  handleCheckIn cl contractId st notes clock ts σ = σ.
Proof.
  intros H. unfold handleCheckIn.
  destruct (user cl) as [uid|]; [|done].
  destruct (findContract contractId (contracts cl)) as [[i c]|] eqn:Hf; [|done].
  destruct H as [H|[H|H]]; [done..|].
  cbv zeta. rewrite (commit_None _ _ contractId); [done| |done].
  simpl. by left.
Qed.

Lemma checkIn_refused_witness :
  handleCheckIn
    (syncedClient "u1" (noon day0) (sampleStore (sampleContract None 5) []))
    "c1" "kept" "" (noon day0) (noon day0) voidedStore
  = voidedStore.
Proof.
  apply checkIn_refused. right. right. reflexivity.
Defined.

(** The snapshot of today's logs has an entry for a contract exactly when
    the store has a log of that contract dated today. *)
Lemma todayLogsOf_is_Some today logs contractId :
  is_Some (todayLogsOf today logs !! contractId)
  ↔ ∃ l, l ∈ logs ∧ l_contractId l = contractId ∧ l_date l = today.
Proof.
  unfold todayLogsOf.
  assert (∀ (ls : list DailyLog) (m : gmap string DailyLog),
    is_Some (foldl (λ m l, <[l_contractId l := l]> m) m ls !! contractId)
    ↔ is_Some (m !! contractId)
      ∨ ∃ l, l ∈ ls ∧ l_contractId l = contractId) as Hfold.
  { induction ls as [|l ls IH]; intros m; simpl.
    - split; [by left|]. intros [?|(l & Hl & _)]; [done|].
      by apply elem_of_nil in Hl.
    - rewrite IH. split.
      + intros [Hm|(l' & Hl' & Hid)].
        * destruct (decide (l_contractId l = contractId)) as [Heq|Hne].
          -- right. exists l. split; [left|done].
          -- left. by rewrite lookup_insert_ne in Hm.
        * right. exists l'. split; [by right|done].
      + intros [Hm|(l' & Hl' & Hid)].
        * left. destruct (decide (l_contractId l = contractId)) as [Heq|Hne].
          -- rewrite Heq, lookup_insert_eq. by eexists.
          -- by rewrite lookup_insert_ne.
        * apply elem_of_cons in Hl' as [->|Hl'].
          -- left. rewrite Hid, lookup_insert_eq. by eexists.
          -- right. by exists l'. }
  rewrite Hfold, lookup_empty. split.
  - intros [[? ?]|(l & Hl & Hid)]; [done|].
    apply list_elem_of_filter in Hl as [Hd Hl]. by exists l.
  - intros (l & Hl & Hid & Hd). right. exists l. split; [|done].
    by apply list_elem_of_filter.
Qed.

(** Once a contract has a log for the day on which a session was opened,
    the dashboard of that session has no check-in and no violation button
    for it, whatever the clock. *)
Lemma logged_no_buttons uid opened clock σ l contractId a :
  l ∈ logsCol σ → l_contractId l = contractId → l_date l = isoDate opened →
  (contractId, a) ∈ dashboardActions (syncedClient uid opened σ) clock →
  a = ActComplete ∨ a = ActDelete.
Proof.
  intros Hl Hid Hd (c & _ & _ & Ha)%dashboardActions_elem.
  assert (is_Some (todayLogs (syncedClient uid opened σ) !! contractId))
    as [l' Hl'].
  { simpl. apply todayLogsOf_is_Some. by exists l. }
  rewrite Hl' in Ha. unfold cardActions in Ha.
  rewrite bool_decide_eq_true_2 in Ha by (by eexists).
  destruct (isFuture c clock), (isExpired c clock); cbn in Ha;
    rewrite ?elem_of_cons, ?elem_of_nil in Ha; intuition.
Qed.

(** The converse of [dashboardActions_elem]. *)
Lemma dashboardActions_intro cl clock contractId c a :
  (contractId, c) ∈ contracts cl → status c = "active" →
  a ∈ cardActions c (todayLogs cl !! contractId) clock →
  (contractId, a) ∈ dashboardActions cl clock.
Proof.
  intros Hin Hs Ha. unfold dashboardActions.
  rewrite list_elem_of_In, in_flat_map. exists (contractId, c). split.
  - apply list_elem_of_In. unfold sortedActive. apply elem_of_app.
    destruct (decide (is_Some (todayLogs cl !! contractId))) as [Hl|Hl].
    + right. apply list_elem_of_filter. split; [done|].
      by apply list_elem_of_filter.
    + left. apply list_elem_of_filter. split; [done|].
      by apply list_elem_of_filter.
  - apply in_map_iff. exists a. split; [done|]. by apply list_elem_of_In.
Qed.

(** The buttons of a card depend on the contract through its dates only. *)
Lemma cardActions_same_data c c' todayLog clock :
  cdata c' = cdata c →
  cardActions c' todayLog clock = cardActions c todayLog clock.
Proof.
  intros Hd. unfold cardActions, isFuture, isExpired. by rewrite Hd.
Qed.

(** A log of another day does not reach a session. *)
Lemma todayLogsOf_other_day today logs l :
  l_date l ≠ today → todayLogsOf today (logs ++ [l]) = todayLogsOf today logs.
Proof.
  intros Hd. unfold todayLogsOf.
  by rewrite filter_app, filter_cons, decide_False, filter_nil, app_nil_r.
Qed.

(** X2. After a check-in that went through, the dashboard of a session
    that was opened on the day of the check-in shows, once it has received
    the new state and for as long as it stays open, no check-in and no
    violation button for the contract: the only buttons left are the ones
    that complete or void it.  A session that was opened on another day and
    left open does not see the new log, its listener still follows the
    logs of the day it was opened: every button it had for the contract
    before the check-in, it still has. *)
Theorem checkIn_then_no_buttons cl uid contractId snap c st notes clock ts σ
    opened :
  user cl = Some uid →
  findContract contractId (contracts cl) = Some (contractId, snap) →
  contractsCol σ !! contractId = Some c →
  let σ' := handleCheckIn cl contractId st notes clock ts σ in
  (isoDate opened = isoDate clock →
   ∀ clock' a,
     (contractId, a) ∈ dashboardActions (syncedClient uid opened σ') clock' →
     a = ActComplete ∨ a = ActDelete)
  ∧ (isoDate opened ≠ isoDate clock →
     ∀ clock' a,
       (contractId, a) ∈ dashboardActions (syncedClient uid opened σ) clock' →
       (contractId, a) ∈ dashboardActions (syncedClient uid opened σ') clock').
Proof.
  intros Hu Hf Hc σ'. subst σ'.
  rewrite (handleCheckIn_commit _ _ _ _ _ _ _ _ _ Hu Hf).
  simpl. rewrite Hc. simpl. split.
  - intros Hday clock' a.
    eapply logged_no_buttons;
      [apply elem_of_app; right; left | done | simpl; by rewrite Hday].
  - intros Hday clock' a (c0 & Hin & Hs & Ha)%dashboardActions_elem.
    simpl in Hin. apply elem_of_map_to_list in Hin.
    rewrite Hc in Hin. injection Hin as <-.
    eapply dashboardActions_intro.
    + simpl. apply elem_of_map_to_list, lookup_insert_eq.
    + done.
    + rewrite (cardActions_same_data c) by done.
      simpl. rewrite todayLogsOf_other_day by (simpl; congruence).
      exact Ha.
Qed.

Lemma checkIn_then_no_buttons_witness :
  let σ := sampleStore (sampleContract None 5) [] in
  let σ' := handleCheckIn (syncedClient "u1" (noon day0) σ) "c1" "kept" ""
              (noon day0) (noon day0) σ in
  (("c1", ActCheckIn "kept")
   ∉ dashboardActions (syncedClient "u1" (noon day0 - 1000) σ')
       (noon (day0 + 1)))
  ∧ (("c1", ActCheckIn "kept")
     ∈ dashboardActions (syncedClient "u1" (noon (day0 - 1)) σ')
         (noon day0 + 1)).
Proof.
  cbv zeta.
  destruct (checkIn_then_no_buttons
              (syncedClient "u1" (noon day0)
                 (sampleStore (sampleContract None 5) []))
              "u1" "c1" (sampleContract None 5) (sampleContract None 5)
              "kept" "" (noon day0) (noon day0)
              (sampleStore (sampleContract None 5) []) (noon day0 - 1000))
    as [Hsame _]; [reflexivity | reflexivity | reflexivity |].
  destruct (checkIn_then_no_buttons
              (syncedClient "u1" (noon day0)
                 (sampleStore (sampleContract None 5) []))
              "u1" "c1" (sampleContract None 5) (sampleContract None 5)
              "kept" "" (noon day0) (noon day0)
              (sampleStore (sampleContract None 5) []) (noon (day0 - 1)))
    as [_ Hstale]; [reflexivity | reflexivity | reflexivity |].
  split.
  - intros Hin.
    by destruct (Hsame eq_refl (noon (day0 + 1)) (ActCheckIn "kept") Hin).
  - apply Hstale; [vm_compute; discriminate|elem_compute].
Defined.

(** ** The contract card, day by day *)

Lemma isFuture_spec contract clock :
  isFuture contract clock = true
  ↔ ∃ s, startDate (cdata contract) = Some s ∧ isoDate clock < s.
Proof.
  unfold isFuture. destruct (startDate (cdata contract)) as [s|].
  - rewrite bool_decide_eq_true. split.
    + intros H. exists s. split; [done|lia].
    + intros (s' & [= <-] & H). lia.
  - split; [done|]. by intros (s & ? & _).
Qed.

(** X3. The buttons of a card follow the calendar.  Before the start date
    the card has only the button that voids the contract; from the day after
    the end date on it has the victory button instead of the daily buttons,
    whether or not the day is logged; in between, the end date included, it
    has the three daily buttons while the day has no log, and none of them
    once it has one. *)
Theorem cardActions_by_dates contract todayLog clock :
  cardActions contract todayLog clock
  = match startDate (cdata contract), endDate (cdata contract) with
    | Some s, _ =>
        if decide (isoDate clock < s) then [ActDelete]
        else match endDate (cdata contract) with
             | Some e =>
                 if decide (e < isoDate clock) then [ActComplete; ActDelete]
                 else match todayLog with
                      | Some _ => [ActDelete]
                      | None => [ActCheckIn "kept"; ActReportViolation;
                                 ActCheckIn "exception"; ActDelete]
                      end
             | None =>
                 match todayLog with
                 | Some _ => [ActDelete]
                 | None => [ActCheckIn "kept"; ActReportViolation;
                            ActCheckIn "exception"; ActDelete]
                 end
             end
    | None, Some e =>
        if decide (e < isoDate clock) then [ActComplete; ActDelete]
        else match todayLog with
             | Some _ => [ActDelete]
             | None => [ActCheckIn "kept"; ActReportViolation;
                        ActCheckIn "exception"; ActDelete]
             end
    | None, None =>
        match todayLog with
        | Some _ => [ActDelete]
        | None => [ActCheckIn "kept"; ActReportViolation;
                   ActCheckIn "exception"; ActDelete]
        end
    end.
Proof.
  unfold cardActions.
  destruct (isFuture contract clock) eqn:Hfut.
  { apply isFuture_spec in Hfut as (s & -> & Hs).
    rewrite decide_True by done. by destruct todayLog. }
  assert (isFuture contract clock ≠ true) as Hnf by congruence.
  rewrite isFuture_spec in Hnf.
  destruct (isExpired contract clock) eqn:Hexp.
  { apply isExpired_spec in Hexp as (e & He & Hlt). rewrite He.
    destruct (startDate (cdata contract)) as [s|].
    - rewrite decide_False by (intros ?; apply Hnf; eauto).
      rewrite decide_True by done. by destruct todayLog.
    - rewrite decide_True by done. by destruct todayLog. }
  assert (isExpired contract clock ≠ true) as Hne by congruence.
  rewrite isExpired_spec in Hne.
  destruct (startDate (cdata contract)) as [s|],
    (endDate (cdata contract)) as [e|];
    rewrite ?decide_False
      by (intros ?; first [by apply Hnf; eauto | by apply Hne; eauto]);
    by destruct todayLog.
Qed.

(** X4. The cards of the dashboard are the active contracts of the
    snapshot, each one once, and the ones that still have no log for the day
    come before the ones that have one. *)
Theorem sortedActive_perm cl :
  sortedActive cl ≡ₚ filter (λ d, status d.2 = "active") (contracts cl)
  ∧ length (sortedActive cl) = slotsUsed cl
  ∧ ∀ i j d d',
      sortedActive cl !! i = Some d → sortedActive cl !! j = Some d' →
      (i < j)%nat →
      is_Some (todayLogs cl !! d.1) → is_Some (todayLogs cl !! d'.1).
Proof.
  unfold sortedActive, slotsUsed.
  set (act := filter (λ d, status d.2 = "active") (contracts cl)).
  assert (filter (λ d, ¬ is_Some (todayLogs cl !! d.1)) act
          ++ filter (λ d, is_Some (todayLogs cl !! d.1)) act ≡ₚ act) as Hp.
  { rewrite Permutation_app_comm.
    rewrite <- (filter_app_complement
                  (λ d : string * Contract, is_Some (todayLogs cl !! d.1)) act)
      at 3.
    done. }
  split; [done|]. split; [by rewrite Hp|].
  intros i j d d' Hi Hj Hlt Hd.
  set (l1 := filter (λ d, ¬ is_Some (todayLogs cl !! d.1)) act) in *.
  set (l2 := filter (λ d, is_Some (todayLogs cl !! d.1)) act) in *.
  destruct (decide (i < length l1)%nat) as [Hin|Hout].
  - rewrite lookup_app_l in Hi by done.
    apply list_elem_of_lookup_2, list_elem_of_filter in Hi as [Hn _]. done.
  - rewrite lookup_app_r in Hj by lia.
    by apply list_elem_of_lookup_2, list_elem_of_filter in Hj as [Hy _].
Qed.

(** ** What one operation does to one contract *)

(** An operation leaves a contract as it is, or applies its update to it,
    or creates it, or deletes it. *)
Lemma exec_lookup uid s σ i :
  contractsCol (exec uid s σ) !! i = contractsCol σ !! i
  ∨ (∃ c u, contractsCol σ !! i = Some c ∧ stepUpdate s i c u
            ∧ contractsCol (exec uid s σ) !! i = Some (applyUpdate u c))
  ∨ (∃ d c', s_op s = OpCreate d i
             ∧ contractsCol (exec uid s σ) !! i = Some c'
             ∧ cdata c' = d ∧ status c' = "active" ∧ streak c' = Some 0
             ∧ outcome c' = None ∧ failureReason c' = None)
  ∨ (s_op s = OpDelete i ∧ contractsCol (exec uid s σ) !! i = None).
Proof.
  unfold exec.
  destruct (s_op s) as [data newId|cid st notes|cid vd|cid|cid| |] eqn:Hop.
  - (* create *)
    simpl. destruct (decide (newId = i)) as [->|Hne].
    + right. right. left. eexists _, _. split; [done|].
      rewrite lookup_insert_eq. done.
    + left. by rewrite lookup_insert_ne.
  - (* check-in *)
    destruct (findContract cid (contracts (syncedClient uid (s_clock s) σ)))
      as [d|] eqn:Hf.
    + destruct (findContract_synced _ _ _ _ _ Hf) as [Hd Hc].
      destruct d as [j c]. simpl in Hd, Hc. subst j.
      rewrite (handleCheckIn_commit _ uid _ c) by done.
      simpl. rewrite Hc. simpl.
      destruct (decide (cid = i)) as [->|Hne].
      * right. left. eexists c, _. split; [done|].
        split; [by eapply su_checkIn|]. by rewrite lookup_insert_eq.
      * left. by rewrite lookup_insert_ne.
    + left. unfold handleCheckIn. by rewrite Hf.
  - (* violation *)
    destruct (findContract cid (contracts (syncedClient uid (s_clock s) σ)))
      as [d|] eqn:Hf; [|by left].
    destruct (findContract_synced _ _ _ _ _ Hf) as [Hd Hc].
    destruct d as [j c]. simpl in Hd, Hc. subst j.
    unfold handleViolation. simpl. rewrite Hc. simpl.
    destruct (decide (cid = i)) as [->|Hne].
    + right. left. eexists c, _. split; [done|].
      split; [by eapply su_violation|]. by rewrite lookup_insert_eq.
    + left. by rewrite lookup_insert_ne.
  - (* complete *)
    destruct (findContract cid (contracts (syncedClient uid (s_clock s) σ)))
      as [d|] eqn:Hf; [|by left].
    destruct (findContract_synced _ _ _ _ _ Hf) as [Hd Hc].
    destruct d as [j c]. simpl in Hd, Hc. subst j.
    unfold handleCompleteContract. simpl. rewrite Hc. simpl.
    destruct (decide (cid = i)) as [->|Hne].
    + right. left. eexists c, _. split; [done|].
      split; [by eapply su_complete|]. by rewrite lookup_insert_eq.
    + left. by rewrite lookup_insert_ne.
  - (* delete *)
    simpl. destruct (decide (cid = i)) as [->|Hne].
    + right. right. right. split; [done|]. by rewrite lookup_delete_eq.
    + left. by rewrite lookup_delete_ne.
  - (* weekly rollover *)
    rewrite weeklyRolloverUser_lookup.
    destruct (contractsCol σ !! i) as [c|] eqn:Hc; [simpl|by left].
    destruct (isActiveWeekly c) eqn:Hq; [|by left].
    right. left. eexists c, _. split; [done|]. split; [by apply su_weekly|done].
  - (* daily auto-keep *)
    destruct (dailyAutoKeepUser_result (s_clock s) (s_ts s) σ) as (Hlk & _).
    rewrite Hlk.
    destruct (contractsCol σ !! i) as [c|] eqn:Hc; [simpl|by left].
    destruct (isAutoKeep c) eqn:Hq; [|by left].
    case_decide; [by left|].
    right. left. eexists c, _. split; [done|]. split; [by apply su_daily|done].
Qed.

(** ** Streaks never go below zero *)

Lemma stepUpdate_streak s i c u n :
  stepUpdate s i c u →
  (∀ k, streak c = Some k → (0 ≤ k)%Z) →
  streak (applyUpdate u c) = Some n → (0 ≤ n)%Z.
Proof.
  intros Hu Hc. assert (0 ≤ default 0 (streak c))%Z as Hd.
  { destruct (streak c) as [k|]; simpl; [by apply Hc|lia]. }
  destruct Hu as [st notes _|vd _| _| _ _| _ _]; simpl.
  - intros [= <-]. case_decide; lia.
  - destruct (violationUpdates_streak vd (s_ts s)) as (-> & _).
    simpl. intros [= <-]. lia.
  - intros Hs. by apply Hc.
  - intros [= <-]. rewrite orNum_0. case_bool_decide; lia.
  - intros [= <-]. rewrite orNum_0. lia.
Qed.

Lemma exec_streaksNonneg uid s σ :
  streaksNonneg σ → streaksNonneg (exec uid s σ).
Proof.
  intros Hinv i c' n Hi Hn.
  destruct (exec_lookup uid s σ i)
    as [Heq|[(c & u & Hc & Hu & Hc')|[(d & c'' & _ & Hc' & _ & _ & Hs & _)
       |[_ Hnone]]]].
  - rewrite Heq in Hi. by eapply Hinv.
  - rewrite Hc' in Hi. simplify_eq.
    eapply stepUpdate_streak; [done| |done]. intros k Hk. by eapply Hinv.
  - rewrite Hc' in Hi. injection Hi as <-. rewrite Hs in Hn.
    injection Hn as <-. lia.
  - congruence.
Qed.

(** X5. Whatever the operations and whatever contracts they are invoked on,
    a streak never becomes negative: creation starts it at 0, a check-in and
    an automatic completion add one or nothing, a violation and a missed
    week reset it to 0, a met week adds one. *)
Theorem streaks_stay_nonneg uid l σ :
  streaksNonneg σ → streaksNonneg (run uid l σ).
Proof.
  revert σ. induction l as [|s l IH]; intros σ Hinv; [done|].
  simpl. apply IH. by apply exec_streaksNonneg.
Qed.

Lemma streaks_stay_nonneg_witness :
  streaksNonneg (run "u1" sampleSteps emptyStore).
Proof.
  apply streaks_stay_nonneg. intros cid c n H. simpl in H.
  by rewrite lookup_empty in H.
Defined.

(** ** What the scheduled jobs leave alone *)

Lemma lookup_dom_eq (m m' : gmap string Contract)
    (f : string → Contract → Contract) :
  (∀ i, m' !! i = f i <$> m !! i) → dom m' = dom m.
Proof.
  intros H. apply set_eq. intros i. rewrite !elem_of_dom, H.
  destruct (m !! i); simpl; split; intros [? ?]; by eauto.
Qed.

(** X6. One run of the weekly rollover changes nothing but the streak and
    the weekly progress of the active weekly contracts of the users it
    visits: it visits every user document of the collection and no other
    user, creates and
    deletes no contract, leaves every contract that is paused, archived or
    not weekly exactly as it is, and writes no log, violation record,
    journal entry or temptation. *)
Theorem weeklyRollover_frame now db uid σ :
  db !! uid = Some σ →
  dom (weeklyRollover now db) = dom db
  ∧ ∃ σ',
      weeklyRollover now db !! uid = Some σ'
      ∧ dom (contractsCol σ') = dom (contractsCol σ)
      ∧ (∀ cid c, contractsCol σ !! cid = Some c →
                  status c ≠ "active"
                  ∨ (∀ f, frequency (cdata c) = Some f → f_type f ≠ "weekly") →
                  contractsCol σ' !! cid = Some c)
      ∧ (∀ cid c', contractsCol σ' !! cid = Some c' →
                   ∃ c, contractsCol σ !! cid = Some c
                        ∧ cdata c' = cdata c ∧ status c' = status c
                        ∧ outcome c' = outcome c
                        ∧ failureReason c' = failureReason c
                        ∧ lastCheckIn c' = lastCheckIn c
                        ∧ archivedAt c' = archivedAt c
                        ∧ userId c' = userId c ∧ createdAt c' = createdAt c
                        ∧ resistedCount c' = resistedCount c
                        ∧ lastTemptation c' = lastTemptation c)
      ∧ logsCol σ' = logsCol σ ∧ violationsCol σ' = violationsCol σ
      ∧ journalCol σ' = journalCol σ ∧ temptationsCol σ' = temptationsCol σ.
Proof.
  intros Hdb. split; [apply dom_fmap_L|].
  exists (weeklyRolloverUser now σ).
  split; [unfold weeklyRollover; by rewrite lookup_fmap, Hdb|].
  split; [|split; [|split]].
  - apply (lookup_dom_eq _ _ (λ _ c, if isActiveWeekly c
                                      then applyUpdate (rolloverUpdate (isoDate now) c) c
                                      else c)).
    intros i. apply weeklyRolloverUser_lookup.
  - intros cid c Hc Hnot. rewrite weeklyRolloverUser_lookup, Hc. simpl.
    destruct (isActiveWeekly c) eqn:Hq; [|done].
    apply isActiveWeekly_spec in Hq as (Hs & f & Hf & Hw).
    destruct Hnot as [Hn|Hn]; [done|]. by destruct (Hn f Hf).
  - intros cid c' Hc'. rewrite weeklyRolloverUser_lookup in Hc'.
    destruct (contractsCol σ !! cid) as [c|]; [simpl in Hc'|done].
    exists c. split; [done|]. simplify_eq.
    by destruct (isActiveWeekly c).
  - apply weeklyRolloverUser_lists.
Qed.

Lemma weeklyRollover_frame_witness :
  let σ := sampleStore (weeklyContract (Some 3) (Some 1) 5) [keptLog day0] in
  dom (weeklyRollover (noon day0) (sampleDb σ)) = dom (sampleDb σ).
Proof.
  cbv zeta.
  refine (proj1 (weeklyRollover_frame (noon day0) _ "u1"
                   (sampleStore (weeklyContract (Some 3) (Some 1) 5) [keptLog day0]) _)).
  reflexivity.
Defined.

(** The logs and the journal entries of the batch of the automatic
    completions: one of each for every contract of the snapshot that is not
    logged, in the order of the snapshot. *)
Lemma logsOf_autoKeepBody logged y ts docs :
  logsOf (flat_map (autoKeepBody logged y ts) docs)
  = (λ d, autoLog y ts d.1) <$> filter (λ d, d.1 ∉ logged) docs.
Proof.
  induction docs as [|d docs IH]; [done|].
  cbn [flat_map]. rewrite logsOf_app, IH, filter_cons.
  unfold autoKeepBody. destruct (decide (d.1 ∈ logged)) as [Hl|Hl].
  - by rewrite decide_False by (intros ?; done).
  - by rewrite decide_True by done.
Qed.

Lemma journalOf_autoKeepBody logged y ts docs :
  journalOf (flat_map (autoKeepBody logged y ts) docs)
  = (λ d, (d.1, autoEntry ts)) <$> filter (λ d, d.1 ∉ logged) docs.
Proof.
  induction docs as [|d docs IH]; [done|].
  cbn [flat_map]. rewrite journalOf_app, IH, filter_cons.
  unfold autoKeepBody. destruct (decide (d.1 ∈ logged)) as [Hl|Hl].
  - by rewrite decide_False by (intros ?; done).
  - by rewrite decide_True by done.
Qed.

(** The logs and the journal entries one run of the job adds for a user,
    and the contracts it updates: [added] lists the contracts of the query
    that had no log for yesterday, each one once. *)
Lemma dailyAutoKeepUser_added now ts σ :
  ∃ added : list string,
    logsCol (dailyAutoKeepUser now ts σ)
    = logsCol σ ++ (autoLog (isoDate now - 1) ts <$> added)
    ∧ journalCol (dailyAutoKeepUser now ts σ)
      = journalCol σ ++ ((λ i, (i, autoEntry ts)) <$> added)
    ∧ NoDup added
    ∧ (∀ cid, cid ∈ added
              ↔ ∃ c, contractsCol σ !! cid = Some c ∧ isAutoKeep c = true
                     ∧ ¬ ∃ l, l ∈ logsCol σ ∧ l_contractId l = cid
                              ∧ l_date l = isoDate now - 1)
    ∧ dom (contractsCol (dailyAutoKeepUser now ts σ)) = dom (contractsCol σ)
    ∧ (∀ cid c, contractsCol σ !! cid = Some c → cid ∉ added →
                contractsCol (dailyAutoKeepUser now ts σ) !! cid = Some c).
Proof.
  destruct (dailyAutoKeepUser_result now ts σ) as (Hlk & Hlogs & Hj & Hv & Ht).
  cbv zeta in Hlk, Hlogs, Hj.
  rewrite logsOf_autoKeepBody in Hlogs. rewrite journalOf_autoKeepBody in Hj.
  rewrite yesterdayOf_spec in Hlk, Hlogs, Hj.
  set (y := isoDate now - 1) in *.
  set (docs := filter (λ d, isAutoKeep d.2) (map_to_list (contractsCol σ)))
    in *.
  set (todo := filter (λ d : string * Contract, d.1 ∉ loggedContractIds y σ)
                 docs) in *.
  exists (todo.*1).
  assert (∀ cid, cid ∈ todo.*1
                 ↔ ∃ c, contractsCol σ !! cid = Some c ∧ isAutoKeep c = true
                        ∧ cid ∉ loggedContractIds y σ) as Hadded.
  { intros cid. rewrite list_elem_of_fmap. split.
    - intros ([i c] & -> & [Hn Hin]%list_elem_of_filter).
      apply snapshot_elem in Hin as [Hc Hq]. exists c.
      split; [done|]. split; [by apply Is_true_true|done].
    - intros (c & Hc & Hq & Hn). exists (cid, c). split; [done|].
      apply list_elem_of_filter. split; [done|].
      apply snapshot_elem. by rewrite Hq. }
  split; [by rewrite Hlogs, <- list_fmap_compose|].
  split; [by rewrite Hj, <- list_fmap_compose|].
  split; [|split; [|split]].
  - apply (sublist_NoDup _ docs.*1); [apply snapshot_NoDup|].
    apply fmap_sublist, sublist_filter.
  - intros cid. rewrite Hadded. unfold y.
    by setoid_rewrite loggedContractIds_spec.
  - apply (lookup_dom_eq _ _ (λ cid c,
             if isAutoKeep c
             then if decide (cid ∈ loggedContractIds y σ)
                  then c else applyUpdate (autoKeepUpdate ts c) c
             else c)).
    intros i. apply Hlk.
  - intros cid c Hc Hn. rewrite Hlk, Hc. simpl.
    destruct (isAutoKeep c) eqn:Hq; [|done].
    case_decide as Hl; [done|]. destruct Hn. apply Hadded. by exists c.
Qed.

(** X7. For a user with a user document (the users the job visits), one
    run of the daily auto-keep only adds to the logs and to the journal:
    the logs and journal entries that were there stay, in place;
    every log it adds is an automatic kept log dated yesterday for an active
    AVOID contract flagged [autoKeep] that had no log for yesterday, at most
    one per contract, and it adds exactly one journal entry per log it adds,
    for the same contract.  It creates and deletes no contract, leaves the
    contracts it writes no log for as they are, and writes no violation
    record and no temptation. *)
Theorem dailyAutoKeep_frame now ts db uid σ :
  db !! uid = Some σ →
  ∃ σ' (added : list string),
    dailyAutoKeep now ts db !! uid = Some σ'
    ∧ logsCol σ' = logsCol σ ++ (autoLog (isoDate now - 1) ts <$> added)
    ∧ journalCol σ' = journalCol σ ++ ((λ i, (i, autoEntry ts)) <$> added)
    ∧ NoDup added
    ∧ (∀ cid, cid ∈ added
              ↔ ∃ c, contractsCol σ !! cid = Some c ∧ isAutoKeep c = true
                     ∧ ¬ ∃ l, l ∈ logsCol σ ∧ l_contractId l = cid
                              ∧ l_date l = isoDate now - 1)
    ∧ dom (contractsCol σ') = dom (contractsCol σ)
    ∧ (∀ cid c, contractsCol σ !! cid = Some c → cid ∉ added →
                contractsCol σ' !! cid = Some c)
    ∧ violationsCol σ' = violationsCol σ
    ∧ temptationsCol σ' = temptationsCol σ.
Proof.
  intros Hdb.
  destruct (dailyAutoKeepUser_added now ts σ)
    as (added & Hl & Hj & Hnd & Hadded & Hdom & Hrest).
  destruct (dailyAutoKeepUser_result now ts σ) as (_ & _ & _ & Hv & Ht).
  exists (dailyAutoKeepUser now ts σ), added.
  split; [unfold dailyAutoKeep; by rewrite lookup_fmap, Hdb|].
  by repeat (split; [done|]).
Qed.

Lemma dailyAutoKeep_frame_witness :
  let σ := sampleStore (autoKeepContract 5) [] in
  ∃ σ', dailyAutoKeep (noon day0) (noon day0) (sampleDb σ) !! "u1" = Some σ'
        ∧ violationsCol σ' = violationsCol σ.
Proof.
  cbv zeta.
  destruct (dailyAutoKeep_frame (noon day0) (noon day0)
              (sampleDb (sampleStore (autoKeepContract 5) []))
              "u1" (sampleStore (autoKeepContract 5) []))
    as (σ' & added & H1 & _ & _ & _ & _ & _ & _ & H2 & _); [reflexivity|].
  by exists σ'.
Defined.

(** ** A manual report and the job of the next night *)

Lemma filter_autoLog_other y ts cid (l : list (string * Contract)) :
  (∀ d, d ∈ l → d.1 ≠ cid) →
  filter (λ x, l_contractId x = cid) ((λ d, autoLog y ts d.1) <$> l) = [].
Proof.
  induction l as [|d l IH]; intros Hall; [done|].
  rewrite fmap_cons, filter_cons.
  destruct (decide _) as [He|_].
  - exfalso. apply (Hall d); [by left|exact He].
  - apply IH. intros d' Hd'. apply Hall. by right.
Qed.

Lemma filter_autoEntry_other ts cid (l : list (string * Contract)) :
  (∀ d, d ∈ l → d.1 ≠ cid) →
  filter (λ x : string * JournalEntry, x.1 = cid)
    ((λ d, (d.1, autoEntry ts)) <$> l) = [].
Proof.
  induction l as [|d l IH]; intros Hall; [done|].
  rewrite fmap_cons, filter_cons.
  destruct (decide _) as [He|_].
  - exfalso. apply (Hall d); [by left|exact He].
  - apply IH. intros d' Hd'. apply Hall. by right.
Qed.

(** The job skips a contract that has a log dated yesterday: its document,
    its logs and its journal stay as they are. *)
Lemma logged_skipped now ts σ cid l :
  l ∈ logsCol σ → l_contractId l = cid → l_date l = isoDate now - 1 →
  let σ' := dailyAutoKeepUser now ts σ in
  contractsCol σ' !! cid = contractsCol σ !! cid
  ∧ filter (λ x, l_contractId x = cid) (logsCol σ')
    = filter (λ x, l_contractId x = cid) (logsCol σ)
  ∧ filter (λ x, x.1 = cid) (journalCol σ')
    = filter (λ x, x.1 = cid) (journalCol σ).
Proof.
  intros Hin Hid Hd σ'. subst σ'.
  destruct (dailyAutoKeepUser_result now ts σ) as (Hlk & Hlogs & Hj & _).
  cbv zeta in Hlk, Hlogs, Hj.
  rewrite logsOf_autoKeepBody in Hlogs. rewrite journalOf_autoKeepBody in Hj.
  assert (cid ∈ loggedContractIds (yesterdayOf now) σ) as Hlogged.
  { apply loggedContractIds_spec. exists l. by rewrite yesterdayOf_spec. }
  assert (∀ d : string * Contract,
            d ∈ filter (λ d : string * Contract,
                          d.1 ∉ loggedContractIds (yesterdayOf now) σ)
                  (filter (λ d, isAutoKeep d.2)
                     (map_to_list (contractsCol σ))) →
            d.1 ≠ cid) as Hother.
  { intros d [Hn _]%list_elem_of_filter He. by rewrite He in Hn. }
  split; [|split].
  - rewrite Hlk. destruct (contractsCol σ !! cid) as [c|]; [simpl|done].
    rewrite decide_True by done. by destruct (isAutoKeep c).
  - rewrite Hlogs, filter_app, filter_autoLog_other, app_nil_r; done.
  - rewrite Hj, filter_app, filter_autoEntry_other, app_nil_r; done.
Qed.

(** X8. A manual report blocks the automatic completion of the same day:
    when a check-in or a violation report written on the day of [clock]
    changed the store, the auto-keep job that runs the next day leaves the
    contract reported on as the report left it (no streak increment, also
    after a violation the user chose to continue from), and adds no log and
    no journal entry for it. *)
Theorem report_blocks_autoKeep cl cid clock ts now ts' σ σ1 :
  (∃ st notes, σ1 = handleCheckIn cl cid st notes clock ts σ)
  ∨ (∃ violationData avc,
       activeViolationContract cl = Some avc ∧ avc.1 = cid
       ∧ σ1 = (handleViolation cl violationData clock ts σ).2) →
  σ1 ≠ σ →
  isoDate now = isoDate clock + 1 →
  let σ2 := dailyAutoKeepUser now ts' σ1 in
  contractsCol σ2 !! cid = contractsCol σ1 !! cid
  ∧ filter (λ x, l_contractId x = cid) (logsCol σ2)
    = filter (λ x, l_contractId x = cid) (logsCol σ1)
  ∧ filter (λ x, x.1 = cid) (journalCol σ2)
    = filter (λ x, x.1 = cid) (journalCol σ1).
Proof.
  intros Hop Hne Hday.
  assert (∃ l, l ∈ logsCol σ1 ∧ l_contractId l = cid
               ∧ l_date l = isoDate clock) as (l & Hin & Hid & Hd).
  { destruct Hop as [(st & notes & ->)|(vd & avc & Havc & <- & ->)].
    - unfold handleCheckIn in *.
      destruct (user cl) as [uid|]; [|done].
      destruct (findContract cid (contracts cl)) as [[i c]|]; [|done].
      cbv zeta in *.
      match goal with
      | |- context [commit ?b σ] => destruct (commit b σ) as [σ'|] eqn:Hc
      end; [|done].
      apply commit_lists in Hc as (Hl & _). simpl in Hl.
      eexists. split; [rewrite Hl; apply elem_of_app; right; by left|done].
    - destruct (handleViolation_all_or_nothing cl vd clock ts σ)
        as [Heq|(avc' & c & Havc' & _ & Heq)]; [done|].
      rewrite Heq. simplify_eq. simpl.
      eexists. split; [apply elem_of_app; right; by left|done]. }
  eapply logged_skipped; [exact Hin|exact Hid|]. rewrite Hd, Hday. lia.
Qed.

Lemma report_blocks_autoKeep_witness :
  let σ := sampleStore (autoKeepContract 5) [] in
  let σ1 := handleCheckIn (syncedClient "u1" (noon day0) σ) "c1" "kept" ""
              (noon day0) (noon day0) σ in
  streak <$> contractsCol
               (dailyAutoKeepUser (noon (day0 + 1)) (noon (day0 + 1)) σ1)
             !! "c1"
  = Some (Some 6).
Proof.
  cbv zeta.
  destruct (report_blocks_autoKeep
              (syncedClient "u1" (noon day0)
                 (sampleStore (autoKeepContract 5) []))
              "c1" (noon day0) (noon day0) (noon (day0 + 1)) (noon (day0 + 1))
              (sampleStore (autoKeepContract 5) [])
              (handleCheckIn
                 (syncedClient "u1" (noon day0)
                    (sampleStore (autoKeepContract 5) []))
                 "c1" "kept" "" (noon day0) (noon day0)
                 (sampleStore (autoKeepContract 5) [])))
    as (-> & _).
  - left. by exists "kept", "".
  - intros Heq. apply (f_equal (λ s, length (logsCol s))) in Heq.
    vm_compute in Heq. discriminate.
  - reflexivity.
  - reflexivity.
Defined.

(** ** The temptation callables *)

(** A contract that differs from [c] in its count of resisted temptations
    at most. *)
Lemma resisted_only (c : Contract) k :
  applyUpdate
    {| u_status := None; u_streak := None; u_lastCheckIn := None;
       u_weeklyProgress := None; u_outcome := None; u_failureReason := None;
       u_archivedAt := None; u_resistedCountInc := Some k;
       u_lastTemptation := None |} c
  = {| cdata := cdata c; userId := userId c; status := status c;
       streak := streak c; createdAt := createdAt c;
       lastCheckIn := lastCheckIn c; weeklyProgress := weeklyProgress c;
       outcome := outcome c; failureReason := failureReason c;
       archivedAt := archivedAt c;
       resistedCount := Some (default 0 (resistedCount c) + k);
       lastTemptation := lastTemptation c |}.
Proof. by destruct c. Qed.

(** X9. What [markTemptationOutcome] can change, whatever it returns, for a
    request whose [contractId] and [temptationId] are document ids (a
    string with a [/] is a path to a document that the store does not hold,
    and the model gives no result for it).  The call writes no log,
    violation record or journal entry, creates and deletes no temptation
    and no contract, and leaves every temptation but the one named in the
    request as it is.  A contract changes in its count of resisted
    temptations at most, and that count changes only for the contract named
    in the request, by exactly one, when the call succeeds with the outcome
    [resisted].  A call that fails with a code other than [internal]
    changes nothing. *)
Theorem markTemptationOutcome_frame auth data ts σ :
  ((∀ x, od_contractId data = Some x → isDocId x = true) →
   (∀ x, od_temptationId data = Some x → isDocId x = true) →
   is_Some (markTemptationOutcome auth data ts σ))
  ∧ ∀ res σ',
      markTemptationOutcome auth data ts σ = Some (res, σ') →
      logsCol σ' = logsCol σ ∧ violationsCol σ' = violationsCol σ
      ∧ journalCol σ' = journalCol σ
      ∧ dom (temptationsCol σ') = dom (temptationsCol σ)
      ∧ dom (contractsCol σ') = dom (contractsCol σ)
      ∧ (∀ k, Some k.1 ≠ od_contractId data
              ∨ Some k.2 ≠ od_temptationId data →
              temptationsCol σ' !! k = temptationsCol σ !! k)
      ∧ (∀ cid c, contractsCol σ !! cid = Some c →
           contractsCol σ' !! cid = Some c
           ∨ (res = inr true ∧ od_outcome data = Some "resisted"
              ∧ od_contractId data = Some cid
              ∧ contractsCol σ' !! cid
                = Some {| cdata := cdata c; userId := userId c;
                          status := status c; streak := streak c;
                          createdAt := createdAt c;
                          lastCheckIn := lastCheckIn c;
                          weeklyProgress := weeklyProgress c;
                          outcome := outcome c;
                          failureReason := failureReason c;
                          archivedAt := archivedAt c;
                          resistedCount :=
                            Some (default 0 (resistedCount c) + 1);
                          lastTemptation := lastTemptation c |}))
      ∧ (∀ e, res = inl e → e ≠ internal → σ' = σ).
Proof.
  unfold markTemptationOutcome. split.
  - intros Hdc Hdt.
    destruct auth as [uid|]; [|by eexists].
    destruct (od_contractId data) as [contractId|]; [|by eexists].
    destruct (od_temptationId data) as [temptationId|]; [|by eexists].
    destruct (od_outcome data) as [out|]; [|by eexists].
    destruct (_ || _ || _); [by eexists|].
    destruct (negb _); [by eexists|].
    rewrite (Hdc contractId eq_refl), (Hdt temptationId eq_refl). simpl.
    destruct (temptationsCol σ !! (contractId, temptationId)) as [t|];
      [|by eexists].
    cbv zeta. destruct (decide (out = "resisted")); [|by eexists].
    destruct (_ !! contractId); by eexists.
  - intros res σ' H.
    destruct auth as [uid|]; [|by frame_unchanged].
    destruct (od_contractId data) as [contractId|] eqn:Hcid;
      [|by frame_unchanged].
    destruct (od_temptationId data) as [temptationId|] eqn:Htid;
      [|by frame_unchanged].
    destruct (od_outcome data) as [out|] eqn:Hout; [|by frame_unchanged].
    destruct (_ || _ || _); [by frame_unchanged|].
    destruct (negb (bool_decide _)); [by frame_unchanged|].
    destruct (negb (_ && _)); [done|].
    destruct (temptationsCol σ !! (contractId, temptationId)) as [t|] eqn:Ht.
    2:{ by frame_unchanged. }
    assert (∀ x, dom (<[(contractId, temptationId) := x]> (temptationsCol σ))
                 = dom (temptationsCol σ)) as Hdom.
    { intros x. by apply dom_insert_lookup_L. }
    assert (∀ x (k : string * string),
              Some k.1 ≠ Some contractId ∨ Some k.2 ≠ Some temptationId →
              <[(contractId, temptationId) := x]> (temptationsCol σ) !! k
              = temptationsCol σ !! k) as Hother.
    { intros x [k1 k2] Hk. apply lookup_insert_ne. intros [= -> ->].
      by destruct Hk. }
    cbv zeta in H. destruct (decide (out = "resisted")) as [->|Hrel].
    + simpl in H.
      destruct (contractsCol σ !! contractId) as [contract|] eqn:Hc.
      * simplify_eq. simpl.
        repeat split; try done; try apply Hdom; try apply Hother.
        -- by apply dom_insert_lookup_L.
        -- intros cid c Hcid'.
           destruct (decide (contractId = cid)) as [->|Hne].
           ++ right. rewrite lookup_insert_eq, resisted_only.
              by simplify_eq.
           ++ left. by rewrite lookup_insert_ne.
      * simplify_eq. simpl.
        repeat split; try done; try apply Hdom; try apply Hother.
        -- intros; by left.
        -- by intros e [= <-].
    + simplify_eq. simpl.
      repeat split; try done; try apply Hdom; try apply Hother.
      intros; by left.
Qed.

Lemma markTemptationOutcome_frame_witness :
  ∃ σ',
    markTemptationOutcome (Some "u1") (outcomeData "resisted") (noon day0)
      (temptationStore "pending")
    = Some (inr true, σ')
    ∧ logsCol σ' = [] ∧ dom (contractsCol σ') = {[ "c1" ]}.
Proof.
  destruct (markTemptationOutcome_frame (Some "u1") (outcomeData "resisted")
              (noon day0) (temptationStore "pending")) as [Hdef Hframe].
  destruct Hdef as [[res σ'] Hrun];
    [by intros x [= <-]|by intros x [= <-]|].
  destruct res as [e|[|]].
  - exfalso. revert Hrun. vm_compute. discriminate.
  - destruct (Hframe _ _ Hrun) as (Hl & _ & _ & _ & Hd & _).
    exists σ'. split; [exact Hrun|]. split; [by rewrite Hl|].
    rewrite Hd. reflexivity.
  - exfalso. revert Hrun. vm_compute. discriminate.
Defined.

(** X10. What [coachTemptation] can change, whatever it returns, for a
    request whose [contractId] is a document id (a string with a [/] is a
    path to a document that the store does not hold, and the model gives no
    result for it).  A call that fails changes nothing, and never fails
    with [not-found]: the error for a missing contract is thrown inside the
    [try] block and comes out as [internal].  A call that succeeds writes
    no log, violation record or journal entry, creates and deletes no
    contract, changes nothing of a contract but the time of its last
    temptation (the streak, the status and the count of resisted
    temptations stay), and leaves every temptation but the new one, the
    one with the generated id below the contract of the request, as it
    is. *)
Theorem coachTemptation_frame auth data ai newId ts σ :
  ((∀ x, cd_contractId data = Some x → isDocId x = true) →
   is_Some (coachTemptation auth data ai newId ts σ))
  ∧ ∀ res σ',
      coachTemptation auth data ai newId ts σ = Some (res, σ') →
      (∀ e, res = inl e → σ' = σ ∧ e ≠ not_found)
      ∧ logsCol σ' = logsCol σ ∧ violationsCol σ' = violationsCol σ
      ∧ journalCol σ' = journalCol σ
      ∧ dom (contractsCol σ') = dom (contractsCol σ)
      ∧ (∀ cid c, contractsCol σ !! cid = Some c →
           ∃ lt, contractsCol σ' !! cid
                 = Some {| cdata := cdata c; userId := userId c;
                           status := status c; streak := streak c;
                           createdAt := createdAt c;
                           lastCheckIn := lastCheckIn c;
                           weeklyProgress := weeklyProgress c;
                           outcome := outcome c;
                           failureReason := failureReason c;
                           archivedAt := archivedAt c;
                           resistedCount := resistedCount c;
                           lastTemptation := lt |})
      ∧ (∀ k, Some k.1 ≠ cd_contractId data ∨ k.2 ≠ newId →
              temptationsCol σ' !! k = temptationsCol σ !! k)
      ∧ (∀ r, res = inr r →
           r_temptationId r = newId
           ∧ ∃ cid t,
               cd_contractId data = Some cid
               ∧ temptationsCol σ' !! (cid, newId) = Some t
               ∧ t_aiResponse t = r_coaching r ∧ ai = Some (r_coaching r)
               ∧ (lastTemptation <$> contractsCol σ' !! cid)
                 = Some (Some ts)).
Proof.
  unfold coachTemptation. split.
  - intros Hdc.
    destruct auth as [uid|]; [|by eexists].
    destruct (cd_contractId data) as [contractId|]; [|by eexists].
    case_decide; [by eexists|].
    rewrite (Hdc contractId eq_refl). simpl.
    destruct (contractsCol σ !! contractId); [|by eexists].
    destruct ai; by eexists.
  - intros res σ' H.
    assert (∀ e, e ≠ not_found → Some (inl e, σ) = Some (res, σ') →
      (∀ e, res = inl e → σ' = σ ∧ e ≠ not_found)
      ∧ logsCol σ' = logsCol σ ∧ violationsCol σ' = violationsCol σ
      ∧ journalCol σ' = journalCol σ
      ∧ dom (contractsCol σ') = dom (contractsCol σ)
      ∧ (∀ cid c, contractsCol σ !! cid = Some c →
           ∃ lt, contractsCol σ' !! cid
                 = Some {| cdata := cdata c; userId := userId c;
                           status := status c; streak := streak c;
                           createdAt := createdAt c;
                           lastCheckIn := lastCheckIn c;
                           weeklyProgress := weeklyProgress c;
                           outcome := outcome c;
                           failureReason := failureReason c;
                           archivedAt := archivedAt c;
                           resistedCount := resistedCount c;
                           lastTemptation := lt |})
      ∧ (∀ k, Some k.1 ≠ cd_contractId data ∨ k.2 ≠ newId →
              temptationsCol σ' !! k = temptationsCol σ !! k)
      ∧ (∀ r, res = inr r →
           r_temptationId r = newId
           ∧ ∃ cid t,
               cd_contractId data = Some cid
               ∧ temptationsCol σ' !! (cid, newId) = Some t
               ∧ t_aiResponse t = r_coaching r ∧ ai = Some (r_coaching r)
               ∧ (lastTemptation <$> contractsCol σ' !! cid)
                 = Some (Some ts)))
      as Hsame.
    { intros e He Heq. simplify_eq. repeat split; try done.
      - by simplify_eq.
      - intros cid c Hc. exists (lastTemptation c). rewrite Hc.
        by destruct c. }
    destruct auth as [uid|]; [|by (eapply Hsame; [|exact H])].
    destruct (cd_contractId data) as [contractId|];
      [|by (eapply Hsame; [|exact H])].
    case_decide; [by (eapply Hsame; [|exact H])|].
    destruct (negb _); [done|].
    destruct (contractsCol σ !! contractId) as [contract|] eqn:Hc;
      [|by (eapply Hsame; [|exact H])].
    destruct ai as [coachingText|]; [|by (eapply Hsame; [|exact H])].
    clear Hsame. cbv zeta in H. simplify_eq. simpl.
    repeat split; try done.
    + by apply dom_insert_lookup_L.
    + intros cid c Hcid. destruct (decide (contractId = cid)) as [->|Hne].
      * rewrite lookup_insert_eq. simplify_eq. by eexists.
      * rewrite lookup_insert_ne by done. exists (lastTemptation c).
        rewrite Hcid. by destruct c.
    + intros [k1 k2] Hk. apply lookup_insert_ne. intros [= -> ->].
      by destruct Hk.
    + by simplify_eq.
    + simplify_eq. simpl. eexists contractId, _. split; [done|].
      rewrite !lookup_insert_eq. done.
Qed.

Lemma coachTemptation_frame_witness :
  ∃ r σ',
    coachTemptation (Some "u1")
      {| cd_contractId := Some "c1"; cd_context := None |}
      (Some "Drink water.") "t2" (noon day0) (temptationStore "pending")
    = Some (inr r, σ')
    ∧ temptationsCol σ' !! ("c1", "t1")
      = temptationsCol (temptationStore "pending") !! ("c1", "t1")
    ∧ r_temptationId r = "t2".
Proof.
  destruct (coachTemptation_frame (Some "u1")
              {| cd_contractId := Some "c1"; cd_context := None |}
              (Some "Drink water.") "t2" (noon day0)
              (temptationStore "pending")) as [Hdef Hframe].
  destruct Hdef as [[res σ'] Hrun]; [by intros x [= <-]|].
  destruct res as [e|r].
  - exfalso. revert Hrun. vm_compute. discriminate.
  - destruct (Hframe _ _ Hrun) as (_ & _ & _ & _ & _ & _ & Hother & Hnew).
    exists r, σ'. split; [exact Hrun|]. split.
    + apply Hother. by right.
    + by destruct (Hnew r eq_refl) as [-> _].
Defined.

(** X11. The round trip of a temptation.  After a successful
    [coachTemptation], marking the temptation it returned with an accepted
    outcome succeeds; the record then carries that outcome, the time of the
    resolution and the coaching text that was returned; and the next
    [coachTemptation] for the contract reports a count of resisted
    temptations that is one more than the first call reported when the
    outcome was [resisted], and the same when it was [relapsed]. *)
Theorem coach_then_mark auth data text newId ts σ r σ1 out ts' :
  coachTemptation auth data (Some text) newId ts σ = Some (inr r, σ1) →
  newId ≠ "" → isDocId newId = true → out ∈ ["resisted"; "relapsed"] →
  ∃ contractId σ2,
    cd_contractId data = Some contractId
    ∧ markTemptationOutcome auth
        {| od_contractId := Some contractId;
           od_temptationId := Some (r_temptationId r);
           od_outcome := Some out |} ts' σ1
      = Some (inr true, σ2)
    ∧ (∃ t, temptationsCol σ2 !! (contractId, r_temptationId r) = Some t
            ∧ t_outcome t = out ∧ t_resolvedAt t = Some ts'
            ∧ t_aiResponse t = r_coaching r)
    ∧ ∀ text' newId' ts'',
        ∃ r' σ3,
          coachTemptation auth data (Some text') newId' ts'' σ2
          = Some (inr r', σ3)
          ∧ r_resistedCount r'
            = r_resistedCount r
              + (if decide (out = "resisted") then 1 else 0).
Proof.
  unfold coachTemptation. intros H Hid Hdn Hout.
  destruct auth as [uid|]; [|done].
  destruct (cd_contractId data) as [contractId|]; [|done].
  destruct (decide (contractId = "")) as [|Hne]; [done|].
  destruct (isDocId contractId) eqn:Hdc; [|done].
  simpl in H.
  destruct (contractsCol σ !! contractId) as [contract|] eqn:Hc; [|done].
  cbv zeta in H. simplify_eq. simpl.
  assert (out ≠ "") as Hout'.
  { intros ->. apply elem_of_cons in Hout as [?|Hout]; [done|].
    by apply list_elem_of_singleton in Hout. }
  exists contractId. unfold markTemptationOutcome. simpl.
  rewrite !bool_decide_eq_false_2 by done. simpl.
  rewrite bool_decide_eq_true_2 by done. simpl.
  rewrite Hdc, Hdn. simpl.
  rewrite ?lookup_insert_eq. rewrite !orNum_0.
  destruct (decide (out = "resisted")) as [->|Hrel].
  - rewrite ?lookup_insert_eq. eexists. split; [reflexivity|].
    split; [reflexivity|].
    unfold withContracts, withTemptations. simpl.
    split; [rewrite lookup_insert_eq; by eexists|].
    intros text' newId' ts''. rewrite lookup_insert_eq.
    do 2 eexists. split; [reflexivity|]. simpl. case_decide; lia.
  - eexists. split; [reflexivity|]. split; [reflexivity|].
    unfold withContracts, withTemptations. simpl.
    split; [rewrite lookup_insert_eq; by eexists|].
    intros text' newId' ts''. rewrite lookup_insert_eq.
    do 2 eexists. split; [reflexivity|]. simpl. rewrite ?orNum_0. lia.
Qed.

Lemma coach_then_mark_witness :
  ∃ σ2,
    markTemptationOutcome (Some "u1")
      {| od_contractId := Some "c1"; od_temptationId := Some "t2";
         od_outcome := Some "resisted" |} (noon day0 + 1)
      (default (temptationStore "pending")
         (snd <$> coachTemptation (Some "u1")
                    {| cd_contractId := Some "c1"; cd_context := None |}
                    (Some "Drink water.") "t2" (noon day0)
                    (temptationStore "pending")))
    = Some (inr true, σ2).
Proof.
  destruct (coach_then_mark (Some "u1")
              {| cd_contractId := Some "c1"; cd_context := None |}
              "Drink water." "t2" (noon day0) (temptationStore "pending")
              {| r_temptationId := "t2"; r_coaching := "Drink water.";
                 r_resistedCount := 0 |}
              (default (temptationStore "pending")
                 (snd <$> coachTemptation (Some "u1")
                            {| cd_contractId := Some "c1";
                               cd_context := None |}
                            (Some "Drink water.") "t2" (noon day0)
                            (temptationStore "pending")))
              "resisted" (noon day0 + 1))
    as (cid & σ2 & [= <-] & Hm & _); [reflexivity|done|reflexivity|by left|].
  by exists σ2.
Defined.

(** ** Sessions that go through the dashboard *)



















Lemma twoDays_offered :
  sessionSteps "u1" (sampleStore (autoKeepContract 5) []) twoDays
    (run "u1" (snd <$> twoDays) (sampleStore (autoKeepContract 5) [])).
Proof.
  eapply sessionSteps_cons; [split; [elem_compute|exact I]|].
  eapply sessionSteps_cons; [by split|].
  eapply sessionSteps_cons; [split; [elem_compute|exact I]|].
  eapply sessionSteps_cons; [split; [exact I|by split]|].
  eapply sessionSteps_cons; [split; [elem_compute|exact I]|].
  eapply sessionSteps_cons; [by split|].
  apply sessionSteps_nil.
Qed.


(** Without that condition the property fails: in a session opened the day
    before and left open, the check-in button is still there after the
    first click of the new day, and the second click writes a second log
    for the same contract and day. *)
Lemma left_open_logs_twice :
  sessionSteps "u1" (sampleStore (autoKeepContract 5) []) leftOpen
    (run "u1" (snd <$> leftOpen) (sampleStore (autoKeepContract 5) []))
  ∧ logKey <$> logsCol (run "u1" (snd <$> leftOpen)
                          (sampleStore (autoKeepContract 5) []))
    = [("c1", day0); ("c1", day0)]
  ∧ ¬ Forall reportedSameDay leftOpen.
Proof.
  split; [|split].
  - eapply sessionSteps_cons; [split; [elem_compute|exact I]|].
    eapply sessionSteps_cons; [split; [elem_compute|exact I]|].
    apply sessionSteps_nil.
  - reflexivity.
  - intros [H _]%Forall_cons. vm_compute in H. discriminate H.
Qed.

(** ** Voiding a contract *)

Lemma exec_absent uid s σ cid :
  contractsCol σ !! cid = None → (∀ d, s_op s ≠ OpCreate d cid) →
  contractsCol (exec uid s σ) !! cid = None.
Proof.
  intros Hnone Hop.
  destruct (exec_lookup uid s σ cid)
    as [Heq|[(c & u & Hc & _)|[(d & c' & Hd & _)|[_ Hdel]]]].
  - by rewrite Heq.
  - congruence.
  - by destruct (Hop d).
  - done.
Qed.

Lemma run_absent uid l : ∀ σ cid,
  contractsCol σ !! cid = None →
  (∀ s d, s ∈ l → s_op s ≠ OpCreate d cid) →
  contractsCol (run uid l σ) !! cid = None.
Proof.
  induction l as [|s l IH]; intros σ cid Hnone Hops; [done|].
  simpl. apply IH.
  - apply exec_absent; [done|]. intros d. apply Hops. by left.
  - intros s' d Hin. apply Hops. by right.
Qed.

(** X15. Voiding a contract.  A confirmed deletion removes the document of
    the contract and nothing else: the other contracts stay, and so do the
    logs, the violation records, the journal entries and the temptations of
    the voided contract.  From then on a check-in, a violation report or a
    completion for it, from whatever client still shows its card, writes
    nothing (the violation report leaves no violation record and no log
    either), and no later operation or job brings the document back. *)
Theorem void_is_final cl uid contractId σ :
  user cl = Some uid →
  let σ' := handleDeleteContract cl contractId true σ in
  contractsCol σ' = delete contractId (contractsCol σ)
  ∧ logsCol σ' = logsCol σ ∧ violationsCol σ' = violationsCol σ
  ∧ journalCol σ' = journalCol σ ∧ temptationsCol σ' = temptationsCol σ
  ∧ (∀ cl' st notes clock ts,
       handleCheckIn cl' contractId st notes clock ts σ' = σ')
  ∧ (∀ cl' c violationData clock ts,
       activeViolationContract cl' = Some (contractId, c) →
       (handleViolation cl' violationData clock ts σ').2 = σ')
  ∧ (∀ cl' c ts, handleCompleteContract cl' (contractId, c) ts σ' = σ')
  ∧ (∀ l, (∀ s d, s ∈ l → s_op s ≠ OpCreate d contractId) →
          contractsCol (run uid l σ') !! contractId = None).
Proof.
  intros Hu σ'. subst σ'. unfold handleDeleteContract. rewrite Hu.
  set (σ' := withContracts (delete contractId (contractsCol σ)) σ).
  assert (contractsCol σ' !! contractId = None) as Hnone.
  { apply lookup_delete_eq. }
  repeat split; try done.
  - intros cl' st notes clock ts. unfold handleCheckIn.
    destruct (user cl'); [|done].
    destruct (findContract contractId (contracts cl')) as [[j c]|]; [|done].
    cbv zeta.
    match goal with
    | |- context [commit ?b σ'] => rewrite (commit_None b σ' contractId)
    end; [done| |done]. simpl. by left.
  - intros cl' c vd clock ts Havc.
    destruct (handleViolation_all_or_nothing cl' vd clock ts σ')
      as [Heq|(avc & c' & Havc' & Hc' & _)]; [done|].
    rewrite Havc in Havc'. injection Havc' as <-. cbn [fst] in Hc'.
    by rewrite Hnone in Hc'.
  - intros cl' c ts. unfold handleCompleteContract.
    destruct (user cl'); [|done].
    rewrite (commit_None _ σ' contractId); [done| |done]. simpl. by left.
  - intros l Hops. by apply run_absent.
Qed.

Lemma void_is_final_witness :
  contractsCol
    (run "u1" (snd <$> someMoves)
       (handleDeleteContract
          (syncedClient "u1" (noon day0)
             (sampleStore (sampleContract None 5) [keptLog day0]))
          "c1" true (sampleStore (sampleContract None 5) [keptLog day0])))
  !! "c1" = None.
Proof.
  destruct (void_is_final
              (syncedClient "u1" (noon day0)
                 (sampleStore (sampleContract None 5) [keptLog day0]))
              "u1" "c1"
              (sampleStore (sampleContract None 5) [keptLog day0]) eq_refl)
    as (_ & _ & _ & _ & _ & _ & _ & _ & Hrun).
  apply Hrun. intros s d Hin Hop.
  repeat (apply elem_of_cons in Hin as [->|Hin]; [discriminate Hop|]).
  by apply elem_of_nil in Hin.
Defined.

(** ** The figures of the review and the ledger *)

(** X16. The best streak of the review is the greatest streak of the
    contracts, counting a missing streak as zero, and zero when there is no
    contract or no positive streak: it is never negative, no contract has a
    greater streak, and it is zero or the streak of one of the contracts. *)
Theorem bestStreak_is_max cs :
  (0 ≤ bestStreak cs)%Z
  ∧ (∀ d, d ∈ cs → (orNum (streak d.2) 0 ≤ bestStreak cs)%Z)
  ∧ (bestStreak cs = 0
     ∨ ∃ d, d ∈ cs ∧ streak d.2 = Some (bestStreak cs)).
Proof.
  unfold bestStreak. induction cs as [|d cs (IH0 & IHle & IHat)].
  - split; [done|]. split; [|by left]. intros d Hd.
    by apply elem_of_nil in Hd.
  - rewrite fmap_cons. cbn [foldr]. split; [lia|]. split.
    + intros d' [->|Hin]%elem_of_cons; [lia|].
      specialize (IHle d' Hin). lia.
    + destruct (Z.max_spec (orNum (streak d.2) 0)
                  (foldr Z.max 0 ((λ d, orNum (streak d.2) 0) <$> cs)))
        as [[_ ->]|[_ ->]].
      * destruct IHat as [?|(d' & Hin & Hs)]; [by left|].
        right. exists d'. split; [by right|done].
      * rewrite orNum_0. destruct (streak d.2) as [n|] eqn:Hs; simpl.
        -- right. exists d. split; [by left|done].
        -- by left.
Qed.

(** X17. When the contract documents obey the two consistency rules, every
    breached contract the review counts is in the ledger, so the review
    never counts more breached contracts than the ledger lists, and none of
    them is counted as active. *)
Theorem breached_in_ledger σ :
  storeInv σ →
  let cs := map_to_list (contractsCol σ) in
  (∀ d, d ∈ cs → outcome d.2 = Some "breached" → d ∈ ledger cs)
  ∧ (totalBreached cs ≤ length (ledger cs))%nat
  ∧ (∀ d, d ∈ reviewActive cs → outcome d.2 = None).
Proof.
  intros Hinv cs.
  assert (∀ d, d ∈ cs → contractInv d.2) as Hall.
  { intros [i c] Hd. apply elem_of_map_to_list in Hd. by eapply Hinv. }
  assert (∀ d, d ∈ cs → outcome d.2 = Some "breached" →
               status d.2 = "archived") as Harch.
  { intros d Hd Ho. destruct (Hall d Hd) as [Hout _]. apply Hout.
    by rewrite Ho. }
  split; [|split].
  - intros d Hd Ho. apply list_elem_of_filter. split; [|done].
    by apply Harch.
  - unfold totalBreached, ledger. apply submseteq_length, sublist_submseteq.
    clear Hall. induction cs as [|d cs IH]; [done|].
    rewrite !filter_cons.
    destruct (decide (outcome d.2 = Some "breached")) as [Ho|Ho].
    + rewrite decide_True by (apply Harch; [by left|done]).
      apply sublist_skip, IH. intros d' Hd'. apply Harch. by right.
    + assert (filter (λ d, outcome d.2 = Some "breached") cs
              `sublist_of` filter (λ d, status d.2 = "archived") cs) as IH'.
      { apply IH. intros d' Hd'. apply Harch. by right. }
      destruct (decide (status d.2 = "archived")); [by apply sublist_cons|].
      done.
  - intros d [Hs Hd]%list_elem_of_filter.
    destruct (Hall d Hd) as [Hout _].
    destruct (outcome d.2) as [o|] eqn:Ho; [|done].
    assert (status d.2 = "archived") as Ha by (apply Hout; by eexists).
    congruence.
Qed.

Lemma breached_in_ledger_witness :
  (totalBreached (map_to_list (contractsCol retiredStore))
   ≤ length (ledger (map_to_list (contractsCol retiredStore))))%nat.
Proof.
  refine (proj1 (proj2 (breached_in_ledger retiredStore _))).
  intros cid c Hc. apply elem_of_map_to_list, list_elem_of_In in Hc.
  vm_compute in Hc. destruct Hc as [[= <- <-]|[]].
  split; split; simpl; intros H; done.
Defined.

(** ** The exception list of the creation form *)

Lemma elem_of_delete_list {A} (l : list A) i x :
  x ∈ delete i l → x ∈ l.
Proof.
  revert i. induction l as [|y l IH]; intros [|i]; simpl; try done.
  - by right.
  - intros [->|Hin]%elem_of_cons; [by left|]. right. by eapply IH.
Qed.

Lemma length_delete_le {A} (l : list A) i :
  (length (delete i l) ≤ length l)%nat.
Proof.
  revert i. induction l as [|y l IH]; intros [|i]; simpl; try lia.
  specialize (IH i). lia.
Qed.

(** X18. The exception list of the creation form, under any sequence of
    typing, adding and removing: it never gets longer than
    [MAX_EXCEPTIONS], and it never holds an empty entry (an input that
    trims to the empty string is what the [Add] button ignores), when it
    started that way. *)
Theorem exceptions_capped trim es f :
  (length (exceptions (formData f)) ≤ MAX_EXCEPTIONS)%nat →
  (∀ x, x ∈ exceptions (formData f) → x ≠ "") →
  (length (exceptions (formData (formRun trim es f))) ≤ MAX_EXCEPTIONS)%nat
  ∧ (∀ x, x ∈ exceptions (formData (formRun trim es f)) → x ≠ "").
Proof.
  revert f. induction es as [|e es IH]; intros f Hlen Hne; [done|].
  simpl. apply IH; destruct e as [text| |index]; simpl; try done.
  - unfold addException. repeat case_decide; simpl; try done.
    rewrite length_app. simpl. lia.
  - pose proof (length_delete_le (exceptions (formData f)) index). lia.
  - unfold addException. repeat case_decide; simpl; try done.
    intros x [Hx| ->%list_elem_of_singleton]%elem_of_app; [by apply Hne|done].
  - intros x Hx%elem_of_delete_list. by apply Hne.
Qed.

Lemma exceptions_capped_witness :
  (length (exceptions (formData
     (formRun trimSample [EvAdd; EvType " "; EvAdd; EvRemove 3] sampleForm)))
   ≤ MAX_EXCEPTIONS)%nat.
Proof.
  refine (proj1 (exceptions_capped trimSample
                   [EvAdd; EvType " "; EvAdd; EvRemove 3] sampleForm _ _)).
  - vm_compute. lia.
  - intros x Hx. apply list_elem_of_In in Hx. vm_compute in Hx.
    repeat (destruct Hx as [<-|Hx]; [done|]). done.
Defined.

(** ** The journal and its replies *)

(** X19. A journal entry typed in the modal.  A blank input writes nothing
    and stays in the field.  Any other input, for a signed-in user, adds
    exactly one entry at the end of the journal, for the contract the modal
    is open on, of type [manual] and with the trimmed, non-empty text, and
    clears the field; the contracts, the logs, the violation records and the
    temptations are not touched, and the entries that were there stay. *)
Theorem handleAddLog_effect trim user contract newLog ts σ :
  (trim newLog = "" → handleAddLog trim user contract newLog ts σ = (σ, newLog))
  ∧ (trim newLog ≠ "" → is_Some user →
     ∃ σ' e,
       handleAddLog trim user contract newLog ts σ = (σ', "")
       ∧ journalCol σ' = journalCol σ ++ [(contract.1, e)]
       ∧ j_text e = trim newLog ∧ j_text e ≠ "" ∧ j_type e = "manual"
       ∧ j_createdAt e = ts
       ∧ contractsCol σ' = contractsCol σ ∧ logsCol σ' = logsCol σ
       ∧ violationsCol σ' = violationsCol σ
       ∧ temptationsCol σ' = temptationsCol σ).
Proof.
  unfold handleAddLog. split.
  - intros Hb. by rewrite decide_True.
  - intros Hb [uid ->]. rewrite decide_False by done. simpl.
    eexists _, _. split; [reflexivity|]. simpl. by rewrite ?app_nil_r.
Qed.

Lemma handleAddLog_effect_witness :
  ∃ σ', handleAddLog trimSample (Some "u1") ("c1", sampleContract None 5)
          "Day one" (noon day0) (sampleStore (sampleContract None 5) [])
        = (σ', "").
Proof.
  destruct (proj2 (handleAddLog_effect trimSample (Some "u1")
                     ("c1", sampleContract None 5) "Day one" (noon day0)
                     (sampleStore (sampleContract None 5) [])))
    as (σ' & e & H & _); [done|by eexists|].
  by exists σ'.
Defined.

(** The texts handed to the model as context come from the snapshot. *)
Lemma contextEntries_elem entryId snap t :
  t ∈ contextEntries entryId snap →
  ∃ d, d ∈ snap ∧ d.1 ≠ entryId ∧ j_type d.2 = "manual" ∧ j_text d.2 = t.
Proof.
  unfold contextEntries. cbv zeta. rewrite elem_of_reverse.
  intros Hin. apply (subseteq_take 5) in Hin.
  apply list_elem_of_fmap in Hin as (d & -> & Hd).
  apply list_elem_of_filter in Hd as [[Hid Hty] Hd]. by exists d.
Qed.

(** X20. The context of a reply: from the recent entries the query returns,
    the model is shown at most five texts, each the text of a manual entry
    other than the new one (never the new entry itself, never an automatic
    entry), oldest first: the reverse of the order of the query.  When the
    query returns at most six entries, all the manual ones but the new one
    are shown. *)
Theorem contextEntries_spec entryId snap :
  (length (contextEntries entryId snap) ≤ 5)%nat
  ∧ (∀ t, t ∈ contextEntries entryId snap →
          ∃ d, d ∈ snap ∧ d.1 ≠ entryId ∧ j_type d.2 = "manual"
               ∧ j_text d.2 = t)
  ∧ reverse (contextEntries entryId snap)
    `prefix_of` (λ d, j_text d.2)
                <$> filter (λ d, d.1 ≠ entryId ∧ j_type d.2 = "manual") snap
  ∧ ((length snap ≤ 6)%nat → (∃ e, (entryId, e) ∈ snap) →
     ∀ d, d ∈ snap → d.1 ≠ entryId → j_type d.2 = "manual" →
          j_text d.2 ∈ contextEntries entryId snap).
Proof.
  split; [|split; [|split]].
  - unfold contextEntries. cbv zeta. rewrite length_reverse, length_take. lia.
  - apply contextEntries_elem.
  - unfold contextEntries. cbv zeta. rewrite reverse_involutive.
    apply prefix_take.
  - intros Hlen [e He] d Hd Hid Hty.
    unfold contextEntries. cbv zeta. rewrite elem_of_reverse.
    rewrite take_ge.
    + apply list_elem_of_fmap. exists d. split; [done|].
      by apply list_elem_of_filter.
    + rewrite length_fmap.
      assert (length (filter (λ d : string * JournalEntry,
                                d.1 ≠ entryId ∧ j_type d.2 = "manual") snap)
              < length snap)%nat; [|lia].
      clear Hlen d Hd Hid Hty.
      induction snap as [|d snap IH]; [by apply elem_of_nil in He|].
      rewrite filter_cons. apply elem_of_cons in He as [<-|He].
      * rewrite decide_False by (simpl; tauto). simpl.
        pose proof (length_filter
                      (λ d : string * JournalEntry,
                         d.1 ≠ entryId ∧ j_type d.2 = "manual") snap).
        lia.
      * specialize (IH He). case_decide; simpl; lia.
Qed.

Lemma contextEntries_spec_witness :
  "Hard evening" ∈ contextEntries "e4" sampleEntries.
Proof.
  destruct (contextEntries_spec "e4" sampleEntries) as (_ & _ & _ & Hall).
  apply (Hall ltac:(simpl; lia)
           ltac:(eexists; apply list_elem_of_In; simpl; left; reflexivity)
           ("e2", {| j_text := "Hard evening"; j_createdAt := noon day0 + 1;
                     j_type := "manual" |})).
  - elem_compute.
  - done.
  - done.
Defined.

(** X21. Which journal entries get a reply.  The trigger writes a reply
    only for a manual entry that has none yet, whose contract exists, and
    only when the model returns a text; the reply carries that text.  The
    entries the auto-keep job writes never get a reply, and an entry typed
    in the journal modal gets one whenever its contract exists and the
    model answers. *)
Theorem reply_only_to_manual snapshot contractId entryId snap ai ts σ :
  (∀ r, onJournalEntryCreated snapshot contractId entryId snap ai ts σ
        = Some r →
        ∃ entryData c prompt,
          snapshot = Some entryData
          ∧ j_type (e_entry entryData) = "manual"
          ∧ e_aiReply entryData = None
          ∧ contractsCol σ !! contractId = Some c
          ∧ ai prompt = Some (ar_text r) ∧ ar_createdAt r = ts
          ∧ p_entry prompt = j_text (e_entry entryData)
          ∧ p_recent prompt = contextEntries entryId snap)
  ∧ (∀ now ts0 σ0 d,
       d ∈ journalCol (dailyAutoKeepUser now ts0 σ0) →
       d ∉ journalCol σ0 →
       onJournalEntryCreated (Some {| e_entry := d.2; e_aiReply := None |})
         d.1 entryId snap ai ts σ
       = None)
  ∧ (∀ trim user contract newLog ts0 σ0 σ1 rest c,
       handleAddLog trim user contract newLog ts0 σ0 = (σ1, rest) →
       σ1 ≠ σ0 → contractsCol σ !! contract.1 = Some c →
       (∀ p, is_Some (ai p)) →
       ∃ d, last (journalCol σ1) = Some d
            ∧ is_Some (onJournalEntryCreated
                         (Some {| e_entry := d.2; e_aiReply := None |})
                         d.1 entryId snap ai ts σ)).
Proof.
  split; [|split].
  - intros r. unfold onJournalEntryCreated.
    destruct snapshot as [entryData|]; [|done].
    destruct (decide (j_type (e_entry entryData) ≠ "manual")) as [|Hty];
      [done|].
    destruct (decide (is_Some (e_aiReply entryData))) as [|Hre]; [done|].
    destruct (contractsCol σ !! contractId) as [c|]; [|done].
    cbv zeta.
    match goal with
    | |- context [ai ?p] => destruct (ai p) as [replyText|] eqn:Hai
    end; [|done].
    intros [= <-]. eexists entryData, c, _.
    split; [done|]. split; [by apply dec_stable|].
    split; [by apply eq_None_not_Some|]. by split.
  - intros now ts0 σ0 d Hd Hnew.
    destruct (dailyAutoKeepUser_added now ts0 σ0) as (added & _ & Hj & _).
    rewrite Hj in Hd. apply elem_of_app in Hd as [Hd|Hd]; [done|].
    apply list_elem_of_fmap in Hd as (i & -> & _). done.
  - intros trim user contract newLog ts0 σ0 σ1 rest c Hadd Hne Hc Hai.
    unfold handleAddLog in Hadd.
    destruct (decide (trim newLog = "")); [by simplify_eq|].
    destruct user as [uid|]; [|by simplify_eq].
    simpl in Hadd. injection Hadd as <- <-. simpl.
    eexists. split; [apply last_snoc|]. simpl. rewrite Hc.
    cbv zeta. 
    match goal with
    | |- context [ai ?p] => destruct (Hai p) as [t ->]
    end. by eexists.
Qed.

Lemma reply_only_to_manual_witness :
  ∃ d, last (journalCol
               (handleAddLog trimSample (Some "u1")
                  ("c1", sampleContract None 5) "Day one" (noon day0)
                  (sampleStore (sampleContract None 5) [])).1)
       = Some d
       ∧ is_Some (onJournalEntryCreated
                    (Some {| e_entry := d.2; e_aiReply := None |}) d.1 "e1" []
                    sampleModel (noon day0 + 1)
                    (sampleStore (sampleContract None 5) [])).
Proof.
  destruct (reply_only_to_manual None "c1" "e1" [] sampleModel (noon day0 + 1)
              (sampleStore (sampleContract None 5) []))
    as (_ & _ & Hadd).
  apply (Hadd trimSample (Some "u1") ("c1", sampleContract None 5) "Day one"
           (noon day0) (sampleStore (sampleContract None 5) []) _ ""
           (sampleContract None 5)).
  - reflexivity.
  - intros Heq. apply (f_equal (λ s, length (journalCol s))) in Heq.
    vm_compute in Heq. discriminate.
  - reflexivity.
  - intros p. by eexists.
Defined.

(** ** Briefings *)

Lemma alreadySent_saved timeOfDay b userData now :
  b_timestamp b = Some now →
  ∀ now', isoDate now' = isoDate now →
  alreadySent (saveBriefing timeOfDay b userData) timeOfDay now' = true.
Proof.
  intros Hb now' Hday. unfold alreadySent, saveBriefing. simpl.
  rewrite lookup_insert_eq, Hb. by apply bool_decide_eq_true_2.
Qed.

(** X22. One briefing per slot and day.  When a run of
    [processUserBriefing] saved a briefing or sent a notification, a later
    run for the same slot on the day of the saved timestamp does nothing:
    the document stays and no notification is sent, whatever the model
    would answer.  This also holds when the first run saved the briefing but
    the messaging service refused the notification: it is not sent again
    that day. *)
Theorem briefing_once_a_day userData timeOfDay now ts nt it sendOk σ
    now' ts' nt' it' sendOk' σ' :
  let r := processUserBriefing userData timeOfDay now ts nt it sendOk σ in
  r.1 ≠ userData ∨ is_Some r.2 →
  isoDate now' = isoDate ts →
  processUserBriefing r.1 timeOfDay now' ts' nt' it' sendOk' σ' = (r.1, None).
Proof.
  intros r Hdid Hday.
  assert (alreadySent r.1 timeOfDay now' = true) as Hsent.
  { subst r. unfold processUserBriefing in *.
    destruct (alreadySent userData timeOfDay now);
      [by destruct Hdid as [?|[? ?]]|].
    destruct (filter _ _); [by destruct Hdid as [?|[? ?]]|].
    destruct nt as [nt|]; [|by destruct Hdid as [?|[? ?]]].
    destruct it as [it|]; [|by destruct Hdid as [?|[? ?]]].
    cbv zeta.
    destruct (fcmToken userData); [destruct sendOk|];
      by apply (alreadySent_saved _ _ _ ts). }
  unfold processUserBriefing at 1. by rewrite Hsent.
Qed.

Lemma briefing_once_a_day_witness :
  let r := processUserBriefing sampleUser "morning" (noon day0) (noon day0 + 5)
             (Some "Hold the line.") (Some "Three contracts today.") false
             (sampleStore (sampleContract None 5) []) in
  processUserBriefing r.1 "morning" (noon day0 + 3600000) (noon day0 + 3600005)
    (Some "Again.") (Some "Again.") true
    (sampleStore (sampleContract None 5) [])
  = (r.1, None).
Proof.
  apply (briefing_once_a_day sampleUser "morning" (noon day0) (noon day0 + 5)
           (Some "Hold the line.") (Some "Three contracts today.") false
           (sampleStore (sampleContract None 5) [])).
  - left. intros Heq. apply (f_equal dailyBriefing) in Heq.
    vm_compute in Heq. discriminate.
  - reflexivity.
Defined.

(** X23. What a briefing run can change and send.  It never changes the
    token and never touches the other slot.  It sends at most one
    notification, to the token of the user document, and only after the
    briefing of the slot is saved with the text of the notification, the
    server time and [archived] false.  For a user without an active
    contract, and when either call of the model fails, it saves and sends
    nothing. *)
Theorem briefing_frame userData timeOfDay now ts nt it sendOk σ :
  let r := processUserBriefing userData timeOfDay now ts nt it sendOk σ in
  fcmToken r.1 = fcmToken userData
  ∧ (∀ slot, slot ≠ timeOfDay →
       dailyBriefing r.1 ≫= (λ m, m !! slot)
       = dailyBriefing userData ≫= (λ m, m !! slot))
  ∧ (∀ n, r.2 = Some n →
       fcmToken userData = Some (n_token n) ∧ nt = Some (n_body n)
       ∧ sendOk = true
       ∧ ∃ b, dailyBriefing r.1 ≫= (λ m, m !! timeOfDay) = Some b
              ∧ b_notificationText b = n_body n ∧ it = Some (b_text b)
              ∧ b_timestamp b = Some ts ∧ b_archived b = false)
  ∧ (activeCount σ = 0%nat ∨ nt = None ∨ it = None → r = (userData, None)).
Proof.
  intros r. subst r. unfold processUserBriefing, activeCount.
  destruct (alreadySent userData timeOfDay now).
  { repeat split; done. }
  destruct (filter _ (map_to_list (contractsCol σ))) as [|d0 docs].
  { repeat split; done. }
  destruct nt as [nt|]; [|by repeat split].
  destruct it as [it|]; [|by repeat split].
  cbv zeta.
  assert (∀ slot, slot ≠ timeOfDay →
            dailyBriefing
              (saveBriefing timeOfDay
                 {| b_text := it; b_notificationText := nt;
                    b_timestamp := Some ts; b_archived := false |} userData)
            ≫= (λ m, m !! slot)
            = dailyBriefing userData ≫= (λ m, m !! slot)) as Hother.
  { intros slot Hne. simpl. rewrite lookup_insert_ne by done.
    by destruct (dailyBriefing userData). }
  destruct (fcmToken userData) as [token|] eqn:Htok; [destruct sendOk|];
    simpl; (split; [done|]); (split; [exact Hother|]);
    (split; [|intros [Hl|[?|?]]; done]); intros n Hn; try done.
  injection Hn as <-. simpl. repeat split; try done.
  eexists. rewrite lookup_insert_eq. by repeat split.
Qed.

Lemma briefing_frame_witness :
  ∃ b, dailyBriefing
         (processUserBriefing sampleUser "evening" (noon day0) (noon day0 + 5)
            (Some "Hold the line.") (Some "Three contracts today.") true
            (sampleStore (sampleContract None 5) [])).1
       ≫= (λ m, m !! "evening") = Some b
       ∧ b_notificationText b = "Hold the line.".
Proof.
  destruct (briefing_frame sampleUser "evening" (noon day0) (noon day0 + 5)
              (Some "Hold the line.") (Some "Three contracts today.") true
              (sampleStore (sampleContract None 5) []))
    as (_ & _ & Hsent & _).
  destruct (Hsent {| n_token := "token-1"; n_title := "Evening Reflection";
                     n_body := "Hold the line." |})
    as (_ & _ & _ & b & Hb & Hn & _); [reflexivity|].
  by exists b.
Defined.

(** X24. The answers of the manual trigger.  It answers 400 and does
    nothing without a [uid]; 500 and does nothing when the read of the user
    document throws (a [uid] that is not the path of a document, a failed
    read); 404 when the read returns and there is no document; and 200 with
    [success] when the read returns a document: also when the briefing of
    the day was already there and nothing was saved or sent.  Without a
    [time] parameter, or with an empty one, it runs the morning briefing,
    else the briefing of the slot named. *)
Theorem triggerBriefing_status uid time readOk userDoc now ts nt it sendOk σ :
  let r := triggerBriefing uid time readOk userDoc now ts nt it sendOk σ in
  (falsyStr uid = true → r = (400, userDoc, None))
  ∧ (falsyStr uid = false → readOk = false → r = (500, userDoc, None))
  ∧ (falsyStr uid = false → readOk = true → userDoc = None →
     r = (404, None, None))
  ∧ (falsyStr uid = false → readOk = true →
     ∀ userData, userDoc = Some userData →
       r.1.1 = 200
       ∧ ∃ timeOfDay,
           (falsyStr time = true → timeOfDay = "morning")
           ∧ (falsyStr time = false → time = Some timeOfDay)
           ∧ (r.1.2, r.2)
             = (Some (processUserBriefing userData timeOfDay now ts nt it
                        sendOk σ).1,
                (processUserBriefing userData timeOfDay now ts nt it sendOk
                   σ).2)
           ∧ (alreadySent userData timeOfDay now = true →
              r = (200, Some userData, None)))
  ∧ (r.1.1 = 200
     ↔ falsyStr uid = false ∧ readOk = true ∧ is_Some userDoc).
Proof.
  intros r. subst r. unfold triggerBriefing.
  split; [by intros ->|]. split; [by intros -> ->|].
  split; [by intros -> -> ->|]. split.
  - intros -> -> userData ->. cbv zeta. simpl. split; [done|].
    set (timeOfDay := match time with
                      | Some t => orStr t "morning"
                      | None => "morning"
                      end).
    exists timeOfDay. split; [|split; [|split]].
    + subst timeOfDay. destruct time as [t|]; simpl; [|done].
      intros ->%bool_decide_eq_true. done.
    + subst timeOfDay. destruct time as [t|]; simpl; [|done].
      intros Hne%bool_decide_eq_false. unfold orStr.
      by rewrite decide_False.
    + done.
    + intros Hsent. unfold processUserBriefing. by rewrite Hsent.
  - destruct (falsyStr uid); simpl.
    { split; [done|]. by intros [? _]. }
    destruct readOk; simpl.
    2:{ split; [done|]. by intros (_ & ? & _). }
    destruct userDoc as [userData|]; simpl.
    + split; [by eauto|done].
    + split; [done|]. by intros (_ & _ & [? ?]).
Qed.

Lemma triggerBriefing_status_witness :
  (triggerBriefing (Some "u1") None true (Some sampleUser) (noon day0)
     (noon day0) None None false (sampleStore (sampleContract None 5) [])).1.1
  = 200
  ∧ (triggerBriefing (Some "a/b") None false None (noon day0)
       (noon day0) None None false emptyStore).1.1
    = 500.
Proof.
  destruct (triggerBriefing_status (Some "u1") None true (Some sampleUser)
              (noon day0) (noon day0) None None false
              (sampleStore (sampleContract None 5) []))
    as (_ & _ & _ & Hok & _).
  destruct (triggerBriefing_status (Some "a/b") None false None
              (noon day0) (noon day0) None None false emptyStore)
    as (_ & Herr & _).
  split.
  - by destruct (Hok eq_refl eq_refl sampleUser eq_refl) as [H _].
  - by rewrite (Herr eq_refl eq_refl).
Defined.

(** ** The history of a user *)

(** The statuses the check-in buttons of a card pass. *)
Lemma cardActions_status contract todayLog clock st :
  ActCheckIn st ∈ cardActions contract todayLog clock →
  st = "kept" ∨ st = "exception".
Proof.
  unfold cardActions. intros Hin.
  destruct todayLog as [l|];
    destruct (isFuture contract clock), (isExpired contract clock);
    cbn in Hin; rewrite ?elem_of_cons in Hin; rewrite ?elem_of_nil in Hin;
    intuition congruence.
Qed.

(** What an operation adds to the logs, the violation records and the
    journal. *)
Lemma exec_history uid s σ :
  ∃ newLogs newViolations newJournal,
    logsCol (exec uid s σ) = logsCol σ ++ newLogs
    ∧ violationsCol (exec uid s σ) = violationsCol σ ++ newViolations
    ∧ journalCol (exec uid s σ) = journalCol σ ++ newJournal
    ∧ temptationsCol (exec uid s σ) = temptationsCol σ
    ∧ (∀ opened, offeredIn uid opened s σ →
       (λ l, (l_contractId l, l_timestamp l))
       <$> filter (λ l, l_status l = "broken") newLogs
       = (λ v, (v_contractId v, v_timestamp v)) <$> newViolations).
Proof.
  assert (∃ newLogs newViolations newJournal,
            logsCol σ = logsCol σ ++ newLogs
            ∧ violationsCol σ = violationsCol σ ++ newViolations
            ∧ journalCol σ = journalCol σ ++ newJournal
            ∧ temptationsCol σ = temptationsCol σ
            ∧ (∀ opened, offeredIn uid opened s σ →
               (λ l, (l_contractId l, l_timestamp l))
               <$> filter (λ l, l_status l = "broken") newLogs
               = (λ v, (v_contractId v, v_timestamp v)) <$> newViolations))
    as Hnone.
  { exists [], [], []. by rewrite !app_nil_r. }
  unfold exec.
  destruct (s_op s) as [data newId|cid st notes|cid vd|cid|cid| |] eqn:Hop.
  - exact Hnone.
  - destruct (findContract cid (contracts (syncedClient uid (s_clock s) σ)))
      as [d|] eqn:Hf.
    2:{ unfold handleCheckIn. by rewrite Hf. }
    destruct (findContract_synced _ _ _ _ _ Hf) as [Hd Hc].
    destruct d as [j c]. simpl in Hd, Hc. subst j.
    rewrite (handleCheckIn_commit _ uid _ c) by done.
    match goal with
    | |- context [commit ?b σ] => destruct (commit b σ) as [σ'|] eqn:Hcm
    end; [|exact Hnone].
    apply commit_lists in Hcm as (Hl & Hv & Hj & Ht). simpl in *.
    eexists _, _, _. do 4 (split; [done|]).
    intros opened Hoff. unfold offeredIn in Hoff. cbv zeta in Hoff.
    rewrite Hop in Hoff.
    apply dashboardActions_elem in Hoff as (c' & _ & _ & Ha).
    apply cardActions_status in Ha.
    rewrite filter_cons, filter_nil. rewrite decide_False; [done|].
    simpl. by destruct Ha as [-> | ->].
  - destruct (findContract cid (contracts (syncedClient uid (s_clock s) σ)))
      as [d|] eqn:Hf; [|exact Hnone].
    destruct (handleViolation_all_or_nothing
                (onReportViolation d (syncedClient uid (s_clock s) σ)) vd
                (s_clock s) (s_ts s) σ)
      as [Heq|(avc & c' & Havc & _ & Heq)]; rewrite Heq; [exact Hnone|].
    simpl. eexists _, _, [].
    split; [reflexivity|]. split; [reflexivity|].
    split; [by rewrite app_nil_r|]. split; [done|]. intros _ _.
    rewrite filter_cons, filter_nil. by rewrite decide_True.
  - destruct (findContract cid (contracts (syncedClient uid (s_clock s) σ)))
      as [d|] eqn:Hf; [|exact Hnone].
    unfold handleCompleteContract. simpl.
    destruct (contractsCol σ !! d.1); exact Hnone.
  - exact Hnone.
  - destruct (weeklyRolloverUser_lists (s_clock s) σ) as (-> & -> & -> & ->).
    exact Hnone.
  - destruct (dailyAutoKeepUser_added (s_clock s) (s_ts s) σ)
      as (added & Hl & Hj & _).
    destruct (dailyAutoKeepUser_result (s_clock s) (s_ts s) σ)
      as (_ & _ & _ & Hv & Ht).
    eexists _, [], _.
    split; [exact Hl|]. split; [by rewrite app_nil_r|]. split; [exact Hj|].
    split; [exact Ht|]. intros _ _.
    clear. induction added as [|i added IH]; [done|].
    rewrite fmap_cons, filter_cons. by rewrite decide_False.
Qed.

(** X25. The history is append-only.  No sequence of operations (creation,
    check-in, violation report, completion, deletion of a contract, either
    job), offered or not, removes or rewrites a log, a violation record or a
    journal entry: what was written stays at its place and later writes come
    after it, also for a contract that has been deleted; and none of them
    touches the temptations. *)
Theorem history_append_only uid l σ :
  logsCol σ `prefix_of` logsCol (run uid l σ)
  ∧ violationsCol σ `prefix_of` violationsCol (run uid l σ)
  ∧ journalCol σ `prefix_of` journalCol (run uid l σ)
  ∧ temptationsCol (run uid l σ) = temptationsCol σ.
Proof.
  revert σ. induction l as [|s l IH]; intros σ; [done|].
  simpl. destruct (IH (exec uid s σ)) as (Hl & Hv & Hj & Ht).
  destruct (exec_history uid s σ) as (nl & nv & nj & El & Ev & Ej & Et & _).
  rewrite El in Hl. rewrite Ev in Hv. rewrite Ej in Hj. rewrite Et in Ht.
  split; [|split; [|split]]; try done;
    (etrans; [|eassumption]); by apply prefix_app_r.
Qed.

(** X26. Broken days and violation records match.  Through moves that are
    each offered by the dashboard of their session when they are made, also
    from sessions left open over midnight, the broken days of the logs and
    the violation records stay in one-to-one correspondence, in the order of
    the writes, each pair with the same contract and the same time: a
    violation report writes both in one batch, and nothing else writes
    either (the check-in buttons pass [kept] or [exception], the auto-keep
    job writes [kept]). *)
Theorem broken_days_match_violations uid σ l σ' :
  sessionSteps uid σ l σ' →
  brokenLogs σ = violationKeys σ → brokenLogs σ' = violationKeys σ'.
Proof.
  intros Hsteps.
  induction Hsteps as [σ|σ [opened s] l σ' [Hoff _] _ IH]; [done|].
  intros Hinv. apply IH. unfold brokenLogs, violationKeys in *.
  cbn [fst snd] in *.
  destruct (exec_history uid s σ) as (nl & nv & nj & -> & -> & _ & _ & Hnew).
  rewrite filter_app, !fmap_app, Hinv. f_equal. by apply (Hnew opened).
Qed.

Lemma broken_days_match_violations_witness :
  brokenLogs (run "u1" (snd <$> twoDays)
                (sampleStore (autoKeepContract 5) []))
  = [("c1", noon (day0 + 1) + 1)]
  ∧ violationKeys (run "u1" (snd <$> twoDays)
                     (sampleStore (autoKeepContract 5) []))
    = [("c1", noon (day0 + 1) + 1)].
Proof.
  split; [reflexivity|].
  rewrite <- (broken_days_match_violations "u1"
                (sampleStore (autoKeepContract 5) []) twoDays).
  - reflexivity.
  - apply twoDays_offered.
  - reflexivity.
Defined.
